(** * micr-AI: the extraction-record pipeline

    A shallow embedding of the data-shaping code of micr-AI:
    - [lib/extraction.ts]: the Zod schemas [entitySchema] and
      [extractionSchema], [extractEntitiesFromText] (from the HTTP response
      onwards) and [buildExtractionRecord];
    - [lib/download.ts]: [downloadRecordAsJson] and [downloadRecordAsCsv];
    - [lib/storage.ts]: [loadStoredRecords];
    - [types/extraction.ts]: [MicrobialEntity], [ExtractionSummary] and
      [ExtractionRecord].

    JavaScript strings are sequences of UTF-16 code units, numbers are
    binary64 values ([spec_float]), JSON objects are finite maps keyed by
    strings.  What the platform provides ([JSON.parse], [String] of a number,
    [crypto.randomUUID], the formatting of an ISO date, [JSON.stringify]) is
    collected in the class [Platform]. *)

From Stdlib Require Import ZArith NArith List Ascii String Bool Lia.
From Stdlib Require Import Floats.SpecFloat.
From Stdlib Require DecimalString.
From stdpp Require Import base option list gmap.

Local Open Scope N_scope.

(** ** Strings *)

(** A JavaScript string is the list of its UTF-16 code units. *)
Abbreviation jsstring := (list N).

(** The string of an ASCII literal of the source. *)
Definition str (s : string) : jsstring :=
  List.map N_of_ascii (list_ascii_of_string s).
Arguments str : simpl never.

(** [s.length] *)
Definition js_length (s : jsstring) : nat := length s.

(** Truthiness of a string: only the empty string is falsy. *)
Definition truthy_string (s : jsstring) : bool :=
  match s with
  | [] => false
  | _ :: _ => true
  end.

(** [WhiteSpace] and [LineTerminator] of ECMA-262, the code points that
    [String.prototype.trim] strips; all of them lie in the basic plane. *)
Definition is_white_space (c : N) : bool :=
  (c =? 0x09) || (c =? 0x0B) || (c =? 0x0C) || (c =? 0x20) || (c =? 0xA0)
  || (c =? 0xFEFF) || (c =? 0x1680) || ((0x2000 <=? c) && (c <=? 0x200A))
  || (c =? 0x202F) || (c =? 0x205F) || (c =? 0x3000).

Definition is_line_terminator (c : N) : bool :=
  (c =? 0x0A) || (c =? 0x0D) || (c =? 0x2028) || (c =? 0x2029).

Definition is_trimmed_char (c : N) : bool :=
  is_white_space c || is_line_terminator c.

Fixpoint trimStart (s : jsstring) : jsstring :=
  match s with
  | [] => []
  | c :: rest => if is_trimmed_char c then trimStart rest else s
  end.

Definition trimEnd (s : jsstring) : jsstring := rev (trimStart (rev s)).

(** [s.trim()] *)
Definition trim (s : jsstring) : jsstring := trimEnd (trimStart s).
Arguments trim : simpl never.

(** [xs.join(sep)] on an array of strings. *)
Fixpoint join (sep : jsstring) (xs : list jsstring) : jsstring :=
  match xs with
  | [] => []
  | [x] => x
  | x :: rest => x ++ sep ++ join sep rest
  end.

(** [s.includes(c)] for a one-character needle. *)
Definition includes (c : N) (s : jsstring) : bool :=
  existsb (N.eqb c) s.

(** [s.replace(/c/g, by)]: every occurrence of the character [c] is
    replaced. *)
Definition replace_all_char (c : N) (by_ : jsstring) (s : jsstring) : jsstring :=
  flat_map (fun x => if x =? c then by_ else [x]) s.

(** Relative index of [slice]: a negative index counts from the end, and
    the result is clamped to [0, len]. *)
Definition slice_index (len i : Z) : Z :=
  if (i <? 0)%Z then Z.max (len + i) 0 else Z.min i len.

(** [x.slice(start, end)], the same for [String.prototype.slice] (on code
    units) and [Array.prototype.slice] (on elements). *)
Definition slice {A : Type} (start end_ : Z) (x : list A) : list A :=
  let len := Z.of_nat (length x) in
  let from := slice_index len start in
  let to := slice_index len end_ in
  firstn (Z.to_nat (Z.max (to - from) 0)) (skipn (Z.to_nat from) x).

(** *** Code points

    The string iterator of ECMA-262 reads a high surrogate followed by a low
    surrogate as one code point, and any other code unit as one code point
    of its own. *)
Definition is_high_surrogate (c : N) : bool := (0xD800 <=? c) && (c <=? 0xDBFF).
Definition is_low_surrogate (c : N) : bool := (0xDC00 <=? c) && (c <=? 0xDFFF).

Fixpoint code_points (s : jsstring) : list N :=
  match s with
  | [] => []
  | c :: rest =>
      match rest with
      | d :: rest' =>
          if is_high_surrogate c && is_low_surrogate d
          then (0x10000 + (c - 0xD800) * 0x400 + (d - 0xDC00)) :: code_points rest'
          else c :: code_points rest
      | [] => [c]
      end
  end.

(** The prefix of [s] that holds its first [n] code points: what "the first
    [n] characters counted in Unicode scalar units" denotes. *)
Fixpoint take_code_points (n : nat) (s : jsstring) : jsstring :=
  match n with
  | O => []
  | S n' =>
      match s with
      | [] => []
      | c :: rest =>
          match rest with
          | d :: rest' =>
              if is_high_surrogate c && is_low_surrogate d
              then c :: d :: take_code_points n' rest'
              else c :: take_code_points n' rest
          | [] => [c]
          end
      end
  end.

(** ** Regular expressions

    The fragment of the regular expressions the sources use: a sequence of
    single-character atoms, optionally anchored at the end of the input
    ([$] without the [m] flag), optionally with the [i] flag. *)
Inductive atom : Type :=
| Char (c : N)  (* a literal character; [\\] in a regex literal is [Char 92] *)
| Dot.          (* [.]: any character but a line terminator *)

Record regex : Type := {
  atoms : list atom;
  anchored_end : bool;
  ignore_case : bool
}.

(** [Canonicalize] under the [i] flag, on the ASCII letters.  ECMA-262 never
    maps a code unit above 127 to one below 128, so against ASCII pattern
    characters this is the whole of the case folding. *)
Definition canonicalize (c : N) : N :=
  if (0x61 <=? c) && (c <=? 0x7A) then c - 0x20 else c.

Definition atom_matches (i : bool) (a : atom) (c : N) : bool :=
  match a with
  | Char p => if i then canonicalize p =? canonicalize c else p =? c
  | Dot => negb (is_line_terminator c)
  end.

(** Matches the atoms at the head of [s]; returns what follows the match. *)
Fixpoint match_atoms (i : bool) (as_ : list atom) (s : jsstring) : option jsstring :=
  match as_ with
  | [] => Some s
  | a :: as' =>
      match s with
      | [] => None
      | c :: rest => if atom_matches i a c then match_atoms i as' rest else None
      end
  end.

Definition match_here (re : regex) (s : jsstring) : option jsstring :=
  match match_atoms (ignore_case re) (atoms re) s with
  | Some rest =>
      if anchored_end re
      then match rest with [] => Some rest | _ :: _ => None end
      else Some rest
  | None => None
  end.

(** [s.replace(re, by)] without the [g] flag: the leftmost match is replaced,
    a string without a match is returned as it is. *)
Fixpoint replace_first (re : regex) (by_ : jsstring) (s : jsstring) : jsstring :=
  match match_here re s with
  | Some rest => by_ ++ rest
  | None =>
      match s with
      | [] => []
      | c :: s' => c :: replace_first re by_ s'
      end
  end.

(** ** Numbers *)

(** A JavaScript number is a binary64 value. *)
Abbreviation number := spec_float.

Definition prec : Z := 53.
Definition emax : Z := 1024.

(** The values a number can take: the mantissa and exponent of a finite
    number are the canonical ones of binary64. *)
Definition is_binary64 (n : number) : bool := valid_binary prec emax n.

Definition num_zero : number := S754_zero false.
Definition num_one : number := S754_finite false 4503599627370496 (-52).

(** [a < b], [a > b] and [a - b] *)
Definition num_lt (a b : number) : bool := SFltb a b.
Definition num_gt (a b : number) : bool := SFltb b a.
Definition num_le (a b : number) : bool := SFleb a b.
Definition num_sub (a b : number) : number := SFsub prec emax a b.

Definition is_nan (n : number) : bool :=
  match n with
  | S754_nan => true
  | _ => false
  end.

(** Truthiness of a number: [0], [-0] and [NaN] are falsy. *)
Definition truthy_number (n : number) : bool :=
  match n with
  | S754_zero _ | S754_nan => false
  | _ => true
  end.

(** ** JSON values *)

#[warnings="-register-all"]
Inductive json : Type :=
| JNull
| JBool (b : bool)
| JNum (n : number)
| JStr (s : jsstring)
| JArr (elements : list json)
| JObj (properties : gmap jsstring json).

(** [T | null | undefined] *)
Inductive maybe (A : Type) : Type :=
| Undefined
| Null
| Val (a : A).
Arguments Undefined {A}.
Arguments Null {A}.
Arguments Val {A} a.

(** [v ?? d] *)
Definition nullish {A : Type} (v : maybe A) (d : A) : A :=
  match v with
  | Val a => a
  | _ => d
  end.

(** [v ?? null] *)
Definition or_null {A : Type} (v : maybe A) : maybe A :=
  match v with
  | Val a => Val a
  | _ => Null
  end.

(** [x.key] on a value that is not nullish, for a key that no prototype
    defines; [None] is [undefined]. *)
Definition get_prop (x : json) (key : jsstring) : option json :=
  match x with
  | JObj o => o !! key
  | _ => None
  end.

(** [x[0]]; a string has its characters as indexed properties. *)
Definition get_first (x : json) : option json :=
  match x with
  | JObj o => o !! str "0"
  | JArr l => head l
  | JStr s => match s with [] => None | c :: _ => Some (JStr [c]) end
  | _ => None
  end.

(** [x?.f]: [undefined] when [x] is nullish. *)
Definition opt_chain (x : option json) (f : json -> option json) : option json :=
  match x with
  | None | Some JNull => None
  | Some v => f v
  end.

(** ** Completions: normal results and thrown exceptions *)

(** The messages of the [Error]s the sources construct. *)
Inductive message : Type :=
| ApiFailed (status : number) (body : jsstring)
    (* the API call failed, with the HTTP status and the response text *)
| NotJson        (* the model's content is not legal JSON *)
| Unrecognised.  (* the model's data does not have the expected format *)

Inductive exn : Type :=
| Error (m : message)  (* [new Error(...)] of the sources *)
| SyntaxError          (* [JSON.parse], [response.json()] *)
| RangeError           (* [toISOString] of an invalid date *)
| SecurityError        (* access to [localStorage] refused *)
| TypeError.           (* [fetch] rejected *)

Inductive completion (A : Type) : Type :=
| Normal (a : A)
| Throw (e : exn).
Arguments Normal {A} a.
Arguments Throw {A} e.

#[export] Instance completion_ret : MRet completion := fun A a => Normal a.
#[export] Instance completion_bind : MBind completion := fun A B f m =>
  match m with
  | Normal a => f a
  | Throw e => Throw e
  end.

(** [try { body } catch (error) { handler }] *)
Definition try_catch {A : Type} (body : completion A) (handler : exn -> completion A)
  : completion A :=
  match body with
  | Normal a => Normal a
  | Throw e => handler e
  end.

(** Code that also draws identifiers from [crypto.randomUUID]: the state is
    the number of identifiers drawn so far. *)
Definition M (A : Type) : Type := nat -> completion A * nat.

#[export] Instance M_ret : MRet M := fun A a k => (Normal a, k).
#[export] Instance M_bind : MBind M := fun A B f m k =>
  match m k with
  | (Normal a, k') => f a k'
  | (Throw e, k') => (Throw e, k')
  end.

Definition lift {A : Type} (c : completion A) : M A := fun k => (c, k).
Definition throw {A : Type} (e : exn) : M A := lift (Throw e).

(** [xs.map(f)] for a callback with effects, called on the elements in
    order. *)
Fixpoint map_M {A B : Type} (f : A -> M B) (xs : list A) : M (list B) :=
  match xs with
  | [] => mret []
  | x :: rest => y ← f x; ys ← map_M f rest; mret (y :: ys)
  end.

(** ** The data model ([types/extraction.ts]) *)

Module MicrobialEntity.
Record t : Type := {
  id : jsstring;
  genus : maybe jsstring;
  species : maybe jsstring;
  subspecies : maybe jsstring;
  serovar : maybe jsstring;
  strain : maybe jsstring;
  mlst_st : maybe jsstring;
  taxonomy_id : maybe jsstring;
  source : maybe jsstring;
  resistance : option (list jsstring);  (* [resistance?: string[]] *)
  pathogenicity : maybe jsstring;
  context : maybe jsstring;
  confidence : maybe number
}.
End MicrobialEntity.

Module ExtractionSummary.
(** The counts are lengths of arrays and sums of such lengths, which are
    exact in binary64; they are kept as natural numbers. *)
Record t : Type := {
  organismCount : nat;
  uniqueSpecies : nat;
  resistanceCount : nat;
  sourceCount : nat;
  pathogenicityCount : nat;
  keyFindings : list jsstring
}.
End ExtractionSummary.

Module ExtractionRecord.
Record t : Type := {
  id : jsstring;
  fileName : jsstring;
  fileSize : number;
  processedAt : jsstring;
  durationMs : number;
  summary : ExtractionSummary.t;
  entities : list MicrobialEntity.t;
  rawTextPreview : jsstring
}.
End ExtractionRecord.

(** ** The platform *)

Class Platform : Type := {
  (** [JSON.parse(text)]; [None] when it throws [SyntaxError]. *)
  JSON_parse : jsstring -> option json;
  (** [String(n)] for a number [n]. *)
  Number_toString : number -> jsstring;
  (** The identifier that the [k]-th call of [crypto.randomUUID()] yields. *)
  randomUUID_at : nat -> jsstring;
  (** The ISO-8601 text of a valid time value. *)
  Date_format : number -> jsstring;
  (** [JSON.stringify(record, null, 2)] *)
  JSON_stringify : ExtractionRecord.t -> jsstring
}.

(** ** Zod

    A schema parses [undefined] ([None]) or a JSON value into its output
    type, or fails ([None]): [safeParse] succeeds exactly when no issue is
    raised anywhere in the value.  The semantics is that of Zod 3. *)
Module z.
Definition schema (A : Type) : Type := option json -> option A.

(** [z.string()] *)
Definition string : schema jsstring := fun v =>
  match v with
  | Some (JStr s) => Some s
  | _ => None
  end.

(** [.trim()] *)
Definition trim (s : schema jsstring) : schema jsstring := fun v =>
  trim <$> s v.

(** [z.number()]: [NaN] is not of the type. *)
Definition number : schema number := fun v =>
  match v with
  | Some (JNum n) => if is_nan n then None else Some n
  | _ => None
  end.

(** [.min(bound)]: an issue when [data < bound]. *)
Definition min (bound : spec_float) (s : schema spec_float) : schema spec_float := fun v =>
  n ← s v; if num_lt n bound then None else Some n.

(** [.max(bound)]: an issue when [data > bound]. *)
Definition max (bound : spec_float) (s : schema spec_float) : schema spec_float := fun v =>
  n ← s v; if num_gt n bound then None else Some n.

(** [.optional()] *)
Definition optional {A : Type} (s : schema A) : schema (maybe A) := fun v =>
  match v with
  | None => Some Undefined
  | Some _ => Val <$> s v
  end.

(** [.nullable()], on a schema made optional *)
Definition nullable {A : Type} (s : schema (maybe A)) : schema (maybe A) := fun v =>
  match v with
  | Some JNull => Some Null
  | _ => s v
  end.

(** [.default(d)]: [undefined] is replaced by [d] before parsing. *)
Definition default {A : Type} (d : json) (s : schema A) : schema A := fun v =>
  match v with
  | None => s (Some d)
  | Some _ => s v
  end.

(** [z.union([a, b])]: the first option that parses. *)
Definition union {A B : Type} (a : schema A) (b : schema B) : schema (A + B) := fun v =>
  match a v with
  | Some x => Some (inl x)
  | None => inr <$> b v
  end.

(** [z.array(s)] *)
Definition array {A : Type} (s : schema A) : schema (list A) := fun v =>
  match v with
  | Some (JArr l) => mapM (fun x => s (Some x)) l
  | _ => None
  end.

(** [z.object({...})]: the value must be an object; [shape] parses the
    keys of the shape, unknown keys are stripped. *)
Definition object {A : Type} (shape : gmap jsstring json -> option A) : schema A := fun v =>
  match v with
  | Some (JObj o) => shape o
  | _ => None
  end.
End z.

(** ** [lib/extraction.ts]: the schemas *)

(** The output types of the schemas. *)
Module Parsed.
Record context_t : Type := { snippet : jsstring }.

Record entity : Type := {
  genus : maybe jsstring;
  species : maybe jsstring;
  subspecies : maybe jsstring;
  serovar : maybe jsstring;
  strain : maybe jsstring;
  mlst_st : maybe jsstring;
  taxonomy_id : maybe (jsstring + number);
  source : maybe jsstring;
  resistance : maybe (list jsstring + jsstring);
  pathogenicity : maybe jsstring;
  context : maybe context_t;
  confidence : maybe number;
  note : maybe jsstring
}.

Record summary_t : Type := { key_findings : list jsstring }.

Record extraction : Type := {
  entities : list entity;
  summary : summary_t
}.
End Parsed.

Definition contextSchema : z.schema Parsed.context_t :=
  z.object (fun o =>
    snippet ← z.string (o !! str "snippet");
    Some {| Parsed.snippet := snippet |}).

Definition entitySchema : z.schema Parsed.entity :=
  z.object (fun o =>
    genus ← z.nullable (z.optional (z.trim z.string)) (o !! str "genus");
    species ← z.nullable (z.optional (z.trim z.string)) (o !! str "species");
    subspecies ← z.nullable (z.optional (z.trim z.string)) (o !! str "subspecies");
    serovar ← z.nullable (z.optional (z.trim z.string)) (o !! str "serovar");
    strain ← z.nullable (z.optional (z.trim z.string)) (o !! str "strain");
    mlst_st ← z.nullable (z.optional (z.trim z.string)) (o !! str "mlst_st");
    taxonomy_id ← z.nullable (z.optional (z.union z.string z.number))
                    (o !! str "taxonomy_id");
    source ← z.nullable (z.optional (z.trim z.string)) (o !! str "source");
    resistance ← z.nullable (z.optional (z.union (z.array z.string) z.string))
                   (o !! str "resistance");
    pathogenicity ← z.nullable (z.optional (z.trim z.string))
                      (o !! str "pathogenicity");
    context ← z.nullable (z.optional contextSchema) (o !! str "context");
    confidence ← z.nullable (z.optional (z.max num_one (z.min num_zero z.number)))
                   (o !! str "confidence");
    note ← z.nullable (z.optional z.string) (o !! str "note");
    Some {| Parsed.genus := genus; Parsed.species := species;
            Parsed.subspecies := subspecies; Parsed.serovar := serovar;
            Parsed.strain := strain; Parsed.mlst_st := mlst_st;
            Parsed.taxonomy_id := taxonomy_id; Parsed.source := source;
            Parsed.resistance := resistance;
            Parsed.pathogenicity := pathogenicity;
            Parsed.context := context; Parsed.confidence := confidence;
            Parsed.note := note |}).

Definition summarySchema : z.schema Parsed.summary_t :=
  z.object (fun o =>
    key_findings ← z.default (JArr []) (z.array z.string) (o !! str "key_findings");
    Some {| Parsed.key_findings := key_findings |}).

Definition extractionSchema : z.schema Parsed.extraction :=
  z.object (fun o =>
    entities ← z.default (JArr []) (z.array entitySchema) (o !! str "entities");
    summary ← z.default (JObj {[ str "key_findings" := JArr [] ]}) summarySchema
                (o !! str "summary");
    Some {| Parsed.entities := entities; Parsed.summary := summary |}).

(** ** [lib/extraction.ts]: [extractEntitiesFromText] *)

(** What [fetch] resolves to. *)
Module Response.
Record t : Type := {
  ok : bool;
  status : number;
  text : jsstring;     (* [await response.text()] *)
  json : option json   (* [await response.json()]; [None] when it rejects *)
}.
End Response.

(** Truthiness and [String(v)] of a [string | number]. *)
Definition truthy_string_or_number (v : jsstring + number) : bool :=
  match v with
  | inl s => truthy_string s
  | inr n => truthy_number n
  end.

Definition String_of `{Platform} (v : jsstring + number) : jsstring :=
  match v with
  | inl s => s
  | inr n => Number_toString n
  end.

(** [xs.filter(Boolean)] on an array of strings. *)
Definition filter_Boolean (xs : list jsstring) : list jsstring :=
  List.filter truthy_string xs.

Section Extraction.
Context `{Platform}.

(** [crypto.randomUUID()] *)
Definition randomUUID : M jsstring := fun k =>
  (Normal (randomUUID_at k), S k).

(** [JSON.parse(text)] *)
Definition parse (text : jsstring) : completion json :=
  match JSON_parse text with
  | Some v => Normal v
  | None => Throw SyntaxError
  end.

(** [json?.choices?.[0]?.message?.content] *)
Definition contentRaw_of (envelope : json) : option json :=
  opt_chain
    (opt_chain
       (opt_chain
          (opt_chain (Some envelope) (fun j => get_prop j (str "choices")))
          get_first)
       (fun c => get_prop c (str "message")))
    (fun m => get_prop m (str "content")).

(** The content handed to the schema: the parsed text of the model, or
    [{}] when there is no text to parse. *)
Definition content_of (contentRaw : option json) : completion json :=
  match contentRaw with
  | Some (JStr s) =>
      if negb (Nat.eqb (js_length (trim s)) 0)
      then try_catch (parse s) (fun _ => Throw (Error NotJson))
      else Normal (JObj ∅)
  | _ => Normal (JObj ∅)
  end.

(** The callback of [parsed.data.entities.map]. *)
Definition normalizeEntity (entity : Parsed.entity) : M MicrobialEntity.t :=
  id ← randomUUID;
  let resistanceSource := Parsed.resistance entity in
  let resistance :=
    match resistanceSource with
    | Val (inl arr) => filter_Boolean arr
    | Val (inr s) => if truthy_string s then filter_Boolean [s] else []
    | _ => []
    end in
  mret {|
    MicrobialEntity.id := id;
    MicrobialEntity.genus := or_null (Parsed.genus entity);
    MicrobialEntity.species := or_null (Parsed.species entity);
    MicrobialEntity.subspecies := or_null (Parsed.subspecies entity);
    MicrobialEntity.serovar := or_null (Parsed.serovar entity);
    MicrobialEntity.strain := or_null (Parsed.strain entity);
    MicrobialEntity.mlst_st := or_null (Parsed.mlst_st entity);
    MicrobialEntity.taxonomy_id :=
      match Parsed.taxonomy_id entity with
      | Val v => if truthy_string_or_number v then Val (String_of v) else Null
      | _ => Null
      end;
    MicrobialEntity.source := or_null (Parsed.source entity);
    MicrobialEntity.resistance := Some resistance;
    MicrobialEntity.pathogenicity := or_null (Parsed.pathogenicity entity);
    MicrobialEntity.context :=
      match Parsed.context entity with
      | Val c => Val (Parsed.snippet c)
      | _ => Null
      end;
    MicrobialEntity.confidence := or_null (Parsed.confidence entity)
  |}.

(** The normalizer proper: validation of the content against the schema,
    then the mapping of the entities. *)
Definition normalize (content : json) : M (list MicrobialEntity.t) :=
  match extractionSchema (Some content) with
  | None => throw (Error Unrecognised)
  | Some data => map_M normalizeEntity (Parsed.entities data)
  end.

(** [extractEntitiesFromText], from the result of [fetch] onwards. *)
Definition extractEntitiesFromText (fetched : completion Response.t)
  : M (list MicrobialEntity.t) :=
  response ← lift fetched;
  if negb (Response.ok response)
  then throw (Error (ApiFailed (Response.status response) (Response.text response)))
  else
    envelope ← lift (match Response.json response with
                 | Some j => Normal j
                 | None => Throw SyntaxError
                 end);
    let contentRaw := contentRaw_of envelope in
    content ← lift (content_of contentRaw);
    normalize content.
End Extraction.

(** ** [lib/extraction.ts]: [buildExtractionRecord] *)

Module Params.
Record t : Type := {
  fileName : jsstring;
  fileSize : number;
  startedAt : number;
  finishedAt : number;
  entities : list MicrobialEntity.t;
  rawText : jsstring
}.
End Params.

(** Truthiness of a [string | null | undefined]. *)
Definition truthy_maybe (v : maybe jsstring) : bool :=
  match v with
  | Val s => truthy_string s
  | _ => false
  end.

(** [xs.join(sep)] on an array of [string | null | undefined]: a nullish
    element is joined as the empty string. *)
Definition join_maybe (sep : jsstring) (xs : list (maybe jsstring)) : jsstring :=
  join sep (List.map (fun v => nullish v []) xs).

#[export] Instance maybe_eq_dec {A : Type} `{EqDecision A} : EqDecision (maybe A).
Proof. solve_decision. Defined.

(** [new Set(xs).size]: the number of distinct elements. *)
Definition Set_size {A : Type} `{EqDecision A} (xs : list A) : nat :=
  length (remove_dups xs).

(** The placeholder label of [keyFindings], an "unnamed entity". *)
Definition placeholder : jsstring := [0x672A; 0x547D; 0x540D; 0x5B9E; 0x4F53].

(** The largest time value of a [Date], 8.64e15 ms. *)
Definition max_time : number := S754_finite false 8640000000000000 0.

(** [TimeClip] keeps a time value exactly when it is finite and at most
    [max_time] in magnitude. *)
Definition time_valid (t : number) : bool := num_le (SFabs t) max_time.

Section Record_builder.
Context `{Platform}.

(** [new Date(t).toISOString()] *)
Definition toISOString (t : number) : completion jsstring :=
  if time_valid t then Normal (Date_format t) else Throw RangeError.

Definition species_label (entity : MicrobialEntity.t) : maybe jsstring :=
  let s := join_maybe (str " ")
             (List.filter truthy_maybe
                [MicrobialEntity.genus entity; MicrobialEntity.species entity]) in
  if truthy_string s then Val s else Null.

Definition finding_label (entity : MicrobialEntity.t) : jsstring :=
  let s := join_maybe (str " ")
             (List.filter truthy_maybe
                [MicrobialEntity.genus entity; MicrobialEntity.species entity;
                 MicrobialEntity.strain entity]) in
  if truthy_string s then s else placeholder.

Definition buildExtractionRecord (params : Params.t) : M ExtractionRecord.t :=
  let fileName := Params.fileName params in
  let fileSize := Params.fileSize params in
  let startedAt := Params.startedAt params in
  let finishedAt := Params.finishedAt params in
  let entities := Params.entities params in
  let rawText := Params.rawText params in
  let organismCount := length entities in
  let uniqueSpecies :=
    Set_size (List.filter truthy_maybe (List.map species_label entities)) in
  let resistanceCount :=
    fold_left
      (fun acc entity =>
         (acc + match MicrobialEntity.resistance entity with
                | Some r => length r
                | None => 0
                end)%nat)
      entities 0%nat in
  let sourceCount :=
    length (List.filter (fun entity => truthy_maybe (MicrobialEntity.source entity))
              entities) in
  let pathogenicityCount :=
    length (List.filter
              (fun entity => truthy_maybe (MicrobialEntity.pathogenicity entity))
              entities) in
  id ← randomUUID;
  processedAt ← lift (toISOString finishedAt);
  mret {|
    ExtractionRecord.id := id;
    ExtractionRecord.fileName := fileName;
    ExtractionRecord.fileSize := fileSize;
    ExtractionRecord.processedAt := processedAt;
    ExtractionRecord.durationMs := num_sub finishedAt startedAt;
    ExtractionRecord.summary := {|
      ExtractionSummary.organismCount := organismCount;
      ExtractionSummary.uniqueSpecies := uniqueSpecies;
      ExtractionSummary.resistanceCount := resistanceCount;
      ExtractionSummary.sourceCount := sourceCount;
      ExtractionSummary.pathogenicityCount := pathogenicityCount;
      ExtractionSummary.keyFindings :=
        List.map finding_label (slice 0 5 entities)
    |};
    ExtractionRecord.entities := entities;
    ExtractionRecord.rawTextPreview := slice 0 600 rawText
  |}.
End Record_builder.

(** ** [lib/download.ts] *)

(** What [downloadBlob] hands to the browser: the content and the type of
    the blob, and the name of the downloaded file. *)
Module Download.
Record t : Type := {
  content : jsstring;
  type : jsstring;
  fileName : jsstring
}.
End Download.

(** The regex literal [/\\.pdf$/i] of the source: a backslash, any
    character, then [pdf], at the end of the input. *)
Definition pdf_pattern : regex := {|
  atoms := [Char 0x5C; Dot; Char 0x70; Char 0x64; Char 0x66];
  anchored_end := true;
  ignore_case := true
|}.

(** A value read from an entity by the name of a property. *)
Inductive value : Type :=
| VUndefined
| VNull
| VString (s : jsstring)
| VNumber (n : number)
| VArray (xs : list jsstring).

Definition value_of_string (v : maybe jsstring) : value :=
  match v with
  | Undefined => VUndefined
  | Null => VNull
  | Val s => VString s
  end.

Definition value_of_number (v : maybe number) : value :=
  match v with
  | Undefined => VUndefined
  | Null => VNull
  | Val n => VNumber n
  end.

(** [(entity as Record<string, unknown>)[key]] *)
Definition property (entity : MicrobialEntity.t) (key : jsstring) : value :=
  if decide (key = str "id") then VString (MicrobialEntity.id entity)
  else if decide (key = str "genus") then value_of_string (MicrobialEntity.genus entity)
  else if decide (key = str "species") then value_of_string (MicrobialEntity.species entity)
  else if decide (key = str "subspecies") then value_of_string (MicrobialEntity.subspecies entity)
  else if decide (key = str "serovar") then value_of_string (MicrobialEntity.serovar entity)
  else if decide (key = str "strain") then value_of_string (MicrobialEntity.strain entity)
  else if decide (key = str "mlst_st") then value_of_string (MicrobialEntity.mlst_st entity)
  else if decide (key = str "taxonomy_id") then value_of_string (MicrobialEntity.taxonomy_id entity)
  else if decide (key = str "source") then value_of_string (MicrobialEntity.source entity)
  else if decide (key = str "resistance") then
    match MicrobialEntity.resistance entity with
    | Some xs => VArray xs
    | None => VUndefined
    end
  else if decide (key = str "pathogenicity") then value_of_string (MicrobialEntity.pathogenicity entity)
  else if decide (key = str "context") then value_of_string (MicrobialEntity.context entity)
  else if decide (key = str "confidence") then value_of_number (MicrobialEntity.confidence entity)
  else VUndefined.

Definition headers : list jsstring :=
  [str "genus"; str "species"; str "subspecies"; str "serovar"; str "strain";
   str "mlst_st"; str "taxonomy_id"; str "source"; str "resistance";
   str "pathogenicity"; str "context"; str "confidence"].

(** The double quote, the comma and the line feed. *)
Definition dquote : N := 0x22.
Definition comma : N := 0x2C.
Definition newline : N := 0x0A.

(** The [replace] of the cells: every double quote becomes two. *)
Definition double_quotes (s : jsstring) : jsstring :=
  replace_all_char dquote [dquote; dquote] s.

Section Exports.
Context `{Platform}.

Definition downloadRecordAsJson (record : ExtractionRecord.t) : Download.t := {|
  Download.content := JSON_stringify record;
  Download.type := str "application/json";
  Download.fileName :=
    replace_first pdf_pattern [] (ExtractionRecord.fileName record)
    ++ str "-micr-ai.json"
|}.

(** The callback of [headers.map]: the cell of one value. *)
Definition cell (v : value) : jsstring :=
  match v with
  | VArray xs => [dquote] ++ double_quotes (join (str "; ") xs) ++ [dquote]
  | VUndefined | VNull => []
  | VString s =>
      let s' := double_quotes s in
      if includes comma s' || includes newline s'
      then [dquote] ++ s' ++ [dquote]
      else s'
  | VNumber n =>
      let s' := double_quotes (Number_toString n) in
      if includes comma s' || includes newline s'
      then [dquote] ++ s' ++ [dquote]
      else s'
  end.

Definition row (entity : MicrobialEntity.t) : jsstring :=
  join [comma] (List.map (fun header => cell (property entity header)) headers).

Definition downloadRecordAsCsv (record : ExtractionRecord.t) : Download.t :=
  let rows := List.map row (ExtractionRecord.entities record) in
  let csv := join [newline] (join [comma] headers :: rows) in
  {|
    Download.content := csv;
    Download.type := str "text/csv;charset=utf-8;";
    Download.fileName :=
      replace_first pdf_pattern [] (ExtractionRecord.fileName record)
      ++ str "-micr-ai.csv"
  |}.
End Exports.

(** ** [lib/storage.ts] *)

Definition RECORDS_KEY : jsstring := str "micr-ai:records".

(** [window.localStorage]: its items, and whether the browser refuses the
    access to it (then every operation throws). *)
Module Storage.
Record t : Type := {
  refused : bool;
  items : gmap jsstring jsstring
}.

(** [getItem(key)]; [None] is [null]. *)
Definition getItem (storage : t) (key : jsstring) : completion (option jsstring) :=
  if refused storage then Throw SecurityError else Normal (items storage !! key).
End Storage.

Section History.
Context `{Platform}.

(** [loadStoredRecords()]; [window] is [None] where the global [window]
    is not defined.  The cast of the parsed value to [ExtractionRecord[]]
    checks nothing: what is returned is the array as it was parsed. *)
Definition loadStoredRecords (window : option Storage.t) : completion (list json) :=
  match window with
  | None => Normal []
  | Some localStorage =>
      try_catch
        (raw ← Storage.getItem localStorage RECORDS_KEY;
         match raw with
         | None => Normal []
         | Some text =>
             if negb (truthy_string text) then Normal []
             else
               parsed ← parse text;
               Normal match parsed with
                      | JArr records => records
                      | _ => []
                      end
         end)
        (fun error => Normal [])
  end.
End History.

(** ** A platform and data for the examples *)

(** The number of an integer literal. *)
Definition num_of_Z (i : Z) : number := binary_normalize prec emax i 0 false.

(** [a / b], for the fractions of the examples. *)
Definition num_div (a b : number) : number := SFdiv prec emax a b.

Definition decimal (z : Z) : jsstring :=
  str (DecimalString.NilZero.string_of_int (Z.to_int z)).

(** A platform on which the examples run.  [JSON.parse] knows the texts the
    examples use, [String] prints the integers, the identifiers are numbered,
    and every date is printed as the epoch. *)
Definition example_platform : Platform := {|
  JSON_parse := fun text =>
    if decide (text = str "[]") then Some (JArr [])
    else if decide (text = str "{}") then Some (JObj ∅)
    else if decide (text = str "7") then Some (JNum (num_of_Z 7))
    else if decide (text = str "{ }") then Some (JObj ∅)
    else None;
  Number_toString := fun n =>
    match n with
    | S754_zero _ => str "0"
    | S754_nan => str "NaN"
    | S754_infinity s => if s then str "-Infinity" else str "Infinity"
    | S754_finite s m e =>
        if (0 <=? e)%Z
        then decimal ((if s then -1 else 1) * Z.pos m * 2 ^ e)
        else if (Z.pos m mod 2 ^ (- e) =? 0)%Z
             then decimal ((if s then -1 else 1) * (Z.pos m / 2 ^ (- e)))
             else str "(fraction)"
    end;
  randomUUID_at := fun k => str "uuid-" ++ decimal (Z.of_nat k);
  Date_format := fun _ => str "1970-01-01T00:00:00.000Z";
  JSON_stringify := fun _ => str "{}"
|}.

Definition salmonella_raw : json :=
  JObj (<[ str "id" := JStr (str "from-the-model") ]>
       (<[ str "genus" := JStr (str "  Salmonella ") ]>
       (<[ str "species" := JStr (str "enterica") ]>
       (<[ str "serovar" := JStr (str "Typhimurium") ]>
       (<[ str "strain" := JNull ]>
       (<[ str "taxonomy_id" := JNum (num_of_Z 90371) ]>
       (<[ str "resistance" := JStr (str "ampicillin") ]>
       (<[ str "context" := JObj {[ str "snippet" := JStr (str "S. enterica was isolated") ]} ]>
       (<[ str "confidence" := JNum (num_div (num_of_Z 9) (num_of_Z 10)) ]>
       (<[ str "note" := JStr (str "checked") ]> ∅)))))))))).

Definition ecoli_properties : gmap jsstring json :=
  <[ str "genus" := JStr (str "Escherichia") ]>
    (<[ str "species" := JStr (str "coli") ]>
    (<[ str "taxonomy_id" := JNum (S754_zero false) ]>
    (<[ str "resistance" :=
          JArr [JStr (str "ampicillin"); JStr []; JStr (str "tetracycline")] ]>
       ∅))).

Definition ecoli_raw : json := JObj ecoli_properties.

Definition example_content : json :=
  JObj {[ str "entities" := JArr [salmonella_raw; ecoli_raw] ]}.

(** ** The specification's reading of the normalizer

    The coercion rules of the specification, written on the raw fields of
    an entity object, to be compared with what the code computes. *)

(** The value of a finite number [m * 2^e] is at most one. *)
Definition value_le_one (m : positive) (e : Z) : Prop :=
  (Z.pos m * 2 ^ Z.max e 0 <= 2 ^ Z.max (- e) 0)%Z.

(** The number lies in the closed interval from 0 to 1. *)
Definition in_unit_interval (n : number) : Prop :=
  match n with
  | S754_zero _ => True
  | S754_finite false m e => value_le_one m e
  | _ => False
  end.

(** The entity objects of a raw response, and the properties of one. *)
Definition raw_entities (content : json) : list json :=
  match content with
  | JObj o =>
      match o !! str "entities" with
      | Some (JArr es) => es
      | _ => []
      end
  | _ => []
  end.

Definition properties_of (raw : json) : gmap jsstring json :=
  match raw with
  | JObj o => o
  | _ => ∅
  end.

Definition is_object (raw : json) : Prop :=
  match raw with
  | JObj _ => True
  | _ => False
  end.

(** The strings among the elements of a raw array. *)
Definition json_strings (l : list json) : list jsstring :=
  omap (fun x => match x with JStr s => Some s | _ => None end) l.

(** A string field: trimmed, or null. *)
Definition spec_string (v : option json) : maybe jsstring :=
  match v with
  | Some (JStr s) => Val (trim s)
  | _ => Null
  end.

(** [taxonomy_id]: the text of a truthy string or number, or null. *)
Definition spec_taxonomy_id `{Platform} (v : option json) : maybe jsstring :=
  match v with
  | Some (JStr s) => if truthy_string s then Val s else Null
  | Some (JNum n) => if truthy_number n then Val (Number_toString n) else Null
  | _ => Null
  end.

(** [resistance]: a list from a single string or from a list, without the
    falsy entries; the empty list when absent or null. *)
Definition spec_resistance (v : option json) : list jsstring :=
  match v with
  | Some (JStr s) => if truthy_string s then [s] else []
  | Some (JArr l) => List.filter truthy_string (json_strings l)
  | _ => []
  end.

(** [context]: the snippet of the object, or null. *)
Definition spec_context (v : option json) : maybe jsstring :=
  match v with
  | Some (JObj c) =>
      match c !! str "snippet" with
      | Some (JStr s) => Val s
      | _ => Null
      end
  | _ => Null
  end.

(** [confidence]: the number, or null. *)
Definition spec_confidence (v : option json) : maybe number :=
  match v with
  | Some (JNum n) => Val n
  | _ => Null
  end.

(** The entity that the rules make of the properties [o] of a raw entity
    and of an identifier; the [note] and any other property of [o] have no
    part in it. *)
Definition spec_entity `{Platform} (id : jsstring) (o : gmap jsstring json)
  : MicrobialEntity.t := {|
  MicrobialEntity.id := id;
  MicrobialEntity.genus := spec_string (o !! str "genus");
  MicrobialEntity.species := spec_string (o !! str "species");
  MicrobialEntity.subspecies := spec_string (o !! str "subspecies");
  MicrobialEntity.serovar := spec_string (o !! str "serovar");
  MicrobialEntity.strain := spec_string (o !! str "strain");
  MicrobialEntity.mlst_st := spec_string (o !! str "mlst_st");
  MicrobialEntity.taxonomy_id := spec_taxonomy_id (o !! str "taxonomy_id");
  MicrobialEntity.source := spec_string (o !! str "source");
  MicrobialEntity.resistance := Some (spec_resistance (o !! str "resistance"));
  MicrobialEntity.pathogenicity := spec_string (o !! str "pathogenicity");
  MicrobialEntity.context := spec_context (o !! str "context");
  MicrobialEntity.confidence := spec_confidence (o !! str "confidence")
|}.

(** The response conforms to the expected shape: the schema accepts it. *)
Definition conforms (content : json) : Prop :=
  is_Some (extractionSchema (Some content)).

(** The content of the envelope carries no text to parse: it is absent, not
    a string, or a string that is empty once trimmed. *)
Definition no_text (contentRaw : option json) : Prop :=
  match contentRaw with
  | Some (JStr s) => trim s = []
  | _ => True
  end.

(** ** The specification's reading of the summary *)

(** The length of the resistance list of an entity, 0 without a list. *)
Definition resistance_length (entity : MicrobialEntity.t) : nat :=
  match MicrobialEntity.resistance entity with
  | Some r => length r
  | None => O
  end.

(** The usable parts of a label: the strings that are present and not
    empty. *)
Definition usable (parts : list (maybe jsstring)) : list jsstring :=
  omap (fun v => match v with
                 | Val (c :: s) => Some (c :: s)
                 | _ => None
                 end) parts.

(** The label of an entity: its usable parts among genus, species and
    strain joined by single spaces, or the placeholder when it has none. *)
Definition spec_label (entity : MicrobialEntity.t) : jsstring :=
  match usable [MicrobialEntity.genus entity; MicrobialEntity.species entity;
                MicrobialEntity.strain entity] with
  | [] => placeholder
  | parts => join (str " ") parts
  end.

(** The cell is wrapped in double quotes. *)
Definition quoted (c : jsstring) : Prop :=
  exists body, c = [dquote] ++ body ++ [dquote].

(** The eleven scalar columns of the table. *)
Definition scalar_headers : list jsstring :=
  [str "genus"; str "species"; str "subspecies"; str "serovar"; str "strain";
   str "mlst_st"; str "taxonomy_id"; str "source"; str "pathogenicity";
   str "context"; str "confidence"].

(** [String(v)] of a scalar value of an entity. *)
Definition scalar_text `{Platform} (v : value) : option jsstring :=
  match v with
  | VString s => Some s
  | VNumber n => Some (Number_toString n)
  | _ => None
  end.

(** The schema of [confidence] on a number: the three tests of the code. *)
Definition confidence_accepted (n : number) : bool :=
  negb (is_nan n) && negb (num_lt n num_zero) && negb (num_gt n num_one).

(** *** The expected shape

    The shape of a raw response that the specification expects, field by
    field, as a decidable predicate on the raw value. *)

Definition is_string (v : json) : bool :=
  match v with
  | JStr _ => true
  | _ => false
  end.

(** Absent, null, or a string. *)
Definition string_shape (v : option json) : bool :=
  match v with
  | None | Some JNull | Some (JStr _) => true
  | _ => false
  end.

(** Absent, null, a string, or a number (that is not [NaN]). *)
Definition taxonomy_id_shape (v : option json) : bool :=
  match v with
  | None | Some JNull | Some (JStr _) => true
  | Some (JNum n) => negb (is_nan n)
  | _ => false
  end.

(** Absent, null, a string, or a list of strings. *)
Definition resistance_shape (v : option json) : bool :=
  match v with
  | None | Some JNull | Some (JStr _) => true
  | Some (JArr l) => forallb is_string l
  | _ => false
  end.

(** Absent, null, or an object that carries a snippet string. *)
Definition context_shape (v : option json) : bool :=
  match v with
  | None | Some JNull => true
  | Some (JObj c) =>
      match c !! str "snippet" with
      | Some (JStr _) => true
      | _ => false
      end
  | _ => false
  end.

(** Absent, null, or a number that is at least 0 and at most 1. *)
Definition confidence_shape (v : option json) : bool :=
  match v with
  | None | Some JNull => true
  | Some (JNum n) => confidence_accepted n
  | _ => false
  end.

Definition entity_shape (raw : json) : bool :=
  match raw with
  | JObj o =>
      string_shape (o !! str "genus")
      && string_shape (o !! str "species")
      && string_shape (o !! str "subspecies")
      && string_shape (o !! str "serovar")
      && string_shape (o !! str "strain")
      && string_shape (o !! str "mlst_st")
      && taxonomy_id_shape (o !! str "taxonomy_id")
      && string_shape (o !! str "source")
      && resistance_shape (o !! str "resistance")
      && string_shape (o !! str "pathogenicity")
      && context_shape (o !! str "context")
      && confidence_shape (o !! str "confidence")
      && string_shape (o !! str "note")
  | _ => false
  end.

(** Absent, or an object whose key findings are absent or a list of
    strings. *)
Definition summary_shape (v : option json) : bool :=
  match v with
  | None => true
  | Some (JObj s) =>
      match s !! str "key_findings" with
      | None => true
      | Some (JArr l) => forallb is_string l
      | _ => false
      end
  | _ => false
  end.

(** An object whose entities are absent or a list of entities of the
    expected shape, and whose summary has the expected shape. *)
Definition expected_shape (content : json) : bool :=
  match content with
  | JObj o =>
      match o !! str "entities" with
      | None => true
      | Some (JArr es) => forallb entity_shape es
      | _ => false
      end
      && summary_shape (o !! str "summary")
  | _ => false
  end.

(** ** Data of the examples *)

(** A response whose second entity has a confidence of 1.5. *)
Definition overconfident_properties : gmap jsstring json :=
  <[ str "genus" := JStr (str "Listeria") ]>
    (<[ str "confidence" := JNum (num_div (num_of_Z 3) (num_of_Z 2)) ]> ∅).

Definition overconfident_content : json :=
  JObj {[ str "entities" := JArr [salmonella_raw; JObj overconfident_properties] ]}.

(** The taxonomy_id of the raw entity is the number 0 (of either sign) or
    the empty string. *)
Definition zero_or_empty (v : option json) : Prop :=
  match v with
  | Some (JNum (S754_zero _)) => True
  | Some (JStr []) => True
  | _ => False
  end.

(** An envelope of the API around a content, and an answer carrying it. *)
Definition envelope_of (content : json) : json :=
  JObj {[ str "choices" := JArr [JObj {[ str "message" := JObj {[ str "content" := content ]} ]}] ]}.

Definition answer (envelope : json) : Response.t := {|
  Response.ok := true;
  Response.status := num_of_Z 200;
  Response.text := [];
  Response.json := Some envelope
|}.

(** The entity of the example of the specification: no strain, and no
    other field than those given. *)
Definition salmonella : MicrobialEntity.t := {|
  MicrobialEntity.id := str "uuid-0";
  MicrobialEntity.genus := Val (str "Salmonella");
  MicrobialEntity.species := Val (str "enterica");
  MicrobialEntity.subspecies := Undefined;
  MicrobialEntity.serovar := Val (str "Typhimurium");
  MicrobialEntity.strain := Undefined;
  MicrobialEntity.mlst_st := Undefined;
  MicrobialEntity.taxonomy_id := Undefined;
  MicrobialEntity.source := Undefined;
  MicrobialEntity.resistance := Some [str "ampicillin"];
  MicrobialEntity.pathogenicity := Undefined;
  MicrobialEntity.context := Undefined;
  MicrobialEntity.confidence := Undefined
|}.

(** An entity of which nothing is known, and without a resistance list. *)
Definition unnamed : MicrobialEntity.t := {|
  MicrobialEntity.id := str "uuid-1";
  MicrobialEntity.genus := Null;
  MicrobialEntity.species := Val [];
  MicrobialEntity.subspecies := Null;
  MicrobialEntity.serovar := Null;
  MicrobialEntity.strain := Undefined;
  MicrobialEntity.mlst_st := Null;
  MicrobialEntity.taxonomy_id := Null;
  MicrobialEntity.source := Null;
  MicrobialEntity.resistance := None;
  MicrobialEntity.pathogenicity := Null;
  MicrobialEntity.context := Null;
  MicrobialEntity.confidence := Null
|}.

Definition example_params (entities : list MicrobialEntity.t) (rawText : jsstring)
  : Params.t := {|
  Params.fileName := str "report.pdf";
  Params.fileSize := num_of_Z 2048;
  Params.startedAt := num_of_Z 120;
  Params.finishedAt := num_of_Z 4500;
  Params.entities := entities;
  Params.rawText := rawText
|}.

(** A text of [n] microbe emoji (U+1F9A0), each of them two code units. *)
Definition microbes (n : nat) : jsstring :=
  concat (repeat [0xD83E; 0xDDA0] n).

(** A record around a file name and entities, for the exports. *)
Definition example_record (fileName : jsstring) (entities : list MicrobialEntity.t)
  : ExtractionRecord.t := {|
  ExtractionRecord.id := str "uuid-9";
  ExtractionRecord.fileName := fileName;
  ExtractionRecord.fileSize := num_of_Z 2048;
  ExtractionRecord.processedAt := str "1970-01-01T00:00:00.000Z";
  ExtractionRecord.durationMs := num_of_Z 4380;
  ExtractionRecord.summary := {|
    ExtractionSummary.organismCount := length entities;
    ExtractionSummary.uniqueSpecies := 0;
    ExtractionSummary.resistanceCount := 0;
    ExtractionSummary.sourceCount := 0;
    ExtractionSummary.pathogenicityCount := 0;
    ExtractionSummary.keyFindings := []
  |};
  ExtractionRecord.entities := entities;
  ExtractionRecord.rawTextPreview := []
|}.

(** An entity with two resistances and a source that holds a comma. *)
Definition isolate : MicrobialEntity.t := {|
  MicrobialEntity.id := str "uuid-2";
  MicrobialEntity.genus := Val (str "Escherichia");
  MicrobialEntity.species := Val (str "coli");
  MicrobialEntity.subspecies := Null;
  MicrobialEntity.serovar := Null;
  MicrobialEntity.strain := Val (str "K-12");
  MicrobialEntity.mlst_st := Null;
  MicrobialEntity.taxonomy_id := Val (str "83333");
  MicrobialEntity.source := Val (str "poultry, retail");
  MicrobialEntity.resistance := Some [str "ampicillin"; str "tetracycline"];
  MicrobialEntity.pathogenicity := Null;
  MicrobialEntity.context := Null;
  MicrobialEntity.confidence := Val (num_of_Z 1)
|}.

(** The text that the store holds under the key of the records, when the
    store exists and can be read. *)
Definition stored_text (window : option Storage.t) : option jsstring :=
  match window with
  | Some localStorage =>
      if Storage.refused localStorage then None
      else Storage.items localStorage !! RECORDS_KEY
  | None => None
  end.

Definition store_holding (text : jsstring) : option Storage.t :=
  Some {| Storage.refused := false; Storage.items := {[ RECORDS_KEY := text ]} |}.

(** ** Further readings of the normalizer *)

(** The keys that the schema of an entity reads. *)
Definition schema_keys : list jsstring :=
  [str "genus"; str "species"; str "subspecies"; str "serovar"; str "strain";
   str "mlst_st"; str "taxonomy_id"; str "source"; str "resistance";
   str "pathogenicity"; str "context"; str "confidence"; str "note"].

(** The string has no character at either end that [trim] strips. *)
Definition is_trimmed (s : jsstring) : bool :=
  match s with
  | [] => true
  | c :: rest => negb (is_trimmed_char c) && negb (is_trimmed_char (List.last rest c))
  end.

(** A field of a normalized entity is null, or holds a trimmed string. *)
Definition null_or_trimmed (v : maybe jsstring) : Prop :=
  match v with
  | Undefined => False
  | Null => True
  | Val s => is_trimmed s = true
  end.

(** The string fields of an entity that the schema trims. *)
Definition string_fields (entity : MicrobialEntity.t) : list (maybe jsstring) :=
  [MicrobialEntity.genus entity; MicrobialEntity.species entity;
   MicrobialEntity.subspecies entity; MicrobialEntity.serovar entity;
   MicrobialEntity.strain entity; MicrobialEntity.mlst_st entity;
   MicrobialEntity.source entity; MicrobialEntity.pathogenicity entity].

(** Two raw entities are objects that agree on the keys of the schema. *)
Definition same_fields (raw raw' : json) : Prop :=
  match raw, raw' with
  | JObj o, JObj o' => forall key, key ∈ schema_keys -> o !! key = o' !! key
  | _, _ => False
  end.

(** The confidence of a normalized entity is null or a number from 0 to 1. *)
Definition null_or_unit (v : maybe number) : Prop :=
  match v with
  | Undefined => False
  | Null => True
  | Val n => confidence_accepted n = true /\ (is_binary64 n = true -> in_unit_interval n)
  end.

(** A response like the example, with further properties that the schema
    does not know. *)
Definition salmonella_extended : json :=
  JObj (<[ str "plasmid" := JStr (str "pSLT") ]>
          (<[ str "id" := JNum (num_of_Z 12) ]> (properties_of salmonella_raw))).

Definition example_summary : json :=
  JObj {[ str "key_findings" := JArr [JStr (str "two isolates")] ]}.

(** ** Further readings of the record builder and of the exports *)

(** The entity has neither a genus nor a species to show. *)
Definition no_species (entity : MicrobialEntity.t) : Prop :=
  truthy_maybe (MicrobialEntity.genus entity) = false
  /\ truthy_maybe (MicrobialEntity.species entity) = false.

(** The first line of the table. *)
Definition header_line : jsstring :=
  str "genus,species,subspecies,serovar,strain,mlst_st,taxonomy_id,source,resistance,pathogenicity,context,confidence".

(** The name ends in what the pattern of the exports matches: a backslash,
    one character that is no line terminator, and the letters of [pdf] in
    either case. *)
Definition pattern_suffix (suffix : jsstring) : Prop :=
  exists c p d f,
    suffix = [0x5C; c; p; d; f]
    /\ is_line_terminator c = false
    /\ (p = 0x70 \/ p = 0x50)
    /\ (d = 0x64 \/ d = 0x44)
    /\ (f = 0x66 \/ f = 0x46).

(** ** [lib/storage.ts]: the settings, and the writes *)

Definition SETTINGS_KEY : jsstring := str "micr-ai:settings".

Module StoredSettings.
Record t : Type := {
  apiKey : option jsstring;         (* [apiKey?: string] *)
  preferredModel : option jsstring  (* [preferredModel?: string] *)
}.
End StoredSettings.

(** [JSON.stringify] of the values that the store is given. *)
Class Serializer : Type := {
  stringify_records : list ExtractionRecord.t -> jsstring;
  stringify_settings : StoredSettings.t -> jsstring
}.

(** Why [setItem] throws: the access is refused, or the quota is exceeded. *)
Inductive storage_failure : Type :=
| AccessRefused
| QuotaExceeded.

Section Storage_writes.
Context `{Platform} `{Serializer}.

(** Whether the browser has room for these items. *)
Variable room : gmap jsstring jsstring -> bool.

(** [localStorage.setItem(key, value)]: the store after the call, or the
    failure that is thrown. *)
Definition setItem (storage : Storage.t) (key value : jsstring)
  : storage_failure + Storage.t :=
  if Storage.refused storage then inl AccessRefused
  else
    let items := <[ key := value ]> (Storage.items storage) in
    if room items
    then inr {| Storage.refused := false; Storage.items := items |}
    else inl QuotaExceeded.

(** A write in [try { ... } catch (error) { console.error(...) }]: the
    window after the write, and the failure that is reported on the console,
    if any. *)
Definition guarded_write (window : option Storage.t) (key value : jsstring)
  : option Storage.t * option storage_failure :=
  match window with
  | None => (None, None)
  | Some localStorage =>
      match setItem localStorage key value with
      | inr written => (Some written, None)
      | inl failure => (Some localStorage, Some failure)
      end
  end.

(** [persistRecords(records)] *)
Definition persistRecords (window : option Storage.t) (records : list ExtractionRecord.t)
  : option Storage.t * option storage_failure :=
  guarded_write window RECORDS_KEY (stringify_records records).

(** [persistSettings(settings)] *)
Definition persistSettings (window : option Storage.t) (settings : StoredSettings.t)
  : option Storage.t * option storage_failure :=
  guarded_write window SETTINGS_KEY (stringify_settings settings).

(** [loadSettings()]; the cast of the parsed value to [StoredSettings]
    checks nothing. *)
Definition loadSettings (window : option Storage.t) : completion json :=
  match window with
  | None => Normal (JObj ∅)
  | Some localStorage =>
      try_catch
        (raw ← Storage.getItem localStorage SETTINGS_KEY;
         match raw with
         | None => Normal (JObj ∅)
         | Some text =>
             if negb (truthy_string text) then Normal (JObj ∅)
             else
               parsed ← parse text;
               Normal match parsed with
                      | JNull => JObj ∅   (* [parsed ?? {}] *)
                      | _ => parsed
                      end
         end)
        (fun error => Normal (JObj ∅))
  end.
End Storage_writes.

(** The item that the store holds under a key, when the store exists. *)
Definition stored_item (window : option Storage.t) (key : jsstring) : option jsstring :=
  match window with
  | Some localStorage => Storage.items localStorage !! key
  | None => None
  end.

(** A serializer for the examples: it knows the empty list and the empty
    settings. *)
Definition example_serializer : Serializer := {|
  stringify_records := fun records =>
    match records with
    | [] => str "[]"
    | _ => str "[...]"
    end;
  stringify_settings := fun settings =>
    match StoredSettings.apiKey settings, StoredSettings.preferredModel settings with
    | None, None => str "{}"
    | _, _ => str "{...}"
    end
|}.

Definition unlimited (items : gmap jsstring jsstring) : bool := true.

Definition empty_store : option Storage.t :=
  Some {| Storage.refused := false; Storage.items := ∅ |}.

(** ** [lib/pdf.ts] *)

(** An item of the text content of a page: a text item with its string, or
    a marked content without one. *)
Inductive item : Type :=
| TextItem (s : jsstring)
| MarkedContent.

(** What pdf.js makes of a file: the loading of the document may throw, and
    so may the reading of each of its pages; a page that is read gives the
    items of its text content. *)
Definition pdf_source : Type := completion (list (completion (list item))).

Section Pdf.
Context `{Platform}.

(** The text that the loop appends for a page. *)
Definition page_text (pageNumber : nat) (items : list item) : jsstring :=
  let strings :=
    filter_Boolean
      (List.map (fun it => match it with
                           | TextItem s => s
                           | MarkedContent => []
                           end) items) in
  [newline; newline] ++ str "[Page "
  ++ Number_toString (num_of_Z (Z.of_nat pageNumber)) ++ str "]" ++ [newline]
  ++ join (str " ") strings.

(** The loop over the pages, from [pageNumber] on. *)
Fixpoint read_pages (pageNumber : nat) (pages : list (completion (list item)))
    (textContent : jsstring) : completion jsstring :=
  match pages with
  | [] => Normal textContent
  | page :: rest =>
      items ← page;
      read_pages (S pageNumber) rest (textContent ++ page_text pageNumber items)
  end.

(** [extractTextFromPdf(file)] *)
Definition extractTextFromPdf (pdf : pdf_source) : completion jsstring :=
  pages ← pdf;
  textContent ← read_pages 1 pages [];
  Normal (trim textContent).
End Pdf.

(** A document of two pages, the first with a marked content and an empty
    text item. *)
Definition two_pages : pdf_source :=
  Normal [Normal [TextItem (str "Salmonella"); MarkedContent; TextItem [];
                  TextItem (str "enterica")];
          Normal [TextItem (str "was isolated.  ")]].

(** ** The application shell: the documents and their processing

    The handlers of [AppShell] as transformers of its state.  Every state
    update of the handlers is a function of the previous state, and the
    updates are applied in the order in which the handler queues them:
    a handler is modelled by the state after its updates, with no other
    action of the user in between. *)

Module Phase.
Inductive t : Type := ready | parsing | extracting | complete | error.
End Phase.

Module File.
Record t : Type := {
  name : jsstring;
  type : jsstring;
  size : number;
  content : pdf_source  (* what pdf.js makes of the bytes of the file *)
}.
End File.

Module UploadDocument.
(** [error] is the error whose message the document shows. *)
Record t : Type := {
  id : jsstring;
  file : File.t;
  fileName : jsstring;
  size : number;
  addedAt : number;
  status : Phase.t;
  progress : number;
  error : option exn;
  record : option ExtractionRecord.t
}.
End UploadDocument.

Module Alert.
Inductive kind : Type := info | error | success.

(** The texts of the alerts, by what they tell. *)
Inductive text : Type :=
| NotPdf (name : jsstring)     (* the file is not a supported PDF *)
| TooLarge (name : jsstring)   (* the file exceeds the limit of 20 MB *)
| Added (count : nat)          (* so many documents were added *)
| NoApiKey                     (* the API key is to be filled in first *)
| NothingPending               (* there is no file to process *)
| Failure (e : exn)            (* the message of the error *)
| Finished (duration : number) (* the task is done, with its duration *)
| Cleared.                     (* the history was cleared *)

Record t : Type := {
  id : jsstring;
  type : kind;
  message : text
}.
End Alert.

Module AppState.
Record t : Type := {
  documents : list UploadDocument.t;
  records : list ExtractionRecord.t;
  settings : StoredSettings.t;
  alerts : list Alert.t;
  isProcessing : bool
}.
End AppState.

(** The request that [extractEntitiesFromText] sends. *)
Module Request.
Record t : Type := {
  model : jsstring;
  text : jsstring;
  apiKey : option jsstring
}.
End Request.

(** What the world answers while a document is processed: the two readings
    of the clock, and the response to the request. *)
Module Job.
Record t : Type := {
  parsingStart : number;
  finishedAt : number;
  fetch : Request.t -> completion Response.t
}.
End Job.

(** [MAX_FILE_SIZE], 20 * 1024 * 1024. *)
Definition MAX_FILE_SIZE : number := num_of_Z (20 * 1024 * 1024).

(** The literals 0.1 and 0.35 of the progress. *)
Definition progress_parsing : number := num_div (num_of_Z 1) (num_of_Z 10).
Definition progress_extracting : number := num_div (num_of_Z 35) (num_of_Z 100).

Definition set_documents (documents : list UploadDocument.t) (state : AppState.t)
  : AppState.t := {|
  AppState.documents := documents;
  AppState.records := AppState.records state;
  AppState.settings := AppState.settings state;
  AppState.alerts := AppState.alerts state;
  AppState.isProcessing := AppState.isProcessing state
|}.

Definition set_records (records : list ExtractionRecord.t) (state : AppState.t)
  : AppState.t := {|
  AppState.documents := AppState.documents state;
  AppState.records := records;
  AppState.settings := AppState.settings state;
  AppState.alerts := AppState.alerts state;
  AppState.isProcessing := AppState.isProcessing state
|}.

Definition set_alerts (alerts : list Alert.t) (state : AppState.t) : AppState.t := {|
  AppState.documents := AppState.documents state;
  AppState.records := AppState.records state;
  AppState.settings := AppState.settings state;
  AppState.alerts := alerts;
  AppState.isProcessing := AppState.isProcessing state
|}.

Definition set_isProcessing (b : bool) (state : AppState.t) : AppState.t := {|
  AppState.documents := AppState.documents state;
  AppState.records := AppState.records state;
  AppState.settings := AppState.settings state;
  AppState.alerts := AppState.alerts state;
  AppState.isProcessing := b
|}.

(** [{ ...item, status, progress }] *)
Definition with_status (status : Phase.t) (progress : number) (item : UploadDocument.t)
  : UploadDocument.t := {|
  UploadDocument.id := UploadDocument.id item;
  UploadDocument.file := UploadDocument.file item;
  UploadDocument.fileName := UploadDocument.fileName item;
  UploadDocument.size := UploadDocument.size item;
  UploadDocument.addedAt := UploadDocument.addedAt item;
  UploadDocument.status := status;
  UploadDocument.progress := progress;
  UploadDocument.error := UploadDocument.error item;
  UploadDocument.record := UploadDocument.record item
|}.

(** [{ ...item, status: "complete", progress: 1, record }] *)
Definition completed (record : ExtractionRecord.t) (item : UploadDocument.t)
  : UploadDocument.t := {|
  UploadDocument.id := UploadDocument.id item;
  UploadDocument.file := UploadDocument.file item;
  UploadDocument.fileName := UploadDocument.fileName item;
  UploadDocument.size := UploadDocument.size item;
  UploadDocument.addedAt := UploadDocument.addedAt item;
  UploadDocument.status := Phase.complete;
  UploadDocument.progress := num_one;
  UploadDocument.error := UploadDocument.error item;
  UploadDocument.record := Some record
|}.

(** [{ ...item, status: "error", progress: 1, error: message }] *)
Definition failed (e : exn) (item : UploadDocument.t) : UploadDocument.t := {|
  UploadDocument.id := UploadDocument.id item;
  UploadDocument.file := UploadDocument.file item;
  UploadDocument.fileName := UploadDocument.fileName item;
  UploadDocument.size := UploadDocument.size item;
  UploadDocument.addedAt := UploadDocument.addedAt item;
  UploadDocument.status := Phase.error;
  UploadDocument.progress := num_one;
  UploadDocument.error := Some e;
  UploadDocument.record := UploadDocument.record item
|}.

(** [setDocuments((prev) => prev.map((item) => item.id === id ? f(item) : item))] *)
Definition update_document (id : jsstring) (f : UploadDocument.t -> UploadDocument.t)
    (state : AppState.t) : AppState.t :=
  set_documents
    (List.map (fun item => if decide (UploadDocument.id item = id) then f item else item)
       (AppState.documents state))
    state.

(** [["ready", "error"].includes(doc.status)] *)
Definition is_pending (doc : UploadDocument.t) : bool :=
  match UploadDocument.status doc with
  | Phase.ready | Phase.error => true
  | _ => false
  end.

(** Truthiness of a [string | undefined]. *)
Definition truthy_option (v : option jsstring) : bool :=
  match v with
  | Some s => truthy_string s
  | None => false
  end.

(** The file is one that [handleFileInput] takes. *)
Definition accepted (file : File.t) : bool :=
  bool_decide (File.type file = str "application/pdf")
  && negb (num_gt (File.size file) MAX_FILE_SIZE).

Section App_shell.
Context `{Platform} `{Serializer}.

(** [Date.now()] when the file at an index of the list is taken. *)
Variable Date_now : nat -> number.
(** The answers of the world to the processing of a document, and the
    readings of the clock at the start and at the end of a run. *)
Variable world : UploadDocument.t -> Job.t.
Variable run_start run_end : number.
Variable room : gmap jsstring jsstring -> bool.

(** [addAlert(alert)] *)
Definition addAlert (type : Alert.kind) (message : Alert.text) (state : AppState.t)
  : M AppState.t :=
  id ← randomUUID;
  mret (set_alerts
          (AppState.alerts state
           ++ [{| Alert.id := id; Alert.type := type; Alert.message := message |}])
          state).

(** [dismissAlert(id)] *)
Definition dismissAlert (id : jsstring) (state : AppState.t) : AppState.t :=
  set_alerts
    (List.filter (fun alert => negb (bool_decide (Alert.id alert = id)))
       (AppState.alerts state))
    state.

(** The callback of [forEach] in [handleFileInput], on the file at [index];
    [next] is the array that it fills. *)
Definition take_file (index : nat) (file : File.t)
    (acc : list UploadDocument.t * AppState.t)
  : M (list UploadDocument.t * AppState.t) :=
  let (next, state) := acc in
  if negb (bool_decide (File.type file = str "application/pdf"))
  then state' ← addAlert Alert.error (Alert.NotPdf (File.name file)) state;
       mret (next, state')
  else if num_gt (File.size file) MAX_FILE_SIZE
  then state' ← addAlert Alert.error (Alert.TooLarge (File.name file)) state;
       mret (next, state')
  else
    id ← randomUUID;
    mret (next ++ [{| UploadDocument.id := id;
                      UploadDocument.file := file;
                      UploadDocument.fileName := File.name file;
                      UploadDocument.size := File.size file;
                      UploadDocument.addedAt := Date_now index;
                      UploadDocument.status := Phase.ready;
                      UploadDocument.progress := num_zero;
                      UploadDocument.error := None;
                      UploadDocument.record := None |}],
          state).

Fixpoint take_files (index : nat) (files : list File.t)
    (acc : list UploadDocument.t * AppState.t)
  : M (list UploadDocument.t * AppState.t) :=
  match files with
  | [] => mret acc
  | file :: rest => acc' ← take_file index file acc; take_files (S index) rest acc'
  end.

(** [handleFileInput(files)]; [None] is [null]. *)
Definition handleFileInput (files : option (list File.t)) (state : AppState.t)
  : M AppState.t :=
  match files with
  | None | Some [] => mret state
  | Some files =>
      '(next, state') ← take_files 0 files ([], state);
      match next with
      | [] => mret state'
      | _ :: _ =>
          addAlert Alert.success (Alert.Added (length next))
            (set_documents (AppState.documents state' ++ next) state')
      end
  end.

(** [removeDocument(id)] *)
Definition removeDocument (id : jsstring) (state : AppState.t) : AppState.t :=
  set_documents
    (List.filter (fun doc => negb (bool_decide (UploadDocument.id doc = id)))
       (AppState.documents state))
    state.

(** The call of [extractEntitiesFromText] with its parameters: the model
    defaults to ["deepseek/deepseek-chat"] when it is undefined. *)
Definition extractEntities_call (fetch : Request.t -> completion Response.t)
    (text : jsstring) (apiKey model : option jsstring) : M (list MicrobialEntity.t) :=
  extractEntitiesFromText
    (fetch {| Request.model := default (str "deepseek/deepseek-chat") model;
              Request.text := text;
              Request.apiKey := apiKey |}).

(** The body of the [try] of the loop, without its updates of the state:
    the text of the file, the entities of the text, the record. *)
Definition pipeline (document : UploadDocument.t) (settings : StoredSettings.t)
  : M ExtractionRecord.t :=
  let job := world document in
  rawText ← lift (extractTextFromPdf (File.content (UploadDocument.file document)));
  entities ← extractEntities_call (Job.fetch job) rawText
                (StoredSettings.apiKey settings) (StoredSettings.preferredModel settings);
  buildExtractionRecord {|
    Params.fileName := UploadDocument.fileName document;
    Params.fileSize := UploadDocument.size document;
    Params.startedAt := Job.parsingStart job;
    Params.finishedAt := Job.finishedAt job;
    Params.entities := entities;
    Params.rawText := rawText
  |}.

(** The [catch] of the loop. *)
Definition on_failure (document : UploadDocument.t) (e : exn) (state : AppState.t)
  : M AppState.t :=
  addAlert Alert.error (Alert.Failure e)
    (update_document (UploadDocument.id document) (failed e) state).

(** One turn of the loop of [processDocuments]. *)
Definition process_document (settings : StoredSettings.t) (state : AppState.t)
    (document : UploadDocument.t) : M AppState.t := fun k =>
  let job := world document in
  let id := UploadDocument.id document in
  let state1 := update_document id (with_status Phase.parsing progress_parsing) state in
  match extractTextFromPdf (File.content (UploadDocument.file document)) with
  | Throw e => on_failure document e state1 k
  | Normal rawText =>
      let state2 :=
        update_document id (with_status Phase.extracting progress_extracting) state1 in
      match extractEntities_call (Job.fetch job) rawText
              (StoredSettings.apiKey settings) (StoredSettings.preferredModel settings) k
      with
      | (Throw e, k') => on_failure document e state2 k'
      | (Normal entities, k') =>
          match buildExtractionRecord {|
                  Params.fileName := UploadDocument.fileName document;
                  Params.fileSize := UploadDocument.size document;
                  Params.startedAt := Job.parsingStart job;
                  Params.finishedAt := Job.finishedAt job;
                  Params.entities := entities;
                  Params.rawText := rawText
                |} k'
          with
          | (Throw e, k'') => on_failure document e state2 k''
          | (Normal record, k'') =>
              (Normal (update_document id (completed record)
                         (set_records (record :: AppState.records state2) state2)),
               k'')
          end
      end
  end.

(** [for (const document of pendingDocuments) { ... }] *)
Fixpoint process_all (settings : StoredSettings.t) (pending : list UploadDocument.t)
    (state : AppState.t) : M AppState.t :=
  match pending with
  | [] => mret state
  | document :: rest =>
      state' ← process_document settings state document;
      process_all settings rest state'
  end.

(** [processDocuments()] *)
Definition processDocuments (state : AppState.t) : M AppState.t :=
  let settings := AppState.settings state in
  if negb (truthy_option (StoredSettings.apiKey settings))
  then addAlert Alert.error Alert.NoApiKey state
  else
    let pendingDocuments := List.filter is_pending (AppState.documents state) in
    match pendingDocuments with
    | [] => addAlert Alert.info Alert.NothingPending state
    | _ :: _ =>
        state' ← process_all settings pendingDocuments (set_isProcessing true state);
        addAlert Alert.info (Alert.Finished (num_sub run_end run_start))
          (set_isProcessing false state')
    end.

(** [clearRecords()]: the state, the window and the failure of the write
    that is reported, if any. *)
Definition clearRecords (window : option Storage.t) (state : AppState.t)
  : M (AppState.t * option Storage.t * option storage_failure) :=
  let written := persistRecords room window [] in
  state' ← addAlert Alert.info Alert.Cleared (set_records [] state);
  mret (state', written.1, written.2).
End App_shell.

(** [records.find((record) => record.id === activeRecordId) ?? records[0]]
    of the results, for a history that is not empty. *)
Definition activeRecord (records : list ExtractionRecord.t)
    (activeRecordId : option jsstring) : option ExtractionRecord.t :=
  match List.find
          (fun record => bool_decide (Some (ExtractionRecord.id record) = activeRecordId))
          records
  with
  | Some record => Some record
  | None => head records
  end.

(** [alerts.slice(-3)] of the stack of alerts. *)
Definition shown_alerts (alerts : list Alert.t) : list Alert.t :=
  slice (-3) (Z.of_nat (length alerts)) alerts.

(** A document has been processed: it is complete or in error, with the
    progress 1. *)
Definition processed (doc : UploadDocument.t) : Prop :=
  (UploadDocument.status doc = Phase.complete \/ UploadDocument.status doc = Phase.error)
  /\ UploadDocument.progress doc = num_one.

(** What a run makes of a document, given the identifiers of the documents
    that it processes: the identifier stays; a document with one of these
    identifiers is processed; any other document is as it was. *)
Definition run_on (ids : list jsstring) (before after : UploadDocument.t) : Prop :=
  UploadDocument.id after = UploadDocument.id before
  /\ (UploadDocument.id before ∈ ids -> processed after)
  /\ (UploadDocument.id before ∉ ids -> after = before).

Definition is_error_alert (alert : Alert.t) : bool :=
  match Alert.type alert with
  | Alert.error => true
  | _ => false
  end.

(** A document as [handleFileInput] makes it of a file. *)
Definition fresh_document (doc : UploadDocument.t) : Prop :=
  UploadDocument.status doc = Phase.ready
  /\ UploadDocument.progress doc = num_zero
  /\ UploadDocument.fileName doc = File.name (UploadDocument.file doc)
  /\ UploadDocument.size doc = File.size (UploadDocument.file doc)
  /\ UploadDocument.error doc = None
  /\ UploadDocument.record doc = None.

(** ** Data of the further examples *)

(** The entities that the example response is normalized to, from the
    identifier 3 on. *)
Definition normalized_salmonella : MicrobialEntity.t := {|
  MicrobialEntity.id := str "uuid-3";
  MicrobialEntity.genus := Val (str "Salmonella");
  MicrobialEntity.species := Val (str "enterica");
  MicrobialEntity.subspecies := Null;
  MicrobialEntity.serovar := Val (str "Typhimurium");
  MicrobialEntity.strain := Null;
  MicrobialEntity.mlst_st := Null;
  MicrobialEntity.taxonomy_id := Val (str "90371");
  MicrobialEntity.source := Null;
  MicrobialEntity.resistance := Some [str "ampicillin"];
  MicrobialEntity.pathogenicity := Null;
  MicrobialEntity.context := Val (str "S. enterica was isolated");
  MicrobialEntity.confidence := Val (num_div (num_of_Z 9) (num_of_Z 10))
|}.

Definition normalized_ecoli : MicrobialEntity.t := {|
  MicrobialEntity.id := str "uuid-4";
  MicrobialEntity.genus := Val (str "Escherichia");
  MicrobialEntity.species := Val (str "coli");
  MicrobialEntity.subspecies := Null;
  MicrobialEntity.serovar := Null;
  MicrobialEntity.strain := Null;
  MicrobialEntity.mlst_st := Null;
  MicrobialEntity.taxonomy_id := Null;
  MicrobialEntity.source := Null;
  MicrobialEntity.resistance := Some [str "ampicillin"; str "tetracycline"];
  MicrobialEntity.pathogenicity := Null;
  MicrobialEntity.context := Null;
  MicrobialEntity.confidence := Null
|}.

Definition example_out : list MicrobialEntity.t :=
  [normalized_salmonella; normalized_ecoli].

(** The text of the document of two pages. *)
Definition example_text : jsstring :=
  str "[Page 1]" ++ [0x0A] ++ str "Salmonella enterica" ++ [0x0A; 0x0A]
  ++ str "[Page 2]" ++ [0x0A] ++ str "was isolated.".

(** A name that ends in what the pattern of the exports matches. *)
Definition scan_name : jsstring := str "scan" ++ [0x5C] ++ str "xPDF".

(** Files, and a world in which the model answers the text [{}] to every
    request, except for the document [doc-2], which pdf.js cannot load. *)
Definition example_file : File.t := {|
  File.name := str "report.pdf";
  File.type := str "application/pdf";
  File.size := MAX_FILE_SIZE;
  File.content := two_pages
|}.

Definition broken_file : File.t := {|
  File.name := str "broken.pdf";
  File.type := str "application/pdf";
  File.size := num_of_Z 2048;
  File.content := Throw (Error Unrecognised)
|}.

Definition text_file : File.t := {|
  File.name := str "notes.txt";
  File.type := str "text/plain";
  File.size := num_of_Z 12;
  File.content := Throw (Error Unrecognised)
|}.

Definition example_job : Job.t := {|
  Job.parsingStart := num_of_Z 120;
  Job.finishedAt := num_of_Z 4500;
  Job.fetch := fun _ => Normal (answer (envelope_of (JStr (str "{}"))))
|}.

Definition example_world (document : UploadDocument.t) : Job.t := example_job.

Definition example_settings : StoredSettings.t := {|
  StoredSettings.apiKey := Some (str "sk-or-example");
  StoredSettings.preferredModel := None
|}.

Definition document_of (id : jsstring) (file : File.t) (status : Phase.t)
  : UploadDocument.t := {|
  UploadDocument.id := id;
  UploadDocument.file := file;
  UploadDocument.fileName := File.name file;
  UploadDocument.size := File.size file;
  UploadDocument.addedAt := num_of_Z 0;
  UploadDocument.status := status;
  UploadDocument.progress := S754_zero false;
  UploadDocument.error := None;
  UploadDocument.record := None
|}.

Definition old_alert : Alert.t := {|
  Alert.id := str "uuid-0";
  Alert.type := Alert.info;
  Alert.message := Alert.Cleared
|}.

(** A state with a document that cannot be read, a document that can, and
    a document that is already complete. *)
Definition example_state : AppState.t := {|
  AppState.documents :=
    [document_of (str "doc-2") broken_file Phase.ready;
     document_of (str "doc-1") example_file Phase.error;
     document_of (str "doc-0") example_file Phase.complete];
  AppState.records := [example_record (str "old.pdf") []];
  AppState.settings := example_settings;
  AppState.alerts := [old_alert];
  AppState.isProcessing := false
|}.

(** * Properties *)

(** ** Strings and arrays *)

Lemma slice_prefix {A : Type} (n : nat) (x : list A) :
  slice 0 (Z.of_nat n) x = firstn n x.
Proof.
  unfold slice, slice_index.
  destruct (Z.ltb_spec 0 0) as [Hlt|_]; [lia|].
  destruct (Z.ltb_spec (Z.of_nat n) 0) as [Hlt|_]; [lia|].
  rewrite (Z.min_l 0) by lia. change (Z.to_nat 0) with O.
  change (skipn 0 x) with x.
  destruct (Nat.le_gt_cases n (length x)) as [Hle|Hgt].
  - f_equal. lia.
  - rewrite Z.min_r by lia.
    rewrite Z.sub_0_r, Z.max_l, Nat2Z.id by lia.
    rewrite firstn_all. symmetry. apply firstn_all2. lia.
Qed.

Lemma join_cons (sep x : jsstring) (y : jsstring) (rest : list jsstring) :
  join sep (x :: y :: rest) = x ++ sep ++ join sep (y :: rest).
Proof. reflexivity. Qed.

Lemma join_not_empty (sep : jsstring) (parts : list jsstring) :
  parts <> [] -> Forall (fun s => s <> []) parts -> join sep parts <> [].
Proof.
  intros Hne Hall. destruct Hall as [|x rest Hx Hrest]; [congruence|].
  destruct rest as [|y rest].
  - exact Hx.
  - rewrite join_cons. destruct x; [congruence|discriminate].
Qed.

Lemma includes_app (c : N) (s t : jsstring) :
  includes c (s ++ t) = includes c s || includes c t.
Proof. unfold includes. apply existsb_app. Qed.

(** Doubling the double quotes neither adds nor removes another
    character. *)
Lemma includes_double_quotes (c : N) (s : jsstring) :
  c <> dquote -> includes c (double_quotes s) = includes c s.
Proof.
  intros Hc. unfold double_quotes, replace_all_char.
  induction s as [|x s IH]; [reflexivity|].
  cbn [flat_map]. rewrite includes_app, IH.
  unfold includes at 3. cbn [existsb]. f_equal.
  destruct (N.eqb_spec x dquote) as [->|Hx]; cbn.
  - destruct (N.eqb_spec c dquote); [contradiction|reflexivity].
  - apply orb_false_r.
Qed.

(** ** The schemas *)

Lemma string_field_spec (v : option json) (g : maybe jsstring) :
  z.nullable (z.optional (z.trim z.string)) v = Some g ->
  or_null g = spec_string v.
Proof.
  unfold z.nullable, z.optional, z.trim, z.string.
  destruct v as [[]|]; cbn; intros Hg; simplify_eq; reflexivity.
Qed.

Lemma taxonomy_field_spec `{Platform} (v : option json) (t : maybe (jsstring + number)) :
  z.nullable (z.optional (z.union z.string z.number)) v = Some t ->
  match t with
  | Val x => if truthy_string_or_number x then Val (String_of x) else Null
  | _ => Null
  end = spec_taxonomy_id v.
Proof.
  unfold z.nullable, z.optional, z.union, z.string, z.number.
  destruct v as [[| |n| | |]|]; cbn; intros Ht; simplify_eq; try reflexivity.
  destruct (is_nan n); cbn in Ht; simplify_eq. reflexivity.
Qed.

Lemma array_of_strings (l : list json) (arr : list jsstring) :
  mapM (fun x => z.string (Some x)) l = Some arr -> arr = json_strings l.
Proof.
  revert arr.
  induction l as [|x l IH]; intros arr Harr; simpl in Harr.
  - by simplify_option_eq.
  - destruct x; simpl in Harr; try discriminate.
    destruct (mapM _ l) as [arr'|] eqn:Hl; simplify_option_eq.
    cbn. f_equal. by apply IH.
Qed.

Lemma resistance_field_spec (v : option json) (r : maybe (list jsstring + jsstring)) :
  z.nullable (z.optional (z.union (z.array z.string) z.string)) v = Some r ->
  match r with
  | Val (inl arr) => filter_Boolean arr
  | Val (inr s) => if truthy_string s then filter_Boolean [s] else []
  | _ => []
  end = spec_resistance v.
Proof.
  unfold z.nullable, z.optional, z.union.
  destruct v as [[| | |s|l|]|]; cbn; intros Hr; simplify_eq; try reflexivity.
  - by destruct s.
  - destruct (mapM _ l) as [arr|] eqn:Harr; cbn in Hr; simplify_eq.
    apply array_of_strings in Harr as ->. reflexivity.
Qed.

Lemma context_field_spec (v : option json) (c : maybe Parsed.context_t) :
  z.nullable (z.optional contextSchema) v = Some c ->
  match c with
  | Val x => Val (Parsed.snippet x)
  | _ => Null
  end = spec_context v.
Proof.
  unfold z.nullable, z.optional, contextSchema, z.object, z.string.
  destruct v as [[| | | | |o]|]; cbn; intros Hc; simplify_eq; try reflexivity.
  destruct (o !! str "snippet") as [[]|]; cbn in Hc; simplify_eq. reflexivity.
Qed.

Lemma confidence_schema_number (n : number) :
  z.nullable (z.optional (z.max num_one (z.min num_zero z.number))) (Some (JNum n))
  = if confidence_accepted n then Some (Val n) else None.
Proof.
  unfold z.nullable, z.optional, z.max, z.min, z.number, confidence_accepted.
  cbn. destruct (is_nan n); cbn; [reflexivity|].
  destruct (num_lt n num_zero); cbn; [reflexivity|].
  destruct (num_gt n num_one); reflexivity.
Qed.

Lemma confidence_field_spec (v : option json) (c : maybe number) :
  z.nullable (z.optional (z.max num_one (z.min num_zero z.number))) v = Some c ->
  or_null c = spec_confidence v.
Proof.
  destruct v as [[| |n| | |]|]; try (cbn; intros Hc; simplify_eq; reflexivity).
  rewrite confidence_schema_number.
  destruct (confidence_accepted n); intros Hc; simplify_eq. reflexivity.
Qed.

(** ** The schemas accept the expected shape, and nothing else *)

Lemma string_field_shape (v : option json) :
  is_Some (z.nullable (z.optional (z.trim z.string)) v) <-> string_shape v = true.
Proof.
  unfold z.nullable, z.optional, z.trim, z.string.
  destruct v as [[]|]; cbn; rewrite <- ?not_eq_None_Some; split; congruence.
Qed.

Lemma note_field_shape (v : option json) :
  is_Some (z.nullable (z.optional z.string) v) <-> string_shape v = true.
Proof.
  unfold z.nullable, z.optional, z.string.
  destruct v as [[]|]; cbn; rewrite <- ?not_eq_None_Some; split; congruence.
Qed.

Lemma taxonomy_field_shape (v : option json) :
  is_Some (z.nullable (z.optional (z.union z.string z.number)) v)
  <-> taxonomy_id_shape v = true.
Proof.
  unfold z.nullable, z.optional, z.union, z.string, z.number.
  destruct v as [[| |n| | |]|]; cbn; rewrite <- ?not_eq_None_Some;
    try (split; congruence).
  destruct (is_nan n); cbn; split; congruence.
Qed.

Lemma array_of_strings_shape (l : list json) :
  is_Some (mapM (fun x => z.string (Some x)) l) <-> forallb is_string l = true.
Proof.
  rewrite mapM_is_Some, forallb_forall, Forall_forall.
  split; intros Hall x Hx.
  - apply list_elem_of_In, Hall in Hx. destruct x; cbn in *; by destruct Hx.
  - apply list_elem_of_In, Hall in Hx. destruct x; cbn in *; by eauto.
Qed.

Lemma resistance_field_shape (v : option json) :
  is_Some (z.nullable (z.optional (z.union (z.array z.string) z.string)) v)
  <-> resistance_shape v = true.
Proof.
  unfold z.nullable, z.optional, z.union.
  destruct v as [[| | | |l|]|]; cbn; rewrite <- ?not_eq_None_Some;
    try (split; congruence).
  rewrite <- array_of_strings_shape.
  destruct (mapM _ l); cbn; rewrite <- !not_eq_None_Some; split; congruence.
Qed.

Lemma context_field_shape (v : option json) :
  is_Some (z.nullable (z.optional contextSchema) v) <-> context_shape v = true.
Proof.
  unfold z.nullable, z.optional, contextSchema, z.object, z.string.
  destruct v as [[| | | | |o]|]; cbn; rewrite <- ?not_eq_None_Some;
    try (split; congruence).
  destruct (o !! str "snippet") as [[]|]; cbn; split; congruence.
Qed.

Lemma confidence_field_shape (v : option json) :
  is_Some (z.nullable (z.optional (z.max num_one (z.min num_zero z.number))) v)
  <-> confidence_shape v = true.
Proof.
  destruct v as [[| |n| | |]|];
    try (cbn; rewrite <- ?not_eq_None_Some; split; congruence).
  rewrite confidence_schema_number. cbn [confidence_shape].
  destruct (confidence_accepted n); rewrite <- not_eq_None_Some; split; congruence.
Qed.

Lemma entitySchema_shape (raw : json) :
  is_Some (entitySchema (Some raw)) <-> entity_shape raw = true.
Proof.
  destruct raw as [| | | | |o];
    try (cbn; rewrite <- not_eq_None_Some; split; congruence).
  unfold entitySchema, z.object, entity_shape.
  rewrite !andb_true_iff.
  split.
  - intros [p Hp].
    repeat (apply bind_Some in Hp as (? & ? & Hp)).
    split_and!;
      first [ by (apply string_field_shape; eexists)
            | by (apply note_field_shape; eexists)
            | by (apply taxonomy_field_shape; eexists)
            | by (apply resistance_field_shape; eexists)
            | by (apply context_field_shape; eexists)
            | by (apply confidence_field_shape; eexists) ].
  - intros Hfields. destruct_and!.
    repeat match goal with
           | Hf : string_shape (o !! str "note") = true |- _ =>
               apply note_field_shape in Hf as [? Hf]
           | Hf : string_shape _ = true |- _ =>
               apply string_field_shape in Hf as [? Hf]
           | Hf : taxonomy_id_shape _ = true |- _ =>
               apply taxonomy_field_shape in Hf as [? Hf]
           | Hf : resistance_shape _ = true |- _ =>
               apply resistance_field_shape in Hf as [? Hf]
           | Hf : context_shape _ = true |- _ =>
               apply context_field_shape in Hf as [? Hf]
           | Hf : confidence_shape _ = true |- _ =>
               apply confidence_field_shape in Hf as [? Hf]
           end.
    repeat match goal with
           | Hf : _ (o !! str _) = Some _ |- _ => rewrite Hf; clear Hf
           end.
    by eexists.
Qed.

Lemma summarySchema_shape (v : option json) :
  is_Some (z.default (JObj {[ str "key_findings" := JArr [] ]}) summarySchema v)
  <-> summary_shape v = true.
Proof.
  unfold z.default, summarySchema, z.object, z.array.
  destruct v as [[| | | | |o]|]; try (cbn; rewrite <- ?not_eq_None_Some; split; congruence).
  - cbn [summary_shape].
    destruct (o !! str "key_findings") as [[| | | |l|]|];
      try (cbn; rewrite <- ?not_eq_None_Some; split; congruence).
    rewrite <- array_of_strings_shape. cbn.
    destruct (mapM _ l); cbn; rewrite <- !not_eq_None_Some; split; congruence.
  - split; [reflexivity|]. intros _. rewrite lookup_singleton_eq. by eexists.
Qed.

(** The schema accepts a raw response exactly when it has the expected
    shape. *)
Lemma conforms_expected_shape (content : json) :
  conforms content <-> expected_shape content = true.
Proof.
  unfold conforms. destruct content as [| | | | |o];
    try (cbn; rewrite <- not_eq_None_Some; split; congruence).
  unfold extractionSchema, z.object, expected_shape.
  rewrite andb_true_iff, <- summarySchema_shape.
  assert (Hentities :
            is_Some (z.default (JArr []) (z.array entitySchema) (o !! str "entities"))
            <-> match o !! str "entities" with
                | None => true
                | Some (JArr es) => forallb entity_shape es
                | _ => false
                end = true).
  { unfold z.default, z.array.
    destruct (o !! str "entities") as [[| | | |es|]|];
      try (cbn; rewrite <- ?not_eq_None_Some; split; congruence).
    - rewrite mapM_is_Some, forallb_forall, Forall_forall.
      split; intros Hall x Hx.
      + apply entitySchema_shape, Hall, list_elem_of_In, Hx.
      + apply entitySchema_shape, Hall, list_elem_of_In, Hx.
    - split; [reflexivity|]. intros _. by eexists. }
  rewrite <- Hentities. split.
  - intros [data Hdata].
    apply bind_Some in Hdata as (es & Hes & Hdata).
    apply bind_Some in Hdata as (sm & Hsm & _).
    split; by eexists.
  - intros [[es ->] [sm ->]]. by eexists.
Qed.

(** ** The normalizer computes the rules of the specification *)

Section Normalizer.
Context `{Platform}.

Lemma entitySchema_object (raw : json) (p : Parsed.entity) :
  entitySchema (Some raw) = Some p -> is_object raw.
Proof. destruct raw; cbn; intros Hp; simplify_eq; exact I. Qed.

Lemma normalizeEntity_spec (o : gmap jsstring json) (p : Parsed.entity) (k : nat) :
  entitySchema (Some (JObj o)) = Some p ->
  normalizeEntity p k = (Normal (spec_entity (randomUUID_at k) o), S k).
Proof.
  unfold entitySchema, z.object. intros Hp.
  repeat (apply bind_Some in Hp as (? & ? & Hp)).
  injection Hp as <-.
  unfold spec_entity.
  repeat match goal with
         | Hf : _ (o !! str _) = Some _ |- _ =>
             first [ rewrite <- (string_field_spec _ _ Hf)
                   | rewrite <- (taxonomy_field_spec _ _ Hf)
                   | rewrite <- (resistance_field_spec _ _ Hf)
                   | rewrite <- (context_field_spec _ _ Hf)
                   | rewrite <- (confidence_field_spec _ _ Hf) ];
             clear Hf
         end.
  reflexivity.
Qed.

(** The callback is applied to the entities in order, and draws one
    identifier for each. *)
Lemma map_normalizeEntity_spec (es : list json) (ps : list Parsed.entity) :
  Forall2 (fun raw p => entitySchema (Some raw) = Some p) es ps ->
  forall k,
    map_M normalizeEntity ps k
    = (Normal (imap (fun i raw => spec_entity (randomUUID_at (k + i)) (properties_of raw)) es),
       (k + length es)%nat).
Proof.
  induction 1 as [|raw p es ps Hp _ IH]; intros k.
  - cbn. by rewrite Nat.add_0_r.
  - cbn [map_M].
    destruct raw; try (by apply entitySchema_object in Hp).
    unfold mbind, M_bind.
    rewrite (normalizeEntity_spec _ _ _ Hp), IH.
    unfold mret, M_ret. cbn [imap length properties_of].
    rewrite Nat.add_0_r. f_equal; [|lia].
    do 2 f_equal. apply imap_ext. intros i raw _. cbn. do 2 f_equal. lia.
Qed.

(** The entities that the schema returns are those of the raw content. *)
Lemma extractionSchema_entities (content : json) (data : Parsed.extraction) :
  extractionSchema (Some content) = Some data ->
  Forall2 (fun raw p => entitySchema (Some raw) = Some p)
    (raw_entities content) (Parsed.entities data).
Proof.
  unfold extractionSchema, z.object, raw_entities.
  destruct content as [| | | | |o]; try discriminate. intros Hd.
  apply bind_Some in Hd as (ps & Hps & Hd).
  apply bind_Some in Hd as (s & _ & Hd).
  injection Hd as <-. cbn.
  unfold z.default, z.array in Hps.
  destruct (o !! str "entities") as [[| | | |es|]|]; try discriminate.
  - by apply mapM_Some in Hps.
  - cbn in Hps. simplify_option_eq. constructor.
Qed.

(** A conforming response is normalized to the entities of the rules. *)
Lemma normalize_conforming (content : json) (k : nat) :
  conforms content ->
  normalize content k
  = (Normal (imap (fun i raw => spec_entity (randomUUID_at (k + i)) (properties_of raw))
               (raw_entities content)),
     (k + length (raw_entities content))%nat).
Proof.
  intros [data Hdata]. unfold normalize. rewrite Hdata.
  apply map_normalizeEntity_spec. by apply extractionSchema_entities.
Qed.

Lemma conforming_objects (content : json) :
  conforms content -> Forall is_object (raw_entities content).
Proof.
  intros [data Hdata]. apply extractionSchema_entities in Hdata.
  induction Hdata as [|raw p es ps Hp _ IH]; constructor; [|exact IH].
  by apply entitySchema_object in Hp.
Qed.

Lemma normalize_not_conforming (content : json) (k : nat) :
  extractionSchema (Some content) = None ->
  normalize content k = (Throw (Error Unrecognised), k).
Proof. intros Hnone. unfold normalize. by rewrite Hnone. Qed.
End Normalizer.

(** ** Numbers: the tests of the schema and the closed unit interval *)

Lemma digits2_pos_bounds (m : positive) :
  (2 ^ (Z.pos (digits2_pos m) - 1) <= Z.pos m < 2 ^ Z.pos (digits2_pos m))%Z.
Proof.
  induction m as [p IH|p IH|]; cbn [digits2_pos].
  - rewrite Pos2Z.inj_succ, Z.pow_succ_r by lia.
    replace (Z.succ (Z.pos (digits2_pos p)) - 1)%Z
      with (Z.succ (Z.pos (digits2_pos p) - 1)) by lia.
    rewrite Z.pow_succ_r by lia. lia.
  - rewrite Pos2Z.inj_succ, Z.pow_succ_r by lia.
    replace (Z.succ (Z.pos (digits2_pos p)) - 1)%Z
      with (Z.succ (Z.pos (digits2_pos p) - 1)) by lia.
    rewrite Z.pow_succ_r by lia. lia.
  - cbn. lia.
Qed.

(** Among the binary64 values, the schema of [confidence] accepts exactly
    the numbers of the closed unit interval. *)
Lemma confidence_accepted_spec (n : number) :
  is_binary64 n = true ->
  confidence_accepted n = true <-> in_unit_interval n.
Proof.
  unfold is_binary64, confidence_accepted.
  destruct n as [s|s| |s m e]; cbn [valid_binary in_unit_interval is_nan negb andb].
  - intros _. destruct s; cbn; tauto.
  - intros _. destruct s; cbn; intuition discriminate.
  - intros _. cbn. intuition discriminate.
  - intros Hb. destruct s; [cbn; intuition discriminate|].
    unfold bounded, canonical_mantissa, fexp, SpecFloat.emin, prec, emax in Hb.
    apply andb_prop in Hb as [Hc He].
    apply Z.eqb_eq in Hc. apply Z.leb_le in He.
    pose proof (digits2_pos_bounds m) as [Hlo Hhi].
    unfold value_le_one, num_gt, num_lt, num_one, num_zero, SFltb. cbn [SFcompare].
    change (Pos.compare_cont Eq 4503599627370496 m)
      with (Pos.compare 4503599627370496 m).
    destruct (Z.compare_spec (-52) e) as [<-|Hlt|Hgt].
    + change (Z.max (-52) 0) with 0%Z. change (Z.max (- -52) 0) with 52%Z.
      clear Hlo Hhi Hc He.
      change (2 ^ 0)%Z with 1%Z. change (2 ^ 52)%Z with 4503599627370496%Z.
      rewrite Pos2Z.inj_compare.
      destruct (Z.compare_spec 4503599627370496 (Z.pos m)) as [Hm|Hm|Hm];
        cbn [negb andb].
      * split; [intros _; lia|reflexivity].
      * split; [discriminate|]. intros Hv. exfalso. lia.
      * split; [intros _; lia|reflexivity].
    + cbn [negb andb]. split; [discriminate|]. intros Hv. exfalso.
      assert (Hd : Z.pos (digits2_pos m) = 53%Z) by lia.
      rewrite Hd in Hlo. change (2 ^ (53 - 1))%Z with 4503599627370496%Z in Hlo.
      destruct (Z.le_gt_cases 0 e) as [Hpos|Hneg].
      * rewrite Z.max_l, (Z.max_r (- e)) in Hv by lia.
        assert (0 < 2 ^ e)%Z by (apply Z.pow_pos_nonneg; lia).
        change (2 ^ 0)%Z with 1%Z in Hv. nia.
      * rewrite Z.max_r, (Z.max_l (- e)) in Hv by lia.
        assert (2 ^ (- e) <= 2 ^ 51)%Z by (apply Z.pow_le_mono_r; lia).
        change (2 ^ 51)%Z with 2251799813685248%Z in *.
        change (2 ^ 0)%Z with 1%Z in Hv. lia.
    + cbn [negb andb]. split; [intros _|reflexivity].
      rewrite Z.max_r, (Z.max_l (- e)) by lia.
      assert (Hd : (Z.pos (digits2_pos m) <= 53)%Z) by lia.
      assert (2 ^ Z.pos (digits2_pos m) <= 2 ^ 53)%Z by (apply Z.pow_le_mono_r; lia).
      assert (2 ^ 53 <= 2 ^ (- e))%Z by (apply Z.pow_le_mono_r; lia).
      change (2 ^ 0)%Z with 1%Z. lia.
Qed.

(** ** Properties of the normalizer *)

Section Normalizer_properties.
Context `{Platform}.

Lemma entitySchema_confidence (o : gmap jsstring json) (p : Parsed.entity) :
  entitySchema (Some (JObj o)) = Some p ->
  z.nullable (z.optional (z.max num_one (z.min num_zero z.number)))
    (o !! str "confidence") = Some (Parsed.confidence p).
Proof.
  unfold entitySchema, z.object. intros Hp.
  repeat (apply bind_Some in Hp as (? & ? & Hp)).
  by injection Hp as <-.
Qed.

Lemma entitySchema_rejects_confidence (o : gmap jsstring json) (n : number) :
  o !! str "confidence" = Some (JNum n) ->
  is_binary64 n = true ->
  ~ in_unit_interval n ->
  entitySchema (Some (JObj o)) = None.
Proof.
  intros Ho Hn Hout.
  destruct (entitySchema (Some (JObj o))) as [p|] eqn:Hp; [|reflexivity].
  apply entitySchema_confidence in Hp.
  rewrite Ho, confidence_schema_number in Hp.
  destruct (confidence_accepted n) eqn:Hacc; [|discriminate].
  by apply confidence_accepted_spec in Hacc.
Qed.

(** After an accepted response whose body is read, the extraction is the
    normalizer applied to the content that [content_of] makes of the
    envelope. *)
Lemma extract_accepted (response : Response.t) (envelope : json) (k : nat) :
  Response.ok response = true ->
  Response.json response = Some envelope ->
  extractEntitiesFromText (Normal response) k
  = match content_of (contentRaw_of envelope) with
    | Normal content => normalize content k
    | Throw e => (Throw e, k)
    end.
Proof.
  intros Hok Hjson. unfold extractEntitiesFromText, mbind, M_bind, lift.
  rewrite Hok, Hjson. cbn [negb]. reflexivity.
Qed.

(** In particular, a content with text that parses is normalized as it is
    parsed. *)
Lemma extract_parsed
    (response : Response.t) (envelope : json) (s : jsstring) (content : json) (k : nat) :
  Response.ok response = true ->
  Response.json response = Some envelope ->
  contentRaw_of envelope = Some (JStr s) ->
  trim s <> [] ->
  JSON_parse s = Some content ->
  extractEntitiesFromText (Normal response) k = normalize content k.
Proof.
  intros Hok Hjson Hraw Htext Hparse.
  rewrite (extract_accepted _ _ _ Hok Hjson), Hraw.
  unfold content_of, js_length, parse. rewrite Hparse.
  destruct (trim s); [congruence|reflexivity].
Qed.

(** C1. A raw response with an entity whose confidence is a number outside
    the closed interval from 0 to 1 is rejected as a whole: the normalizer
    throws the error of an unrecognised format, returns no entity and draws
    no identifier. *)
Theorem confidence_out_of_range_rejected
    (content : json) (o : gmap jsstring json) (n : number) (k : nat) :
  JObj o ∈ raw_entities content ->
  o !! str "confidence" = Some (JNum n) ->
  is_binary64 n = true ->
  ~ in_unit_interval n ->
  normalize content k = (Throw (Error Unrecognised), k).
Proof.
  intros Hin Ho Hn Hout. apply normalize_not_conforming.
  destruct (extractionSchema (Some content)) as [data|] eqn:Hdata; [|reflexivity].
  apply extractionSchema_entities in Hdata.
  apply list_elem_of_lookup in Hin as [i Hi].
  destruct (Forall2_lookup_l _ _ _ _ _ Hdata Hi) as (p & _ & Hp).
  by rewrite (entitySchema_rejects_confidence o n) in Hp.
Qed.

(** C2. A raw response of the expected shape is normalized to one entity
    per raw entity object, in the order of the input; the entity at position
    [i] carries the identifier that the generator yields at that moment, and
    its fields are those of the rules of the specification applied to the
    raw properties (strings trimmed or null, taxonomy_id as text or null,
    resistance as a list without falsy entries, context as its snippet or
    null); the note has no part in the result. *)
Theorem normalize_conforming_response (content : json) (k : nat) :
  expected_shape content = true ->
  exists out,
    normalize content k = (Normal out, (k + length (raw_entities content))%nat)
    /\ length out = length (raw_entities content)
    /\ forall i raw,
         raw_entities content !! i = Some raw ->
         is_object raw
         /\ out !! i = Some (spec_entity (randomUUID_at (k + i)) (properties_of raw)).
Proof.
  intros Hc. apply conforms_expected_shape in Hc.
  eexists. split; [by apply normalize_conforming|].
  split; [by rewrite length_imap|].
  intros i raw Hi. split.
  - eapply Forall_lookup_1; [by apply conforming_objects|exact Hi].
  - rewrite list_lookup_imap, Hi. reflexivity.
Qed.

(** C9. In a response of the expected shape, a raw entity whose taxonomy_id
    is the number 0 or the empty string is normalized to an entity whose
    taxonomy_id is null: it is neither the text of 0 nor the empty
    string. *)
Theorem falsy_taxonomy_id_is_null
    (content : json) (k i : nat) (o : gmap jsstring json) :
  expected_shape content = true ->
  raw_entities content !! i = Some (JObj o) ->
  zero_or_empty (o !! str "taxonomy_id") ->
  exists out entity,
    normalize content k = (Normal out, (k + length (raw_entities content))%nat)
    /\ out !! i = Some entity
    /\ MicrobialEntity.taxonomy_id entity = Null
    /\ MicrobialEntity.taxonomy_id entity <> Val (str "0")
    /\ MicrobialEntity.taxonomy_id entity <> Val [].
Proof.
  intros Hc Hi Hz. apply conforms_expected_shape in Hc.
  do 2 eexists. split; [by apply normalize_conforming|].
  split; [by rewrite list_lookup_imap, Hi|].
  cbn [MicrobialEntity.taxonomy_id spec_entity properties_of].
  assert (spec_taxonomy_id (o !! str "taxonomy_id") = Null) as ->.
  { destruct (o !! str "taxonomy_id") as [[| |[]|[]| |]|]; cbn in Hz; done. }
  done.
Qed.

Lemma normalize_empty_object (k : nat) :
  normalize (JObj ∅) k = (Normal [], k).
Proof. reflexivity. Qed.

Lemma content_of_no_text (contentRaw : option json) :
  no_text contentRaw -> content_of contentRaw = Normal (JObj ∅).
Proof.
  unfold content_of, js_length.
  destruct contentRaw as [[| | |s| |]|]; cbn; try reflexivity.
  by intros ->.
Qed.

(** C10. Once the envelope of an accepted response is read: when its
    content is absent, not a string, or a string that is empty once
    trimmed, the extraction succeeds with the empty list; and an error is
    thrown exactly when the content is a string with text that
    [JSON.parse] rejects, or whose parsed value the schema rejects. *)
Theorem extract_errors_only_from_text
    (response : Response.t) (envelope : json) (k : nat) :
  Response.ok response = true ->
  Response.json response = Some envelope ->
  (no_text (contentRaw_of envelope) ->
   extractEntitiesFromText (Normal response) k = (Normal [], k))
  /\ (forall e k',
        extractEntitiesFromText (Normal response) k = (Throw e, k') <->
        exists s,
          contentRaw_of envelope = Some (JStr s) /\ trim s <> [] /\ k' = k
          /\ ((JSON_parse s = None /\ e = Error NotJson)
              \/ (exists c, JSON_parse s = Some c
                            /\ extractionSchema (Some c) = None
                            /\ e = Error Unrecognised))).
Proof.
  intros Hok Hjson.
  rewrite (extract_accepted _ _ _ Hok Hjson). split.
  - intros Hno. rewrite (content_of_no_text _ Hno). apply normalize_empty_object.
  - intros e k'. unfold content_of, js_length.
    destruct (contentRaw_of envelope) as [[| | |s| |]|];
      try (rewrite normalize_empty_object; split;
           [discriminate | intros (s' & Hs' & _); discriminate]).
    destruct (trim s) as [|c t] eqn:Htrim; cbn [length Nat.eqb negb].
    { rewrite normalize_empty_object. split; [discriminate|].
      intros (s' & Hs' & Hne & _); simplify_eq; congruence. }
    unfold parse. destruct (JSON_parse s) as [content|] eqn:Hparse; cbn [try_catch].
    + destruct (extractionSchema (Some content)) as [data|] eqn:Hdata.
      * rewrite normalize_conforming by (by exists data). split; [discriminate|].
        intros (s' & Hs' & _ & _ & [[Hp _]|(c' & Hp & Hd & _)]); simplify_eq.
      * rewrite normalize_not_conforming by done. split.
        -- intros He. simplify_eq. exists s. rewrite Htrim. split_and!; try done.
           right. by exists content.
        -- intros (s' & Hs' & _ & -> & [[Hp _]|(c' & Hp & Hd & ->)]);
             by simplify_eq.
    + split.
      * intros He. simplify_eq. exists s. rewrite Htrim. split_and!; try done.
        by left.
      * intros (s' & Hs' & _ & -> & [[Hp ->]|(c' & Hp & _)]); by simplify_eq.
Qed.
End Normalizer_properties.

(** ** Properties of the record builder *)

Lemma length_remove_dups_le {A : Type} `{EqDecision A} (l : list A) :
  (length (remove_dups l) <= length l)%nat.
Proof.
  induction l as [|x l IH]; cbn; [lia|].
  destruct (decide_rel elem_of x l); cbn; lia.
Qed.

Lemma Set_size_le {A : Type} `{EqDecision A} (l : list A) :
  (Set_size l <= length l)%nat.
Proof. apply length_remove_dups_le. Qed.

Lemma fold_left_sum {A : Type} (f : A -> nat) (l : list A) (a : nat) :
  fold_left (fun acc x => (acc + f x)%nat) l a = (a + sum_list (List.map f l))%nat.
Proof.
  revert a. induction l as [|x l IH]; intros a; cbn; [lia|].
  rewrite IH. lia.
Qed.

Lemma usable_filter (parts : list (maybe jsstring)) :
  List.map (fun v => nullish v []) (List.filter truthy_maybe parts) = usable parts.
Proof.
  induction parts as [|v parts IH]; [reflexivity|].
  destruct v as [| |[|c s]]; cbn; rewrite ?IH; reflexivity.
Qed.

Lemma usable_not_empty (parts : list (maybe jsstring)) :
  Forall (fun s => s <> []) (usable parts).
Proof.
  induction parts as [|v parts IH]; [constructor|].
  destruct v as [| |[|c s]]; cbn; try exact IH.
  constructor; [discriminate|exact IH].
Qed.

Section Record_builder_properties.
Context `{Platform}.

(** The label of a finding is the label of the specification. *)
Lemma finding_label_spec (entity : MicrobialEntity.t) :
  finding_label entity = spec_label entity.
Proof.
  unfold finding_label, spec_label, join_maybe. rewrite usable_filter.
  pose proof (usable_not_empty
                [MicrobialEntity.genus entity; MicrobialEntity.species entity;
                 MicrobialEntity.strain entity]) as Hne.
  destruct (usable _) as [|p parts] eqn:Hparts; [reflexivity|].
  destruct (join (str " ") (p :: parts)) as [|c s] eqn:Hjoin; [|reflexivity].
  exfalso. revert Hjoin. by apply join_not_empty.
Qed.

(** With a finishing time that is a valid date, the builder returns the
    record: one identifier is drawn and nothing is thrown. *)
Lemma buildExtractionRecord_returns (params : Params.t) (k : nat) :
  time_valid (Params.finishedAt params) = true ->
  exists r,
    buildExtractionRecord params k = (Normal r, S k)
    /\ ExtractionRecord.entities r = Params.entities params
    /\ ExtractionSummary.organismCount (ExtractionRecord.summary r)
       = length (Params.entities params)
    /\ ExtractionSummary.uniqueSpecies (ExtractionRecord.summary r)
       = Set_size (List.filter truthy_maybe
                     (List.map species_label (Params.entities params)))
    /\ ExtractionSummary.resistanceCount (ExtractionRecord.summary r)
       = sum_list (List.map resistance_length (Params.entities params))
    /\ ExtractionSummary.keyFindings (ExtractionRecord.summary r)
       = List.map finding_label (slice 0 5 (Params.entities params))
    /\ ExtractionRecord.rawTextPreview r = slice 0 600 (Params.rawText params).
Proof.
  intros Hvalid.
  unfold buildExtractionRecord, toISOString, mbind, M_bind, randomUUID, lift.
  rewrite Hvalid. eexists. split; [reflexivity|].
  cbn. split_and!; try reflexivity.
  apply (fold_left_sum resistance_length).
Qed.

(** C3. The summary of the record that the builder returns counts the
    entities, counts at most as many distinct species as entities, and
    counts the resistance strings of all the entities together, an entity
    without a resistance list counting for none. *)
Theorem summary_counts (params : Params.t) (k : nat) :
  time_valid (Params.finishedAt params) = true ->
  exists r,
    buildExtractionRecord params k = (Normal r, S k)
    /\ ExtractionSummary.organismCount (ExtractionRecord.summary r)
       = length (Params.entities params)
    /\ (ExtractionSummary.uniqueSpecies (ExtractionRecord.summary r)
        <= ExtractionSummary.organismCount (ExtractionRecord.summary r))%nat
    /\ ExtractionSummary.resistanceCount (ExtractionRecord.summary r)
       = sum_list (List.map resistance_length (Params.entities params)).
Proof.
  intros Hvalid.
  destruct (buildExtractionRecord_returns params k Hvalid)
    as (r & Hr & _ & Hcount & Hunique & Hres & _).
  exists r. split_and!; try done.
  rewrite Hunique, Hcount.
  etransitivity; [apply Set_size_le|].
  etransitivity; [apply filter_length_le|].
  by rewrite length_map.
Qed.

(** C4, as the code has it. The preview of the record is the text cut to
    its first 600 UTF-16 code units; a text of at most 600 code units is
    kept as it is. *)
Theorem preview_first_code_units (params : Params.t) (k : nat) :
  time_valid (Params.finishedAt params) = true ->
  exists r,
    buildExtractionRecord params k = (Normal r, S k)
    /\ ExtractionRecord.rawTextPreview r = firstn 600 (Params.rawText params)
    /\ ((js_length (Params.rawText params) <= 600)%nat ->
        ExtractionRecord.rawTextPreview r = Params.rawText params).
Proof.
  intros Hvalid.
  destruct (buildExtractionRecord_returns params k Hvalid)
    as (r & Hr & _ & _ & _ & _ & _ & Hpreview).
  exists r. rewrite Hpreview. change 600%Z with (Z.of_nat 600).
  rewrite slice_prefix. split_and!; try done.
  intros Hshort. by apply firstn_all2.
Qed.

(** C8. The key findings of the record are the labels of its first five
    entities, in their order: as many labels as there are entities, and
    five at most. *)
Theorem key_findings_labels (params : Params.t) (k : nat) :
  time_valid (Params.finishedAt params) = true ->
  exists r,
    buildExtractionRecord params k = (Normal r, S k)
    /\ ExtractionSummary.keyFindings (ExtractionRecord.summary r)
       = List.map spec_label (firstn 5 (Params.entities params))
    /\ length (ExtractionSummary.keyFindings (ExtractionRecord.summary r))
       = Nat.min 5 (length (Params.entities params)).
Proof.
  intros Hvalid.
  destruct (buildExtractionRecord_returns params k Hvalid)
    as (r & Hr & _ & _ & _ & _ & Hkey & _).
  exists r. rewrite Hkey. change 5%Z with (Z.of_nat 5).
  rewrite slice_prefix. split_and!; try done.
  - apply map_ext. intros entity. apply finding_label_spec.
  - by rewrite length_map, length_take.
Qed.
End Record_builder_properties.

(** ** Properties of the exports *)

Lemma canonicalize_backslash (c : N) : (canonicalize 0x5C =? canonicalize c) = (0x5C =? c).
Proof.
  unfold canonicalize. change ((0x61 <=? 0x5C) && (0x5C <=? 0x7A)) with false.
  cbn match.
  destruct (N.leb_spec 0x61 c), (N.leb_spec c 0x7A); cbn [andb];
    destruct (N.eqb_spec 0x5C c), (N.eqb_spec 0x5C (c - 0x20)); try reflexivity; lia.
Qed.

(** A name without a backslash holds no match of the pattern. *)
Lemma replace_first_pdf_pattern_id (s : jsstring) :
  includes 0x5C s = false -> replace_first pdf_pattern [] s = s.
Proof.
  induction s as [|c s IH]; [reflexivity|].
  unfold includes. cbn [existsb]. intros Hs.
  apply orb_false_elim in Hs as [Hc Hs].
  cbn [replace_first]. unfold match_here. cbn [pdf_pattern atoms ignore_case match_atoms].
  unfold atom_matches at 1. rewrite canonicalize_backslash, Hc.
  f_equal. by apply IH.
Qed.

Section Export_properties.
Context `{Platform}.

(** C5, at the names that hold no backslash, those ending in [.pdf]
    among them: nothing is stripped, and both exports are named by the
    whole file name followed by the suffix of the product. *)
Theorem download_name_keeps_extension (record : ExtractionRecord.t) :
  includes 0x5C (ExtractionRecord.fileName record) = false ->
  Download.fileName (downloadRecordAsJson record)
  = ExtractionRecord.fileName record ++ str "-micr-ai.json"
  /\ Download.fileName (downloadRecordAsCsv record)
     = ExtractionRecord.fileName record ++ str "-micr-ai.csv".
Proof.
  intros Hname. unfold downloadRecordAsJson, downloadRecordAsCsv.
  cbn [Download.fileName]. by rewrite replace_first_pdf_pattern_id.
Qed.

Lemma cell_scalar (v : value) (s : jsstring) :
  scalar_text v = Some s ->
  cell v = if includes comma s || includes newline s
           then [dquote] ++ double_quotes s ++ [dquote]
           else double_quotes s.
Proof.
  destruct v; cbn; intros Hs; simplify_eq;
    by rewrite !includes_double_quotes.
Qed.

Lemma property_scalar (entity : MicrobialEntity.t) (header : jsstring) :
  header ∈ scalar_headers ->
  match property entity header with
  | VArray _ => False
  | _ => True
  end.
Proof.
  unfold scalar_headers. rewrite !elem_of_cons, elem_of_nil.
  intros Hh. destruct entity.
  repeat (destruct Hh as [->|Hh];
          [vm_compute;
           repeat match goal with
                  | |- context [match ?x with _ => _ end] => is_var x; destruct x
                  end; exact I|]).
  destruct Hh.
Qed.

(** C6, as the code has it. In the row of an entity: a resistance list
    makes a cell that is always quoted, its elements joined by a semicolon
    and a space and its double quotes doubled; an entity without a
    resistance list has an empty resistance cell; in a scalar column a
    null or absent field makes an empty cell, and any other field makes
    its text with the double quotes doubled, wrapped in quotes exactly
    when the text holds a comma or a line feed. *)
Theorem csv_cells (entity : MicrobialEntity.t) :
  row entity = join [comma] (List.map (fun header => cell (property entity header)) headers)
  /\ (forall xs,
        MicrobialEntity.resistance entity = Some xs ->
        cell (property entity (str "resistance"))
        = [dquote] ++ double_quotes (join (str "; ") xs) ++ [dquote])
  /\ (MicrobialEntity.resistance entity = None ->
      cell (property entity (str "resistance")) = [])
  /\ (forall header,
        header ∈ scalar_headers ->
        match scalar_text (property entity header) with
        | None => cell (property entity header) = []
        | Some s =>
            cell (property entity header)
            = if includes comma s || includes newline s
              then [dquote] ++ double_quotes s ++ [dquote]
              else double_quotes s
        end).
Proof.
  split_and!.
  - reflexivity.
  - intros xs Hxs.
    change (property entity (str "resistance"))
      with (match MicrobialEntity.resistance entity with
            | Some xs => VArray xs
            | None => VUndefined
            end).
    by rewrite Hxs.
  - intros Hnone.
    change (property entity (str "resistance"))
      with (match MicrobialEntity.resistance entity with
            | Some xs => VArray xs
            | None => VUndefined
            end).
    by rewrite Hnone.
  - intros header Hh. pose proof (property_scalar entity header Hh) as Hv.
    destruct (scalar_text (property entity header)) as [s|] eqn:Hs.
    + by apply cell_scalar.
    + destruct (property entity header); cbn in *; done.
Qed.
End Export_properties.

(** ** Properties of the history store *)

Section History_properties.
Context `{Platform}.

Local Ltac close_cases :=
  split_and!; intros; simplify_eq; eauto; try congruence.

(** C7. Whatever the state of the store, loading the history returns a
    list and throws nothing; the list is empty when there is no window,
    when the store cannot be read or holds no text, when the text is not
    JSON, and when it is JSON but not an array; a stored array is returned
    as it was parsed. *)
Theorem loadStoredRecords_never_throws (window : option Storage.t) :
  (exists records, loadStoredRecords window = Normal records)
  /\ (stored_text window = None -> loadStoredRecords window = Normal [])
  /\ (forall text,
        stored_text window = Some text ->
        JSON_parse text = None ->
        loadStoredRecords window = Normal [])
  /\ (forall text v,
        stored_text window = Some text ->
        JSON_parse text = Some v ->
        (forall records, v <> JArr records) ->
        loadStoredRecords window = Normal [])
  /\ (forall text records,
        stored_text window = Some text ->
        text <> [] ->
        JSON_parse text = Some (JArr records) ->
        loadStoredRecords window = Normal records).
Proof.
  unfold loadStoredRecords, stored_text, Storage.getItem, parse.
  destruct window as [[refused items]|]; simpl; [|by close_cases].
  destruct refused; simpl; [by close_cases|].
  destruct (items !! RECORDS_KEY) as [text|]; simpl; [|by close_cases].
  destruct text as [|c text]; simpl; [by close_cases|].
  destruct (JSON_parse (c :: text)) as [v|] eqn:Hparse; simpl; [|by close_cases].
  close_cases.
  - destruct v; try reflexivity.
    match goal with Hne : forall records, _ <> _ |- _ => by destruct (Hne elements) end.
Qed.
End History_properties.

(** ** Trimming *)

Lemma trimStart_app_stop (x : jsstring) (c : N) (y : jsstring) :
  is_trimmed_char c = false ->
  trimStart (x ++ c :: y) = trimStart x ++ c :: y.
Proof.
  intros Hc. induction x as [|a x IH]; cbn [trimStart app].
  - by rewrite Hc.
  - destruct (is_trimmed_char a); [exact IH|reflexivity].
Qed.

Lemma trimStart_all (x : jsstring) :
  forallb is_trimmed_char x = true -> trimStart x = [].
Proof.
  induction x as [|a x IH]; cbn; [reflexivity|].
  destruct (is_trimmed_char a); cbn; [exact IH|discriminate].
Qed.

(** What [trimStart] removes is made of stripped characters, and what it
    leaves does not start with one. *)
Lemma trimStart_split (s : jsstring) :
  exists p,
    s = p ++ trimStart s
    /\ forallb is_trimmed_char p = true
    /\ match trimStart s with
       | [] => True
       | c :: _ => is_trimmed_char c = false
       end.
Proof.
  induction s as [|a s (p & Hs & Hp & Hhead)]; [by exists []|].
  cbn [trimStart]. destruct (is_trimmed_char a) eqn:Ha.
  - exists (a :: p). cbn. rewrite Ha, Hp. by rewrite <- Hs.
  - exists []. cbn. by rewrite Ha.
Qed.

(** [trimEnd] leaves the text up to a character that it does not strip. *)
Lemma trimEnd_app_stop (a : jsstring) (c : N) (b : jsstring) :
  is_trimmed_char c = false ->
  trimEnd (a ++ c :: b) = a ++ c :: trimEnd b.
Proof.
  intros Hc. unfold trimEnd.
  rewrite rev_app_distr. cbn [rev]. rewrite <- app_assoc. cbn [app].
  rewrite trimStart_app_stop by done.
  rewrite rev_app_distr. cbn [rev]. rewrite rev_involutive, <- app_assoc.
  reflexivity.
Qed.

Lemma trimEnd_all (x : jsstring) :
  forallb is_trimmed_char x = true -> trimEnd x = [].
Proof.
  intros Hx. unfold trimEnd. rewrite trimStart_all; [reflexivity|].
  rewrite forallb_forall in *. intros c Hin. apply Hx. by apply in_rev.
Qed.

(** A string is all stripped characters, or ends after a last character
    that is kept. *)
Lemma last_kept (s : jsstring) :
  forallb is_trimmed_char s = true
  \/ exists a c b,
       s = a ++ c :: b /\ is_trimmed_char c = false
       /\ forallb is_trimmed_char b = true.
Proof.
  induction s as [|x s IH]; [by left|].
  destruct IH as [Hall|(a & c & b & -> & Hc & Hb)].
  - destruct (is_trimmed_char x) eqn:Hx.
    + left. cbn. by rewrite Hx.
    + right. exists [], x, s. by split_and!.
  - right. exists (x :: a), c, b. by split_and!.
Qed.

Lemma is_trimmed_app_stop (t : jsstring) (c : N) (a : jsstring) :
  match t ++ c :: a with
  | [] => True
  | h :: _ => is_trimmed_char h = false
  end ->
  is_trimmed_char c = false ->
  is_trimmed ((t ++ [c])) = true.
Proof.
  intros Hhead Hc. destruct t as [|h t]; cbn in *.
  - by rewrite Hc.
  - rewrite Hhead. cbn. rewrite last_last. by rewrite Hc.
Qed.

(** [s.trim()] removes stripped characters at both ends, and nothing else:
    the result is trimmed. *)
Lemma trim_split (s : jsstring) :
  exists p q,
    s = p ++ trim s ++ q
    /\ forallb is_trimmed_char p = true
    /\ forallb is_trimmed_char q = true
    /\ is_trimmed (trim s) = true.
Proof.
  unfold trim. destruct (trimStart_split s) as (p & Hs & Hp & Hhead).
  destruct (last_kept (trimStart s)) as [Hall|(a & c & b & Ht & Hc & Hb)].
  - exists p, (trimStart s). rewrite trimEnd_all by done. by split_and!.
  - exists p, b. rewrite Ht in *. rewrite trimEnd_app_stop, trimEnd_all by done.
    split_and!; try done.
    + by rewrite <- app_assoc.
    + change (a ++ [c]) with (a ++ [c]). by eapply is_trimmed_app_stop.
Qed.

Lemma trim_is_trimmed (s : jsstring) : is_trimmed (trim s) = true.
Proof. by destruct (trim_split s) as (p & q & _ & _ & _ & Ht). Qed.

(** A trimmed string is left as it is. *)
Lemma trim_trimmed (s : jsstring) : is_trimmed s = true -> trim s = s.
Proof.
  destruct s as [|h s]; [reflexivity|]. cbn [is_trimmed].
  intros Ht. apply andb_prop in Ht as [Hh Hl].
  apply negb_true_iff in Hh, Hl.
  unfold trim. cbn [trimStart]. rewrite Hh.
  destruct (exists_last (l:=h :: s) ltac:(discriminate)) as (a & c & Hs).
  assert (Hc : is_trimmed_char c = false).
  { destruct s as [|x s].
    - destruct a; cbn in Hs; simplify_eq; [done|by destruct a].
    - assert (List.last (h :: x :: s) h = c) as Hlast by (rewrite Hs; apply last_last).
      cbn [List.last] in Hlast. cbn [List.last] in Hl.
      rewrite <- Hlast. clear -Hl. revert x Hl.
      induction s as [|y s IH]; intros x Hl; [done|].
      cbn [List.last] in *. by apply IH. }
  rewrite Hs. change (a ++ [c]) with (a ++ c :: []).
  rewrite trimEnd_app_stop by done. reflexivity.
Qed.

Lemma trim_idempotent (s : jsstring) : trim (trim s) = trim s.
Proof. apply trim_trimmed, trim_is_trimmed. Qed.

(** ** Invariants of the normalizer *)

Lemma expected_shape_entities (content : json) :
  expected_shape content = true ->
  Forall (fun raw => entity_shape raw = true) (raw_entities content).
Proof.
  unfold expected_shape, raw_entities.
  destruct content as [| | | | |o]; try discriminate.
  intros Hs. apply andb_prop in Hs as [Hes _].
  destruct (o !! str "entities") as [[| | | |es|]|]; try done.
  apply Forall_forall. intros raw Hin.
  rewrite forallb_forall in Hes. by apply Hes, list_elem_of_In.
Qed.

Lemma entitySchema_ext (o o' : gmap jsstring json) :
  (forall key, key ∈ schema_keys -> o !! key = o' !! key) ->
  entitySchema (Some (JObj o)) = entitySchema (Some (JObj o')).
Proof.
  intros Hkeys. unfold entitySchema, z.object.
  apply Forall_forall in Hkeys. unfold schema_keys in Hkeys.
  repeat (apply Forall_cons in Hkeys as [-> Hkeys]).
  reflexivity.
Qed.

Lemma spec_resistance_no_empty (v : option json) :
  Forall (fun s => s <> []) (spec_resistance v).
Proof.
  unfold spec_resistance. destruct v as [[| | |s|l|]|]; try constructor.
  - destruct s; cbn; [constructor|]. by repeat constructor.
  - apply Forall_forall. intros s Hin.
    apply list_elem_of_In, filter_In in Hin as [_ Hs]. by destruct s.
Qed.

Lemma spec_string_trimmed (v : option json) : null_or_trimmed (spec_string v).
Proof.
  unfold spec_string. destruct v as [[]|]; try exact I. apply trim_is_trimmed.
Qed.

Lemma entity_shape_confidence (o : gmap jsstring json) :
  entity_shape (JObj o) = true -> confidence_shape (o !! str "confidence") = true.
Proof.
  unfold entity_shape. rewrite !andb_true_iff. tauto.
Qed.

Section Normalizer_invariants.
Context `{Platform}.

(** What a normal result of the normalizer tells of its input. *)
Lemma normalize_returns (content : json) (k k' : nat) (out : list MicrobialEntity.t) :
  normalize content k = (Normal out, k') ->
  expected_shape content = true
  /\ k' = (k + length (raw_entities content))%nat
  /\ out = imap (fun i raw => spec_entity (randomUUID_at (k + i)) (properties_of raw))
             (raw_entities content).
Proof.
  intros Hrun.
  destruct (extractionSchema (Some content)) as [data|] eqn:Hdata.
  - assert (Hc : conforms content) by (by exists data).
    rewrite (normalize_conforming content k Hc) in Hrun.
    apply conforms_expected_shape in Hc. by simplify_eq.
  - by rewrite normalize_not_conforming in Hrun.
Qed.

Lemma normalized_entity_origin
    (content : json) (k k' : nat) (out : list MicrobialEntity.t)
    (entity : MicrobialEntity.t) :
  normalize content k = (Normal out, k') ->
  entity ∈ out ->
  exists i o,
    raw_entities content !! i = Some (JObj o)
    /\ entity_shape (JObj o) = true
    /\ entity = spec_entity (randomUUID_at (k + i)) o.
Proof.
  intros Hrun Hin. apply normalize_returns in Hrun as (Hshape & _ & ->).
  apply elem_of_lookup_imap_1 in Hin as (i & raw & -> & Hraw).
  pose proof (expected_shape_entities content Hshape) as Hall.
  pose proof (Forall_lookup_1 _ _ _ _ Hall Hraw) as Hentity.
  destruct raw as [| | | | |o]; try discriminate.
  by exists i, o.
Qed.

(** The two outcomes of the normalizer. *)
Lemma normalize_cases (content : json) (k : nat) :
  (expected_shape content = false
   /\ normalize content k = (Throw (Error Unrecognised), k))
  \/ (expected_shape content = true
      /\ exists out,
           normalize content k = (Normal out, (k + length out)%nat)
           /\ length out = length (raw_entities content)).
Proof.
  destruct (expected_shape content) eqn:Hshape.
  - right. split; [done|]. apply conforms_expected_shape in Hshape.
    exists (imap (fun i raw => spec_entity (randomUUID_at (k + i)) (properties_of raw))
              (raw_entities content)).
    rewrite length_imap. split; [by apply normalize_conforming|done].
  - left. split; [done|]. apply normalize_not_conforming.
    destruct (extractionSchema (Some content)) as [data|] eqn:Hdata; [|done].
    assert (Hc : conforms content) by (by exists data).
    apply conforms_expected_shape in Hc. congruence.
Qed.

(** X1. The normalizer is all or nothing, and the shape of the response
    decides: a response that is not of the expected shape throws and draws
    no identifier; a response of the expected shape returns one entity per
    raw entity and draws one identifier for each. *)
Theorem normalize_all_or_nothing (content : json) (k : nat) :
  (expected_shape content = false
   /\ normalize content k = (Throw (Error Unrecognised), k))
  \/ (expected_shape content = true
      /\ exists out,
           normalize content k = (Normal out, (k + length out)%nat)
           /\ length out = length (raw_entities content)).
Proof.
  apply normalize_cases.
Qed.

(** X2. Every entity that the normalizer returns has a resistance list, and
    the list holds no empty string. *)
Theorem normalized_resistance_no_empty
    (content : json) (k k' : nat) (out : list MicrobialEntity.t)
    (entity : MicrobialEntity.t) :
  normalize content k = (Normal out, k') ->
  entity ∈ out ->
  exists r,
    MicrobialEntity.resistance entity = Some r
    /\ Forall (fun s => s <> []) r.
Proof.
  intros Hrun Hin.
  destruct (normalized_entity_origin _ _ _ _ _ Hrun Hin) as (i & o & _ & _ & ->).
  eexists. split; [reflexivity|]. apply spec_resistance_no_empty.
Qed.

(** X3. In every entity that the normalizer returns, each of the eight
    string fields is null or a string without a stripped character at
    either end; none is left undefined. *)
Theorem normalized_strings_trimmed
    (content : json) (k k' : nat) (out : list MicrobialEntity.t)
    (entity : MicrobialEntity.t) :
  normalize content k = (Normal out, k') ->
  entity ∈ out ->
  Forall null_or_trimmed (string_fields entity).
Proof.
  intros Hrun Hin.
  destruct (normalized_entity_origin _ _ _ _ _ Hrun Hin) as (i & o & _ & _ & ->).
  unfold string_fields, spec_entity. cbn.
  repeat constructor; apply spec_string_trimmed.
Qed.

(** X4. In every entity that the normalizer returns, the confidence is null
    or a number that passed the tests of the schema: a binary64 number of the
    closed interval from 0 to 1. *)
Theorem normalized_confidence_in_range
    (content : json) (k k' : nat) (out : list MicrobialEntity.t)
    (entity : MicrobialEntity.t) :
  normalize content k = (Normal out, k') ->
  entity ∈ out ->
  null_or_unit (MicrobialEntity.confidence entity).
Proof.
  intros Hrun Hin.
  destruct (normalized_entity_origin _ _ _ _ _ Hrun Hin) as (i & o & _ & Hshape & ->).
  apply entity_shape_confidence in Hshape.
  cbn [MicrobialEntity.confidence spec_entity].
  destruct (o !! str "confidence") as [[| |n| | |]|]; try exact I.
  cbn in Hshape. split; [done|]. intros Hn. by apply confidence_accepted_spec.
Qed.

Lemma map_entitySchema_same_fields (es es' : list json) :
  Forall2 same_fields es es' ->
  mapM (fun x => entitySchema (Some x)) es = mapM (fun x => entitySchema (Some x)) es'.
Proof.
  induction 1 as [|raw raw' es es' Hraw _ IH]; [reflexivity|].
  cbn [mapM]. rewrite IH.
  destruct raw as [| | | | |o], raw' as [| | | | |o']; try done.
  by rewrite (entitySchema_ext o o').
Qed.

(** X5. The normalizer reads nothing of an entity but the thirteen keys of
    the schema: replacing the entities by objects that agree with them on
    these keys (whatever identifier or other property the model adds,
    changes or removes) changes neither the result nor the error. *)
Theorem normalize_ignores_unknown_properties
    (o : gmap jsstring json) (es es' : list json) (k : nat) :
  o !! str "entities" = Some (JArr es) ->
  Forall2 same_fields es es' ->
  normalize (JObj (<[ str "entities" := JArr es' ]> o)) k = normalize (JObj o) k.
Proof.
  intros Hes Hsame. unfold normalize.
  assert (Hschema : extractionSchema (Some (JObj (<[ str "entities" := JArr es' ]> o)))
                    = extractionSchema (Some (JObj o))).
  { unfold extractionSchema, z.object.
    rewrite lookup_insert_eq, Hes.
    rewrite lookup_insert_ne by (intros Heq; vm_compute in Heq; discriminate).
    change (z.default (JArr []) (z.array entitySchema) (Some (JArr es')))
      with (mapM (fun x => entitySchema (Some x)) es').
    change (z.default (JArr []) (z.array entitySchema) (Some (JArr es)))
      with (mapM (fun x => entitySchema (Some x)) es).
    by rewrite (map_entitySchema_same_fields es es'). }
  by rewrite Hschema.
Qed.

Lemma raw_entities_insert_summary (o : gmap jsstring json) (summary : json) :
  raw_entities (JObj (<[ str "summary" := summary ]> o)) = raw_entities (JObj o).
Proof.
  unfold raw_entities.
  by rewrite lookup_insert_ne by (intros Heq; vm_compute in Heq; discriminate).
Qed.

Lemma expected_shape_insert_summary (o : gmap jsstring json) (summary : json) :
  expected_shape (JObj (<[ str "summary" := summary ]> o))
  = match o !! str "entities" with
    | None => true
    | Some (JArr es) => forallb entity_shape es
    | _ => false
    end && summary_shape (Some summary).
Proof.
  unfold expected_shape.
  rewrite lookup_insert_eq.
  by rewrite lookup_insert_ne by (intros Heq; vm_compute in Heq; discriminate).
Qed.

(** X6. The summary of the model is validated and then dropped: a summary
    that is not of the expected shape makes the normalizer throw, whatever
    the entities; and between two summaries of the expected shape the result
    is the same. *)
Theorem summary_validated_then_dropped (o : gmap jsstring json) (k : nat) :
  (summary_shape (o !! str "summary") = false ->
   normalize (JObj o) k = (Throw (Error Unrecognised), k))
  /\ (forall summary,
        summary_shape (o !! str "summary") = true ->
        summary_shape (Some summary) = true ->
        normalize (JObj (<[ str "summary" := summary ]> o)) k = normalize (JObj o) k).
Proof.
  split.
  - intros Hbad.
    destruct (normalize_cases (JObj o) k) as [[_ Hthrow]|[Hshape _]]; [done|].
    unfold expected_shape in Hshape. rewrite Hbad, andb_false_r in Hshape. done.
  - intros summary Hold Hnew.
    destruct (expected_shape (JObj o)) eqn:Hshape.
    + assert (Hshape' : expected_shape (JObj (<[ str "summary" := summary ]> o)) = true).
      { rewrite expected_shape_insert_summary, Hnew.
        unfold expected_shape in Hshape. by rewrite Hold in Hshape. }
      apply conforms_expected_shape in Hshape, Hshape'.
      rewrite !normalize_conforming by done.
      by rewrite raw_entities_insert_summary.
    + assert (Hshape' : expected_shape (JObj (<[ str "summary" := summary ]> o)) = false).
      { rewrite expected_shape_insert_summary, Hnew.
        unfold expected_shape in Hshape. by rewrite Hold in Hshape. }
      destruct (normalize_cases (JObj o) k) as [[_ ->]|[? _]]; [|congruence].
      destruct (normalize_cases (JObj (<[ str "summary" := summary ]> o)) k)
        as [[_ ->]|[? _]]; [done|congruence].
Qed.

(** X7. The edges of the top level: a content that is not an object
    throws; an object without entities (and with a summary of the expected
    shape, or none) gives the empty list and draws no identifier; entities
    that are present but not an array, [null] included, throw. *)
Theorem normalize_top_level (content : json) (k : nat) :
  (~ is_object content -> normalize content k = (Throw (Error Unrecognised), k))
  /\ (forall o,
        content = JObj o ->
        o !! str "entities" = None ->
        summary_shape (o !! str "summary") = true ->
        normalize content k = (Normal [], k))
  /\ (forall o v,
        content = JObj o ->
        o !! str "entities" = Some v ->
        (forall es, v <> JArr es) ->
        normalize content k = (Throw (Error Unrecognised), k)).
Proof.
  split_and!.
  - intros Hno. destruct content; try reflexivity. by destruct Hno.
  - intros o -> Hes Hsum.
    assert (Hshape : expected_shape (JObj o) = true)
      by (unfold expected_shape; by rewrite Hes, Hsum).
    apply conforms_expected_shape in Hshape.
    rewrite normalize_conforming by done.
    unfold raw_entities. rewrite Hes. cbn. by rewrite Nat.add_0_r.
  - intros o v -> Hes Hv.
    destruct (normalize_cases (JObj o) k) as [[_ Hthrow]|[Hshape _]]; [done|].
    unfold expected_shape in Hshape. rewrite Hes in Hshape.
    destruct v; try done. by destruct (Hv elements).
Qed.

(** X8. The identifiers of the entities that the normalizer returns are
    the identifiers that the generator yields during the call, in order; when
    the generator does not repeat itself during the call, no two entities
    share an identifier. *)
Theorem normalized_ids_distinct
    (content : json) (k k' : nat) (out : list MicrobialEntity.t) :
  normalize content k = (Normal out, k') ->
  NoDup (randomUUID_at <$> seq k (length (raw_entities content))) ->
  MicrobialEntity.id <$> out = randomUUID_at <$> seq k (length out)
  /\ NoDup (MicrobialEntity.id <$> out).
Proof.
  intros Hrun Hfresh. apply normalize_returns in Hrun as (_ & _ & ->).
  rewrite length_imap, fmap_imap.
  assert (Hids : imap (fun i => MicrobialEntity.id
                                ∘ (fun raw => spec_entity (randomUUID_at (k + i))
                                                (properties_of raw)))
                   (raw_entities content)
                 = randomUUID_at <$> seq k (length (raw_entities content))).
  { rewrite <- imap_seq. by apply imap_ext. }
  by rewrite Hids.
Qed.
End Normalizer_invariants.

(** ** Further properties of the record builder *)

Lemma remove_dups_nil_inv {A : Type} `{EqDecision A} (l : list A) :
  remove_dups l = [] -> l = [].
Proof.
  intros Hl. destruct l as [|x l]; [reflexivity|].
  assert (Hx : x ∈ remove_dups (x :: l)) by (apply elem_of_remove_dups; left).
  rewrite Hl in Hx. by apply elem_of_nil in Hx.
Qed.

(** The size of the set of a list depends on the elements only. *)
Lemma Set_size_ext {A : Type} `{EqDecision A} (l l' : list A) :
  (forall x, x ∈ l <-> x ∈ l') -> Set_size l = Set_size l'.
Proof.
  intros Hsame. unfold Set_size. apply Permutation_length.
  apply NoDup_Permutation; try apply NoDup_remove_dups.
  intros x. by rewrite !elem_of_remove_dups.
Qed.

Lemma species_label_null (entity : MicrobialEntity.t) :
  truthy_maybe (species_label entity) = false <-> no_species entity.
Proof.
  unfold species_label, no_species, join_maybe. rewrite usable_filter.
  pose proof (usable_not_empty
                [MicrobialEntity.genus entity; MicrobialEntity.species entity]) as Hne.
  destruct (MicrobialEntity.genus entity) as [| |[|c g]],
    (MicrobialEntity.species entity) as [| |[|d s]]; cbn; intuition congruence.
Qed.

Lemma filter_nil_iff {A : Type} (f : A -> bool) (l : list A) :
  List.filter f l = [] <-> Forall (fun x => f x = false) l.
Proof.
  induction l as [|x l IH]; cbn.
  - split; [constructor|reflexivity].
  - destruct (f x) eqn:Hx.
    + split; [discriminate|]. intros Hall. inversion Hall; congruence.
    + rewrite IH. split; [by constructor|]. intros Hall. by inversion Hall.
Qed.

Section Record_builder_further.
Context `{Platform}.

(** X9. The builder throws exactly when the finishing time is not a valid
    date: then it throws a [RangeError], after the identifier of the record
    has been drawn; otherwise it returns a record that carries the drawn
    identifier, the file name, the file size and the entities as they were
    given, and the difference of the two times as its duration. *)
Theorem buildExtractionRecord_outcome (params : Params.t) (k : nat) :
  (time_valid (Params.finishedAt params) = false ->
   buildExtractionRecord params k = (Throw RangeError, S k))
  /\ (time_valid (Params.finishedAt params) = true ->
      exists r,
        buildExtractionRecord params k = (Normal r, S k)
        /\ ExtractionRecord.id r = randomUUID_at k
        /\ ExtractionRecord.fileName r = Params.fileName params
        /\ ExtractionRecord.fileSize r = Params.fileSize params
        /\ ExtractionRecord.entities r = Params.entities params
        /\ ExtractionRecord.processedAt r = Date_format (Params.finishedAt params)
        /\ ExtractionRecord.durationMs r
           = num_sub (Params.finishedAt params) (Params.startedAt params)).
Proof.
  unfold buildExtractionRecord, toISOString, mbind, M_bind, randomUUID, lift.
  split; intros ->; [reflexivity|].
  eexists. split; [reflexivity|]. by split_and!.
Qed.

Lemma buildExtractionRecord_summary (params : Params.t) (k : nat) :
  time_valid (Params.finishedAt params) = true ->
  exists r,
    buildExtractionRecord params k = (Normal r, S k)
    /\ ExtractionSummary.organismCount (ExtractionRecord.summary r)
       = length (Params.entities params)
    /\ ExtractionSummary.uniqueSpecies (ExtractionRecord.summary r)
       = Set_size (List.filter truthy_maybe
                     (List.map species_label (Params.entities params)))
    /\ ExtractionSummary.sourceCount (ExtractionRecord.summary r)
       = length (List.filter
                   (fun entity => truthy_maybe (MicrobialEntity.source entity))
                   (Params.entities params))
    /\ ExtractionSummary.pathogenicityCount (ExtractionRecord.summary r)
       = length (List.filter
                   (fun entity => truthy_maybe (MicrobialEntity.pathogenicity entity))
                   (Params.entities params)).
Proof.
  intros Hvalid.
  unfold buildExtractionRecord, toISOString, mbind, M_bind, randomUUID, lift.
  rewrite Hvalid. eexists. split; [reflexivity|]. by split_and!.
Qed.

(** X10. The counts of sources and of pathogenicities never exceed the
    count of organisms; an entity whose source is null, absent or empty does
    not count as a source. *)
Theorem summary_source_counts (params : Params.t) (k : nat) :
  time_valid (Params.finishedAt params) = true ->
  exists r,
    buildExtractionRecord params k = (Normal r, S k)
    /\ (ExtractionSummary.sourceCount (ExtractionRecord.summary r)
        <= ExtractionSummary.organismCount (ExtractionRecord.summary r))%nat
    /\ (ExtractionSummary.pathogenicityCount (ExtractionRecord.summary r)
        <= ExtractionSummary.organismCount (ExtractionRecord.summary r))%nat
    /\ (ExtractionSummary.sourceCount (ExtractionRecord.summary r)
        + length (List.filter
                    (fun entity => negb (truthy_maybe (MicrobialEntity.source entity)))
                    (Params.entities params))
        = ExtractionSummary.organismCount (ExtractionRecord.summary r))%nat.
Proof.
  intros Hvalid.
  destruct (buildExtractionRecord_summary params k Hvalid)
    as (r & Hr & Hcount & _ & Hsource & Hpath).
  exists r. rewrite Hcount, Hsource, Hpath.
  split_and!; try done; try apply filter_length_le.
  apply filter_length.
Qed.

(** X11. The count of species is 0 exactly when no entity has a genus or a
    species that is present and not empty; in particular it is 0 without
    entities. *)
Theorem unique_species_zero (params : Params.t) (k : nat) :
  time_valid (Params.finishedAt params) = true ->
  exists r,
    buildExtractionRecord params k = (Normal r, S k)
    /\ (ExtractionSummary.uniqueSpecies (ExtractionRecord.summary r) = 0%nat
        <-> Forall no_species (Params.entities params)).
Proof.
  intros Hvalid.
  destruct (buildExtractionRecord_summary params k Hvalid)
    as (r & Hr & _ & Hunique & _).
  exists r. rewrite Hunique. split; [done|]. unfold Set_size.
  rewrite length_zero_iff_nil. split.
  - intros Hnil. apply remove_dups_nil_inv, filter_nil_iff in Hnil.
    rewrite Forall_map in Hnil.
    eapply Forall_impl; [exact Hnil|]. intros entity. apply species_label_null.
  - intros Hall. assert (List.filter truthy_maybe
                           (List.map species_label (Params.entities params)) = []) as ->;
      [|reflexivity].
    apply filter_nil_iff. rewrite Forall_map.
    eapply Forall_impl; [exact Hall|]. intros entity. apply species_label_null.
Qed.

(** X12. The count of species depends only on which labels of genus and
    species occur among the entities: it is the same for two lists of
    entities with the same labels, however often and in whatever order
    they occur. *)
Theorem unique_species_of_labels (params params' : Params.t) (k k' : nat) :
  time_valid (Params.finishedAt params) = true ->
  time_valid (Params.finishedAt params') = true ->
  (forall label,
     label ∈ List.map species_label (Params.entities params)
     <-> label ∈ List.map species_label (Params.entities params')) ->
  exists r r',
    buildExtractionRecord params k = (Normal r, S k)
    /\ buildExtractionRecord params' k' = (Normal r', S k')
    /\ ExtractionSummary.uniqueSpecies (ExtractionRecord.summary r)
       = ExtractionSummary.uniqueSpecies (ExtractionRecord.summary r').
Proof.
  intros Hvalid Hvalid' Hlabels.
  destruct (buildExtractionRecord_summary params k Hvalid)
    as (r & Hr & _ & Hunique & _).
  destruct (buildExtractionRecord_summary params' k' Hvalid')
    as (r' & Hr' & _ & Hunique' & _).
  exists r, r'. rewrite Hunique, Hunique'. split_and!; try done.
  apply Set_size_ext. intros label.
  rewrite !list_elem_of_In, !filter_In, <- !list_elem_of_In.
  by rewrite Hlabels.
Qed.
End Record_builder_further.

(** ** Further properties of the exports *)

Lemma join_concat (sep x : jsstring) (rest : list jsstring) :
  join sep (x :: rest) = x ++ concat (List.map (fun y => sep ++ y) rest).
Proof.
  revert x. induction rest as [|y rest IH]; intros x.
  - cbn. by rewrite app_nil_r.
  - rewrite join_cons, IH. cbn [List.map concat]. by rewrite <- app_assoc.
Qed.

Lemma canonicalize_letter (l c : N) :
  0x61 <= l -> l <= 0x7A ->
  (canonicalize l =? canonicalize c) = true <-> c = l \/ c = l - 0x20.
Proof.
  intros Hlo Hhi. unfold canonicalize.
  destruct (N.leb_spec 0x61 l), (N.leb_spec l 0x7A); try lia. cbn [andb].
  rewrite N.eqb_eq.
  destruct (N.leb_spec 0x61 c), (N.leb_spec c 0x7A); cbn [andb]; lia.
Qed.

Lemma match_atoms_length (i : bool) (as_ : list atom) (s rest : jsstring) :
  match_atoms i as_ s = Some rest -> length s = (length as_ + length rest)%nat.
Proof.
  revert s. induction as_ as [|a as_ IH]; intros s; cbn [match_atoms].
  - intros Hs. by simplify_eq.
  - destruct s as [|c s]; [discriminate|].
    destruct (atom_matches i a c); [|discriminate].
    intros Hs. apply IH in Hs. cbn. lia.
Qed.

Lemma match_here_pdf_pattern_five (c0 c1 c2 c3 c4 : N) :
  match_here pdf_pattern [c0; c1; c2; c3; c4] = Some []
  <-> pattern_suffix [c0; c1; c2; c3; c4].
Proof.
  unfold match_here, pattern_suffix.
  cbn [pdf_pattern atoms ignore_case anchored_end match_atoms].
  unfold atom_matches. rewrite canonicalize_backslash.
  destruct (N.eqb_spec 0x5C c0) as [<-|Hc0].
  2: { split; [discriminate|]. intros (c & p & d & f & Heq & _). congruence. }
  destruct (is_line_terminator c1) eqn:Hc1; cbn [negb].
  { split; [discriminate|]. intros (c & p & d & f & Heq & Hc & _).
    simplify_eq. congruence. }
  destruct (canonicalize 0x70 =? canonicalize c2) eqn:Hc2.
  2: { split; [discriminate|]. intros (c & p & d & f & Heq & _ & Hp & _).
       simplify_eq. exfalso. apply not_true_iff_false in Hc2. apply Hc2.
       apply canonicalize_letter; lia. }
  destruct (canonicalize 0x64 =? canonicalize c3) eqn:Hc3.
  2: { split; [discriminate|]. intros (c & p & d & f & Heq & _ & _ & Hd & _).
       simplify_eq. exfalso. apply not_true_iff_false in Hc3. apply Hc3.
       apply canonicalize_letter; lia. }
  destruct (canonicalize 0x66 =? canonicalize c4) eqn:Hc4.
  2: { split; [discriminate|]. intros (c & p & d & f & Heq & _ & _ & _ & Hf).
       simplify_eq. exfalso. apply not_true_iff_false in Hc4. apply Hc4.
       apply canonicalize_letter; lia. }
  apply canonicalize_letter in Hc2, Hc3, Hc4; try lia.
  split; [intros _|reflexivity].
  exists c1, c2, c3, c4. split_and!; try done; lia.
Qed.

Lemma match_here_pdf_pattern (t rest : jsstring) :
  match_here pdf_pattern t = Some rest <-> rest = [] /\ pattern_suffix t.
Proof.
  split.
  - intros Hm.
    assert (Hrest : rest = []).
    { unfold match_here in Hm. cbn [pdf_pattern anchored_end] in Hm.
      destruct (match_atoms _ _ t) as [[|x r]|]; by simplify_eq. }
    subst rest. split; [done|].
    assert (Hlen : length t = 5%nat).
    { unfold match_here in Hm.
      destruct (match_atoms (ignore_case pdf_pattern) (atoms pdf_pattern) t)
        as [r|] eqn:Ha; [|discriminate].
      apply match_atoms_length in Ha. cbn [pdf_pattern anchored_end] in Hm.
      destruct r; [|discriminate]. cbn in Ha. lia. }
    destruct t as [|c0 [|c1 [|c2 [|c3 [|c4 [|c5 t]]]]]]; try discriminate.
    by apply match_here_pdf_pattern_five.
  - intros [-> Hsuffix].
    pose proof Hsuffix as (c & p & d & f & -> & _).
    by apply match_here_pdf_pattern_five.
Qed.

(** X13. What the exports strip from a file name: when the name ends in a
    backslash, one more character and [pdf], these five characters are
    dropped; any other name is kept whole. *)
Theorem replace_first_pdf_pattern (s : jsstring) :
  (forall base suffix,
     s = base ++ suffix -> pattern_suffix suffix ->
     replace_first pdf_pattern [] s = base)
  /\ ((forall base suffix, s = base ++ suffix -> ~ pattern_suffix suffix) ->
      replace_first pdf_pattern [] s = s).
Proof.
  split.
  - intros base suffix -> Hsuffix.
    induction base as [|c base IH].
    + cbn [app]. destruct suffix as [|c0 suffix].
      { destruct Hsuffix as (? & ? & ? & ? & ? & _). discriminate. }
      cbn [replace_first].
      by rewrite (proj2 (match_here_pdf_pattern (c0 :: suffix) []) (conj eq_refl Hsuffix)).
    + cbn [app replace_first].
      destruct (match_here pdf_pattern (c :: base ++ suffix)) as [rest|] eqn:Hm.
      * apply match_here_pdf_pattern in Hm as (_ & c1 & p & d & f & Heq & _).
        destruct Hsuffix as (c1' & p' & d' & f' & -> & _).
        apply (f_equal length) in Heq. rewrite length_cons, length_app in Heq.
        cbn in Heq. lia.
      * by rewrite IH.
  - induction s as [|c s IH]; intros Hno.
    + cbn. by destruct (match_here pdf_pattern []).
    + cbn [replace_first].
      destruct (match_here pdf_pattern (c :: s)) as [rest|] eqn:Hm.
      * apply match_here_pdf_pattern in Hm as (_ & Hm).
        by destruct (Hno [] (c :: s)).
      * f_equal. apply IH. intros base suffix -> Hsuffix.
        by apply (Hno (c :: base) suffix).
Qed.

Section Export_further.
Context `{Platform}.

(** X14. The text of the table is the header line followed by one row per
    entity, in the order of the record, each row after a line feed: a record
    without entities gives the header line alone, and the text never ends in
    a line feed of its own. *)
Theorem csv_content (record : ExtractionRecord.t) :
  Download.content (downloadRecordAsCsv record)
  = header_line
    ++ concat (List.map (fun entity => newline :: row entity)
                 (ExtractionRecord.entities record)).
Proof.
  unfold downloadRecordAsCsv. cbn [Download.content].
  rewrite join_concat, map_map.
  assert (join [comma] headers = header_line) as -> by (vm_compute; reflexivity).
  reflexivity.
Qed.

(** X15. No cell breaks the table: a cell that holds a comma or a line feed
    is wrapped in double quotes, whatever the value. *)
Theorem cell_with_separator_quoted (v : value) :
  includes comma (cell v) || includes newline (cell v) = true ->
  quoted (cell v).
Proof.
  destruct v as [| |s|n|xs]; cbn [cell]; try discriminate.
  - destruct (includes comma (double_quotes s) || includes newline (double_quotes s))
      eqn:Hs; [by eexists|]. by rewrite Hs.
  - destruct (includes comma (double_quotes (Number_toString n))
              || includes newline (double_quotes (Number_toString n)))
      eqn:Hn; [by eexists|]. by rewrite Hn.
  - by eexists.
Qed.
End Export_further.

(** ** Properties of the store *)

Lemma RECORDS_KEY_not_SETTINGS_KEY : RECORDS_KEY <> SETTINGS_KEY.
Proof. intros Heq. vm_compute in Heq. discriminate. Qed.

Section Storage_properties.
Context `{Platform} `{Serializer}.
Variable room : gmap jsstring jsstring -> bool.

Local Ltac settle :=
  split_and!; intros; simplify_eq; cbn in *; simplify_eq; eauto; try congruence.

Lemma guarded_write_other (window : option Storage.t) (key value other : jsstring) :
  other <> key ->
  stored_item (guarded_write room window key value).1 other = stored_item window other.
Proof.
  intros Hother. unfold guarded_write, setItem.
  destruct window as [[refused items]|]; [|reflexivity]. cbn.
  destruct refused; [reflexivity|].
  destruct (room _); [|reflexivity]. cbn. by rewrite lookup_insert_ne.
Qed.

Lemma guarded_write_refused (window : option Storage.t) (key value : jsstring) :
  Storage.refused <$> (guarded_write room window key value).1
  = Storage.refused <$> window.
Proof.
  unfold guarded_write, setItem.
  destruct window as [[refused items]|]; [|reflexivity]. cbn.
  destruct refused; [reflexivity|]. by destruct (room _).
Qed.

Lemma guarded_write_written (window : option Storage.t) (key value : jsstring) :
  (guarded_write room window key value).2 = None ->
  window = None
  \/ exists items,
       window = Some {| Storage.refused := false; Storage.items := items |}
       /\ (guarded_write room window key value).1
          = Some {| Storage.refused := false; Storage.items := <[ key := value ]> items |}.
Proof.
  unfold guarded_write, setItem.
  destruct window as [[refused items]|]; cbn; [|by left].
  destruct refused; cbn; [discriminate|].
  destruct (room _); cbn; [|discriminate]. intros _. right. by exists items.
Qed.

Lemma guarded_write_failed (window : option Storage.t) (key value : jsstring)
    (failure : storage_failure) :
  (guarded_write room window key value).2 = Some failure ->
  (guarded_write room window key value).1 = window.
Proof.
  unfold guarded_write, setItem.
  destruct window as [[refused items]|]; cbn; [|discriminate].
  destruct refused; cbn; [done|]. destruct (room _); cbn; [discriminate|done].
Qed.

Lemma loadStoredRecords_array
    (window : option Storage.t) (text : jsstring) (parsed : list json) :
  stored_text window = Some text ->
  text <> [] ->
  JSON_parse text = Some (JArr parsed) ->
  loadStoredRecords window = Normal parsed.
Proof.
  unfold loadStoredRecords, stored_text, Storage.getItem, parse.
  destruct window as [[refused items]|]; [|discriminate]. simpl.
  destruct refused; [discriminate|]. simpl.
  intros -> Htext ->. by destruct text.
Qed.

Lemma persistRecords_stored
    (window : option Storage.t) (records : list ExtractionRecord.t) :
  (persistRecords room window records).2 = None ->
  is_Some window ->
  stored_text (persistRecords room window records).1 = Some (stringify_records records).
Proof.
  unfold persistRecords. intros Hok [ls Hls].
  destruct (guarded_write_written _ _ _ Hok) as [Hnone|(items & _ & Hres)];
    [congruence|].
  rewrite Hres. unfold stored_text. cbn. by rewrite lookup_insert_eq.
Qed.

(** X16. Writing the records never throws and touches nothing but the item
    of the records: when no failure is reported and there is a window, the
    item holds the text of the records; when a failure is reported (access
    refused, quota exceeded), the store is as it was. *)
Theorem persistRecords_effect
    (window : option Storage.t) (records : list ExtractionRecord.t) :
  (forall key,
     key <> RECORDS_KEY ->
     stored_item (persistRecords room window records).1 key = stored_item window key)
  /\ ((persistRecords room window records).2 = None ->
      is_Some window ->
      stored_text (persistRecords room window records).1
      = Some (stringify_records records))
  /\ (forall failure,
        (persistRecords room window records).2 = Some failure ->
        (persistRecords room window records).1 = window).
Proof.
  unfold persistRecords. split_and!.
  - intros key Hkey. by apply guarded_write_other.
  - apply persistRecords_stored.
  - intros failure. apply guarded_write_failed.
Qed.


(** X18. The two items of the store are independent: writing the records
    does not change what the settings load, and writing the settings does
    not change what the history loads. *)
Theorem writes_independent
    (window : option Storage.t) (records : list ExtractionRecord.t)
    (settings : StoredSettings.t) :
  loadSettings (persistRecords room window records).1 = loadSettings window
  /\ loadStoredRecords (persistSettings room window settings).1
     = loadStoredRecords window.
Proof.
  split.
  - pose proof (guarded_write_other window RECORDS_KEY (stringify_records records)
                  SETTINGS_KEY (not_eq_sym RECORDS_KEY_not_SETTINGS_KEY)) as Hitem.
    pose proof (guarded_write_refused window RECORDS_KEY (stringify_records records))
      as Hrefused.
    unfold persistRecords.
    destruct (guarded_write room window RECORDS_KEY (stringify_records records)).1
      as [[refused' items']|], window as [[refused items]|];
      cbn in Hitem, Hrefused; simplify_eq; try reflexivity.
    unfold loadSettings, Storage.getItem. cbn. by rewrite Hitem.
  - pose proof (guarded_write_other window SETTINGS_KEY (stringify_settings settings)
                  RECORDS_KEY RECORDS_KEY_not_SETTINGS_KEY) as Hitem.
    pose proof (guarded_write_refused window SETTINGS_KEY (stringify_settings settings))
      as Hrefused.
    unfold persistSettings.
    destruct (guarded_write room window SETTINGS_KEY (stringify_settings settings)).1
      as [[refused' items']|], window as [[refused items]|];
      cbn in Hitem, Hrefused; simplify_eq; try reflexivity.
    unfold loadStoredRecords, Storage.getItem. cbn. by rewrite Hitem.
Qed.

(** X19. Loading the settings never throws: without a window, with a
    refused store, without text, with text that is not JSON and with the
    JSON [null] it gives the empty object; any other parsed value is
    returned as it is, whether it is an object or not. *)
Theorem loadSettings_never_throws (window : option Storage.t) :
  (exists settings, loadSettings window = Normal settings)
  /\ (match window with
      | Some localStorage =>
          Storage.refused localStorage = true
          \/ Storage.items localStorage !! SETTINGS_KEY = None
          \/ Storage.items localStorage !! SETTINGS_KEY = Some []
      | None => True
      end ->
      loadSettings window = Normal (JObj ∅))
  /\ (forall localStorage text,
        window = Some localStorage ->
        Storage.refused localStorage = false ->
        Storage.items localStorage !! SETTINGS_KEY = Some text ->
        text <> [] ->
        loadSettings window
        = Normal match JSON_parse text with
                 | None | Some JNull => JObj ∅
                 | Some parsed => parsed
                 end).
Proof.
  unfold loadSettings, Storage.getItem, parse.
  destruct window as [[refused items]|]; simpl; [|by settle].
  destruct refused; simpl; [by settle|].
  destruct (items !! SETTINGS_KEY) as [[|c text]|] eqn:Hitem; simpl; [by settle| |by settle].
  destruct (JSON_parse (c :: text)) as [parsed|] eqn:Hparse; simpl.
  - settle.
    + match goal with Hc : _ \/ _ |- _ => destruct Hc as [?|[?|?]]; congruence end.
    + rewrite Hparse. by destruct parsed.
  - settle. by rewrite Hparse.
Qed.
End Storage_properties.

(** ** Properties of the text of a PDF *)

Section Pdf_properties.
Context `{Platform}.

Lemma read_pages_all (contents : list (list item)) (pageNumber : nat) (acc : jsstring) :
  read_pages pageNumber (Normal <$> contents) acc
  = Normal (acc ++ concat (imap (fun i items => page_text (pageNumber + i) items) contents)).
Proof.
  revert pageNumber acc. induction contents as [|items contents IH]; intros n acc.
  - cbn. by rewrite app_nil_r.
  - cbn [fmap list_fmap read_pages mbind completion_bind imap concat].
    rewrite IH, Nat.add_0_r, <- app_assoc. do 3 f_equal.
    f_equal. apply imap_ext. intros i x _. unfold compose. f_equal. lia.
Qed.

Lemma read_pages_failure
    (before : list (list item)) (e : exn) (after : list (completion (list item)))
    (pageNumber : nat) (acc : jsstring) :
  read_pages pageNumber ((Normal <$> before) ++ Throw e :: after) acc = Throw e.
Proof.
  revert pageNumber acc. induction before as [|items before IH]; intros n acc.
  - reflexivity.
  - cbn [fmap list_fmap app read_pages mbind completion_bind]. apply IH.
Qed.

(** X20. The text of a document whose pages are all read is the trimmed
    concatenation, in the order of the pages, of one block per page: two
    line feeds, the marker with the number of the page counted from 1, a
    line feed, and the strings of the page that are not empty, joined by
    single spaces. *)
Theorem extractTextFromPdf_pages (contents : list (list item)) :
  extractTextFromPdf (Normal (Normal <$> contents))
  = Normal (trim (concat (imap (fun i items => page_text (S i) items) contents))).
Proof.
  unfold extractTextFromPdf. cbn [mbind completion_bind].
  by rewrite read_pages_all.
Qed.

(** X21. A failure of pdf.js is the failure of the whole extraction: when
    the document cannot be loaded, or when a page cannot be read after pages
    that were read, the error is thrown and no text is returned. *)
Theorem extractTextFromPdf_failure
    (e : exn) (before : list (list item)) (after : list (completion (list item))) :
  extractTextFromPdf (Throw e) = Throw e
  /\ extractTextFromPdf (Normal ((Normal <$> before) ++ Throw e :: after)) = Throw e.
Proof.
  split; [reflexivity|].
  unfold extractTextFromPdf. cbn [mbind completion_bind].
  by rewrite read_pages_failure.
Qed.

Lemma extractTextFromPdf_trim (pdf : pdf_source) (text : jsstring) :
  extractTextFromPdf pdf = Normal text -> exists textContent, text = trim textContent.
Proof.
  unfold extractTextFromPdf. destruct pdf as [pages|e]; [|discriminate].
  unfold mbind, completion_bind.
  destruct (read_pages 1 pages []) as [textContent|e]; [|discriminate].
  intros Ht. simplify_eq. by eexists.
Qed.

(** X22. The text that is returned holds no stripped character at either
    end; it is empty for a document without pages, and otherwise starts with
    the marker of the first page. *)
Theorem extractTextFromPdf_text (pdf : pdf_source) (text : jsstring) :
  extractTextFromPdf pdf = Normal text ->
  is_trimmed text = true
  /\ (pdf = Normal [] -> text = [])
  /\ (forall page pages,
        pdf = Normal (page :: pages) ->
        exists rest,
          text = str "[Page " ++ Number_toString (num_of_Z 1) ++ str "]" ++ rest).
Proof.
  intros Htext. split_and!.
  - apply extractTextFromPdf_trim in Htext as [textContent ->]. apply trim_is_trimmed.
  - intros ->. cbn in Htext. by simplify_eq.
  - intros page pages ->. unfold extractTextFromPdf in Htext.
    unfold mbind, completion_bind in Htext. cbn [read_pages] in Htext.
    destruct page as [items|e]; [|discriminate].
    unfold mbind, completion_bind in Htext.
    destruct (read_pages 2 pages ([] ++ page_text 1 items)) as [textContent|e] eqn:Hread;
      [|discriminate].
    simplify_eq.
    assert (Hprefix : exists more, textContent = page_text 1 items ++ more).
    { clear -Hread. cbn [app] in Hread. revert Hread.
      generalize (page_text 1 items) as acc. generalize 2%nat as n.
      induction pages as [|p pages IH]; intros n acc Hread; cbn in Hread.
      - simplify_eq. exists []. by rewrite app_nil_r.
      - destruct p as [its|e]; [|discriminate]. cbn in Hread.
        apply IH in Hread as [more ->]. eexists. by rewrite <- app_assoc. }
    destruct Hprefix as [more ->].
    unfold page_text, trim.
    change ([newline; newline] ++ ?x) with (newline :: newline :: x).
    cbn [app trimStart].
    change (is_trimmed_char newline) with true. cbn match.
    change (str "[Page ") with (0x5B :: str "Page ").
    cbn [app trimStart]. change (is_trimmed_char 0x5B) with false. cbn match.
    change (str "]") with [0x5D].
    rewrite <- !app_assoc. cbn [app].
    change (Z.of_nat 1) with 1%Z.
    match goal with
    | |- context [0x5D :: ?tail] =>
        exists (trimEnd tail);
        replace (0x5B :: str "Page " ++ Number_toString (num_of_Z 1) ++ 0x5D :: tail)
          with ((0x5B :: str "Page " ++ Number_toString (num_of_Z 1)) ++ 0x5D :: tail)
          by (cbn [app]; by rewrite <- app_assoc)
    end.
    rewrite trimEnd_app_stop by reflexivity.
    cbn [app]. by rewrite <- app_assoc.
Qed.
End Pdf_properties.

(** ** Properties of the application shell *)

Lemma update_document_twice (id : jsstring) (f g : UploadDocument.t -> UploadDocument.t)
    (state : AppState.t) :
  (forall item, UploadDocument.id (g item) = UploadDocument.id item) ->
  update_document id f (update_document id g state)
  = update_document id (fun item => f (g item)) state.
Proof.
  intros Hid. unfold update_document, set_documents. cbn. f_equal.
  rewrite map_map. apply map_ext. intros item.
  destruct (decide (UploadDocument.id item = id)) as [Heq|Hne].
  - rewrite decide_True by (by rewrite Hid). reflexivity.
  - by rewrite decide_False.
Qed.

Lemma update_document_ext (id : jsstring) (f g : UploadDocument.t -> UploadDocument.t)
    (state : AppState.t) :
  (forall item, f item = g item) ->
  update_document id f state = update_document id g state.
Proof.
  intros Hfg. unfold update_document. f_equal. apply map_ext. intros item.
  by rewrite Hfg.
Qed.

Section App_shell_properties.
Context `{Platform} `{Serializer}.
Variable Date_now : nat -> number.
Variable world : UploadDocument.t -> Job.t.
Variable run_start run_end : number.
Variable room : gmap jsstring jsstring -> bool.

Lemma addAlert_run (type : Alert.kind) (message : Alert.text) (state : AppState.t)
    (k : nat) :
  addAlert type message state k
  = (Normal (set_alerts
               (AppState.alerts state
                ++ [{| Alert.id := randomUUID_at k; Alert.type := type;
                       Alert.message := message |}])
               state),
     S k).
Proof. reflexivity. Qed.

(** A turn of the loop in terms of the pipeline: the intermediate states
    leave no trace. *)
Lemma process_document_pipeline
    (settings : StoredSettings.t) (state : AppState.t) (document : UploadDocument.t)
    (k : nat) :
  process_document world settings state document k
  = match pipeline world document settings k with
    | (Throw e, k') => on_failure document e state k'
    | (Normal record, k') =>
        (Normal (update_document (UploadDocument.id document) (completed record)
                   (set_records (record :: AppState.records state) state)),
         k')
    end.
Proof.
  unfold process_document, pipeline, mbind, M_bind, lift.
  assert (Hfail1 : forall e k',
            on_failure document e
              (update_document (UploadDocument.id document)
                 (with_status Phase.parsing progress_parsing) state) k'
            = on_failure document e state k').
  { intros e k'. unfold on_failure. rewrite !addAlert_run.
    rewrite update_document_twice by reflexivity. reflexivity. }
  assert (Hfail2 : forall e k',
            on_failure document e
              (update_document (UploadDocument.id document)
                 (with_status Phase.extracting progress_extracting)
                 (update_document (UploadDocument.id document)
                    (with_status Phase.parsing progress_parsing) state)) k'
            = on_failure document e state k').
  { intros e k'. unfold on_failure. rewrite !addAlert_run.
    rewrite !update_document_twice by reflexivity. reflexivity. }
  destruct (extractTextFromPdf _) as [rawText|e]; [|apply Hfail1].
  destruct (extractEntities_call _ _ _ _ k) as [[entities|e] k']; [|apply Hfail2].
  destruct (buildExtractionRecord _ k') as [[record|e] k'']; [|apply Hfail2].
  f_equal. f_equal.
  match goal with
  | |- update_document ?id ?f
         (set_records ?l (update_document ?id ?g (update_document ?id ?h ?s))) = _ =>
      change (update_document id f
                (update_document id g (update_document id h (set_records l s))) = 
              update_document id f (set_records l s))
  end.
  rewrite !update_document_twice by reflexivity. reflexivity.
Qed.

Lemma process_document_cases
    (settings : StoredSettings.t) (state : AppState.t) (document : UploadDocument.t)
    (k : nat) :
  exists state' k',
    process_document world settings state document k = (Normal state', k')
    /\ ((exists e,
           state' = set_alerts
                      (AppState.alerts state
                       ++ [{| Alert.id := randomUUID_at (Nat.pred k');
                              Alert.type := Alert.error;
                              Alert.message := Alert.Failure e |}])
                      (update_document (UploadDocument.id document) (failed e) state))
        \/ (exists record,
              state' = update_document (UploadDocument.id document) (completed record)
                         (set_records (record :: AppState.records state) state))).
Proof.
  rewrite process_document_pipeline.
  destruct (pipeline world document settings k) as [[record|e] k'].
  - do 2 eexists. split; [reflexivity|]. right. by eexists.
  - unfold on_failure. rewrite addAlert_run. do 2 eexists. split; [reflexivity|].
    left. by eexists.
Qed.

(** X23. A turn of the loop never throws, and its intermediate states
    leave no trace: when the pipeline of the document (text, entities,
    record) returns a record, the record is put at the front of the history
    and every document with the identifier is complete with it; when the
    pipeline throws, every document with the identifier is put in error
    with the error, one error alert is added after the alerts, and the
    history is as it was. *)
Theorem process_document_outcome
    (settings : StoredSettings.t) (state : AppState.t) (document : UploadDocument.t)
    (k : nat) :
  (forall record k',
     pipeline world document settings k = (Normal record, k') ->
     process_document world settings state document k
     = (Normal (update_document (UploadDocument.id document) (completed record)
                  (set_records (record :: AppState.records state) state)),
        k'))
  /\ (forall e k',
        pipeline world document settings k = (Throw e, k') ->
        process_document world settings state document k
        = (Normal (set_alerts
                     (AppState.alerts state
                      ++ [{| Alert.id := randomUUID_at k'; Alert.type := Alert.error;
                             Alert.message := Alert.Failure e |}])
                     (update_document (UploadDocument.id document) (failed e) state)),
           S k')).
Proof.
  split; intros result k' Hpipeline;
    rewrite process_document_pipeline, Hpipeline; reflexivity.
Qed.

Lemma update_document_run_on (id : jsstring) (f : UploadDocument.t -> UploadDocument.t)
    (documents : list UploadDocument.t) :
  (forall item, UploadDocument.id (f item) = UploadDocument.id item) ->
  (forall item, processed (f item)) ->
  Forall2 (run_on [id]) documents
    (List.map (fun item => if decide (UploadDocument.id item = id) then f item else item)
       documents).
Proof.
  intros Hid Hf. induction documents as [|item documents IH]; [constructor|].
  cbn [List.map]. constructor; [|exact IH].
  unfold run_on. rewrite list_elem_of_singleton.
  destruct (decide (UploadDocument.id item = id)) as [Heq|Hne]; split_and!;
    auto; done.
Qed.

Lemma run_on_trans (ids ids' : list jsstring) (a b c : UploadDocument.t) :
  run_on ids a b -> run_on ids' b c -> run_on (ids ++ ids') a c.
Proof.
  intros (Hid & Hin & Hout) (Hid' & Hin' & Hout').
  unfold run_on. rewrite elem_of_app. split_and!.
  - congruence.
  - intros Hmem.
    destruct (decide (UploadDocument.id a ∈ ids')) as [Hi'|Hni'].
    + apply Hin'. congruence.
    + rewrite Hout' by congruence.
      destruct Hmem as [Hi|Hi]; [by apply Hin|done].
  - intros Hmem. rewrite Hout' by (rewrite Hid; tauto). apply Hout. tauto.
Qed.

Lemma Forall2_run_on_trans (ids ids' : list jsstring)
    (a b c : list UploadDocument.t) :
  Forall2 (run_on ids) a b -> Forall2 (run_on ids') b c ->
  Forall2 (run_on (ids ++ ids')) a c.
Proof.
  intros Hab. revert c. induction Hab as [|x y a b Hxy _ IH]; intros c Hbc.
  - inversion Hbc. constructor.
  - inversion Hbc as [|y' z b' c' Hyz Hrest]; subst.
    constructor; [by eapply run_on_trans|by apply IH].
Qed.

Lemma Forall2_run_on_nil (documents : list UploadDocument.t) :
  Forall2 (run_on []) documents documents.
Proof.
  apply Forall2_same_length_lookup_2; [done|]. intros i x y Hx Hy. simplify_eq.
  unfold run_on. split_and!; try done. intros Hin. by apply elem_of_nil in Hin.
Qed.

(** What a turn of the loop keeps and changes. *)
Lemma process_document_step
    (settings : StoredSettings.t) (state : AppState.t) (document : UploadDocument.t)
    (k : nat) :
  exists state' k',
    process_document world settings state document k = (Normal state', k')
    /\ Forall2 (run_on [UploadDocument.id document])
         (AppState.documents state) (AppState.documents state')
    /\ (exists new added,
          AppState.records state' = new ++ AppState.records state
          /\ AppState.alerts state' = AppState.alerts state ++ added
          /\ (length new + length added = 1)%nat
          /\ Forall (fun alert => is_error_alert alert = true) added)
    /\ AppState.settings state' = AppState.settings state
    /\ AppState.isProcessing state' = AppState.isProcessing state.
Proof.
  destruct (process_document_cases settings state document k)
    as (state' & k' & Hrun & [[e ->]|[record ->]]);
    eexists; exists k'; (split; [exact Hrun|]).
  - split_and!; try reflexivity.
    + apply update_document_run_on; [done|]. intros item. unfold processed. cbn. tauto.
    + exists [], [{| Alert.id := randomUUID_at (Nat.pred k'); Alert.type := Alert.error;
                     Alert.message := Alert.Failure e |}].
      split_and!; try done. by repeat constructor.
  - split_and!; try reflexivity.
    + apply update_document_run_on; [done|]. intros item. unfold processed. cbn. tauto.
    + exists [record], []. split_and!; try done. cbn. by rewrite app_nil_r.
Qed.

Lemma process_all_steps
    (settings : StoredSettings.t) (pending : list UploadDocument.t) (state : AppState.t)
    (k : nat) :
  exists state' k',
    process_all world settings pending state k = (Normal state', k')
    /\ Forall2 (run_on (UploadDocument.id <$> pending))
         (AppState.documents state) (AppState.documents state')
    /\ (exists new added,
          AppState.records state' = new ++ AppState.records state
          /\ AppState.alerts state' = AppState.alerts state ++ added
          /\ (length new + length added = length pending)%nat
          /\ Forall (fun alert => is_error_alert alert = true) added)
    /\ AppState.settings state' = AppState.settings state
    /\ AppState.isProcessing state' = AppState.isProcessing state.
Proof.
  revert state k. induction pending as [|document pending IH]; intros state k.
  - exists state, k. split_and!; try done.
    + apply Forall2_run_on_nil.
    + exists [], []. split_and!; try done. by rewrite app_nil_r.
  - cbn [process_all]. unfold mbind, M_bind.
    destruct (process_document_step settings state document k)
      as (state1 & k1 & -> & Hdocs1 & (new1 & added1 & Hrec1 & Hal1 & Hlen1 & Herr1)
          & Hset1 & Hproc1).
    destruct (IH state1 k1)
      as (state' & k' & -> & Hdocs & (new & added & Hrec & Hal & Hlen & Herr)
          & Hset & Hproc).
    exists state', k'. split_and!; try congruence.
    + change (UploadDocument.id <$> document :: pending)
        with ([UploadDocument.id document] ++ (UploadDocument.id <$> pending)).
      by eapply Forall2_run_on_trans.
    + exists (new ++ new1), (added1 ++ added). split_and!.
      * rewrite Hrec, Hrec1. by rewrite app_assoc.
      * rewrite Hal, Hal1. by rewrite app_assoc.
      * rewrite !length_app. cbn. lia.
      * by apply Forall_app.
Qed.

(** X24. A run of the processing never throws, whatever fails in it.
    Without an API key it only adds an error alert, and with a key but
    without a document that is ready or in error it only adds an info
    alert. Otherwise every document whose identifier is that
    of a pending document ends complete or in error with the progress 1, and
    every other document is as it was, in the same order; each pending
    document has put either a record in front of the history or an error
    alert after the alerts; at the end the run is over and one more alert
    tells its duration. *)
Theorem processDocuments_outcome (state : AppState.t) (k : nat) :
  let pending := List.filter is_pending (AppState.documents state) in
  exists state' k',
    processDocuments world run_start run_end state k = (Normal state', k')
    /\ AppState.settings state' = AppState.settings state
    /\ (truthy_option (StoredSettings.apiKey (AppState.settings state)) = false ->
        state' = set_alerts
                   (AppState.alerts state
                    ++ [{| Alert.id := randomUUID_at k; Alert.type := Alert.error;
                           Alert.message := Alert.NoApiKey |}])
                   state
        /\ k' = S k)
    /\ (truthy_option (StoredSettings.apiKey (AppState.settings state)) = true ->
        pending = [] ->
        state' = set_alerts
                   (AppState.alerts state
                    ++ [{| Alert.id := randomUUID_at k; Alert.type := Alert.info;
                           Alert.message := Alert.NothingPending |}])
                   state
        /\ k' = S k)
    /\ (truthy_option (StoredSettings.apiKey (AppState.settings state)) = true ->
        pending <> [] ->
        Forall2 (run_on (UploadDocument.id <$> pending))
          (AppState.documents state) (AppState.documents state')
        /\ AppState.isProcessing state' = false
        /\ exists new added,
             AppState.records state' = new ++ AppState.records state
             /\ AppState.alerts state'
                = AppState.alerts state ++ added
                  ++ [{| Alert.id := randomUUID_at (Nat.pred k');
                         Alert.type := Alert.info;
                         Alert.message := Alert.Finished (num_sub run_end run_start) |}]
             /\ (length new + length added = length pending)%nat
             /\ Forall (fun alert => is_error_alert alert = true) added).
Proof.
  intros pending. unfold processDocuments. fold pending.
  destruct (truthy_option (StoredSettings.apiKey (AppState.settings state))) eqn:Hkey;
    cbn [negb].
  2: { rewrite addAlert_run. do 2 eexists. split_and!; done. }
  destruct pending as [|document rest] eqn:Hpending.
  { rewrite addAlert_run. do 2 eexists. split_and!; done. }
  unfold mbind, M_bind.
  destruct (process_all_steps (AppState.settings state) (document :: rest)
              (set_isProcessing true state) k)
    as (state1 & k1 & -> & Hdocs & (new & added & Hrec & Hal & Hlen & Herr) & Hset & _).
  rewrite addAlert_run. do 2 eexists. split; [reflexivity|].
  split_and!; try done.
  intros _ _. split_and!; try done.
  exists new, added. cbn. rewrite Hal. split_and!; try done.
  by rewrite <- app_assoc.
Qed.
End App_shell_properties.

Section App_shell_further.
Context `{Platform} `{Serializer}.
Variable Date_now : nat -> number.
Variable world : UploadDocument.t -> Job.t.
Variable room : gmap jsstring jsstring -> bool.

(** X25. The pipeline composes the three stages: when the text of the file
    is read, the response to the request made of this text, of the key and
    of the model of the settings (or the default model) is accepted, its
    content conforms to the schema and the clock reading is a valid time,
    the pipeline returns a record for the file of the document with the
    normalized entities of the content, their count, and the first 600 code
    units of the text; it draws one identifier per entity and then the one
    of the record. *)
Theorem pipeline_success
    (document : UploadDocument.t) (settings : StoredSettings.t) (rawText : jsstring)
    (response : Response.t) (envelope content : json) (k : nat) :
  extractTextFromPdf (File.content (UploadDocument.file document)) = Normal rawText ->
  Job.fetch (world document)
    {| Request.model :=
         default (str "deepseek/deepseek-chat") (StoredSettings.preferredModel settings);
       Request.text := rawText;
       Request.apiKey := StoredSettings.apiKey settings |}
  = Normal response ->
  Response.ok response = true ->
  Response.json response = Some envelope ->
  content_of (contentRaw_of envelope) = Normal content ->
  conforms content ->
  time_valid (Job.finishedAt (world document)) = true ->
  let n := length (raw_entities content) in
  exists record,
    pipeline world document settings k = (Normal record, S (k + n))
    /\ ExtractionRecord.id record = randomUUID_at (k + n)
    /\ ExtractionRecord.fileName record = UploadDocument.fileName document
    /\ ExtractionRecord.fileSize record = UploadDocument.size document
    /\ ExtractionRecord.entities record
       = imap (fun i raw => spec_entity (randomUUID_at (k + i)) (properties_of raw))
           (raw_entities content)
    /\ ExtractionSummary.organismCount (ExtractionRecord.summary record) = n
    /\ ExtractionRecord.rawTextPreview record = firstn 600 rawText.
Proof.
  intros Htext Hfetch Hok Hjson Hcontent Hconforms Htime n.
  unfold pipeline, extractEntities_call, mbind, M_bind, lift.
  rewrite Htext, Hfetch, (extract_accepted _ _ _ Hok Hjson), Hcontent.
  rewrite (normalize_conforming _ _ Hconforms). fold n.
  unfold buildExtractionRecord, toISOString, mbind, M_bind, randomUUID, lift.
  cbn [Params.finishedAt]. rewrite Htime.
  eexists. split; [reflexivity|]. cbn.
  split_and!; try reflexivity.
  - by rewrite length_imap.
  - apply (slice_prefix 600).
Qed.

Lemma take_file_accepted (index : nat) (file : File.t) (next : list UploadDocument.t)
    (state : AppState.t) (k : nat) :
  accepted file = true ->
  take_file Date_now index file (next, state) k
  = (Normal (next ++ [{| UploadDocument.id := randomUUID_at k;
                         UploadDocument.file := file;
                         UploadDocument.fileName := File.name file;
                         UploadDocument.size := File.size file;
                         UploadDocument.addedAt := Date_now index;
                         UploadDocument.status := Phase.ready;
                         UploadDocument.progress := num_zero;
                         UploadDocument.error := None;
                         UploadDocument.record := None |}],
             state),
     S k).
Proof.
  unfold accepted, take_file. intros [Htype Hsize]%andb_true_iff.
  rewrite Htype. apply negb_true_iff in Hsize. rewrite Hsize. reflexivity.
Qed.

Lemma take_file_rejected (index : nat) (file : File.t) (next : list UploadDocument.t)
    (state : AppState.t) (k : nat) :
  accepted file = false ->
  exists message,
    take_file Date_now index file (next, state) k
    = (Normal (next,
               set_alerts
                 (AppState.alerts state
                  ++ [{| Alert.id := randomUUID_at k; Alert.type := Alert.error;
                         Alert.message := message |}])
                 state),
       S k).
Proof.
  unfold accepted, take_file. intros Hrej.
  destruct (bool_decide (File.type file = str "application/pdf")); cbn [negb].
  - cbn in Hrej. apply negb_false_iff in Hrej. rewrite Hrej. by eexists.
  - by eexists.
Qed.

Lemma set_alerts_more (state : AppState.t) (added more : list Alert.t) :
  set_alerts
    (AppState.alerts (set_alerts (AppState.alerts state ++ added) state) ++ more)
    (set_alerts (AppState.alerts state ++ added) state)
  = set_alerts (AppState.alerts state ++ added ++ more) state.
Proof. unfold set_alerts. cbn. by rewrite app_assoc. Qed.

Lemma set_alerts_none (state : AppState.t) :
  set_alerts (AppState.alerts state ++ []) state = state.
Proof. destruct state. unfold set_alerts. cbn. by rewrite app_nil_r. Qed.

Lemma take_files_run (files : list File.t) :
  forall (index : nat) (next : list UploadDocument.t) (state : AppState.t) (k : nat),
  exists new added,
    take_files Date_now index files (next, state) k
    = (Normal (next ++ new, set_alerts (AppState.alerts state ++ added) state),
       (k + length files)%nat)
    /\ UploadDocument.file <$> new = List.filter accepted files
    /\ Forall fresh_document new
    /\ sublist (UploadDocument.id <$> new) (randomUUID_at <$> seq k (length files))
    /\ Forall (fun alert => is_error_alert alert = true) added
    /\ length added = length (List.filter (fun file => negb (accepted file)) files).
Proof.
  induction files as [|file files IH]; intros index next state k.
  - exists [], []. cbn. rewrite app_nil_r, set_alerts_none, Nat.add_0_r.
    split_and!; try done.
  - cbn [take_files]. unfold mbind, M_bind.
    destruct (accepted file) eqn:Hacc.
    + rewrite (take_file_accepted _ _ _ _ _ Hacc).
      destruct (IH (S index) (next ++ [{| UploadDocument.id := randomUUID_at k;
                         UploadDocument.file := file;
                         UploadDocument.fileName := File.name file;
                         UploadDocument.size := File.size file;
                         UploadDocument.addedAt := Date_now index;
                         UploadDocument.status := Phase.ready;
                         UploadDocument.progress := num_zero;
                         UploadDocument.error := None;
                         UploadDocument.record := None |}]) state (S k))
        as (new & added & -> & Hfiles & Hfresh & Hids & Herr & Hlen).
      eexists (_ :: new), added. split_and!.
      * rewrite <- app_assoc. cbn. do 2 f_equal. lia.
      * cbn. rewrite Hacc. by rewrite <- Hfiles.
      * constructor; [by repeat split|done].
      * cbn. by apply sublist_skip.
      * done.
      * cbn. by rewrite Hacc.
    + destruct (take_file_rejected index file next state k Hacc) as [message ->].
      destruct (IH (S index) next
                  (set_alerts
                     (AppState.alerts state
                      ++ [{| Alert.id := randomUUID_at k; Alert.type := Alert.error;
                             Alert.message := message |}])
                     state) (S k))
        as (new & added & -> & Hfiles & Hfresh & Hids & Herr & Hlen).
      exists new, ({| Alert.id := randomUUID_at k; Alert.type := Alert.error;
                      Alert.message := message |} :: added).
      split_and!.
      * rewrite set_alerts_more. cbn. do 2 f_equal. lia.
      * cbn. by rewrite Hacc.
      * done.
      * cbn. by apply sublist_cons.
      * by constructor.
      * cbn. rewrite Hacc. cbn. by rewrite Hlen.
Qed.

(** X26. Taking files never throws. The files that are PDF files of at
    most 20 MiB are added after the documents, in their order, as documents
    that are ready, with the progress 0 and the name and size of their file,
    under identifiers drawn in this order; every other file gives one error
    alert; a success alert with the count of added documents follows when
    there is one. Records, settings and the processing flag are untouched,
    and each file draws exactly one identifier. *)
Theorem handleFileInput_outcome
    (files : option (list File.t)) (state : AppState.t) (k : nat) :
  let given := default [] files in
  exists state' new added,
    handleFileInput Date_now files state k
    = (Normal state',
       (k + length given + match new with [] => 0 | _ :: _ => 1 end)%nat)
    /\ AppState.documents state' = AppState.documents state ++ new
    /\ UploadDocument.file <$> new = List.filter accepted given
    /\ Forall fresh_document new
    /\ sublist (UploadDocument.id <$> new) (randomUUID_at <$> seq k (length given))
    /\ AppState.alerts state'
       = AppState.alerts state ++ added
         ++ match new with
            | [] => []
            | _ :: _ => [{| Alert.id := randomUUID_at (k + length given);
                            Alert.type := Alert.success;
                            Alert.message := Alert.Added (length new) |}]
            end
    /\ Forall (fun alert => is_error_alert alert = true) added
    /\ length added = length (List.filter (fun file => negb (accepted file)) given)
    /\ AppState.records state' = AppState.records state
    /\ AppState.settings state' = AppState.settings state
    /\ AppState.isProcessing state' = AppState.isProcessing state.
Proof.
  intros given.
  assert (Hnone : given = [] -> handleFileInput Date_now files state k = (Normal state, k)).
  { unfold given. destruct files as [[|file files]|]; done. }
  destruct given as [|file given'] eqn:Hgiven.
  { exists state, [], []. rewrite Hnone by done. cbn.
    rewrite !Nat.add_0_r, !app_nil_r. split_and!; done. }
  assert (Hsome : files = Some (file :: given')).
  { unfold given in Hgiven. destruct files; cbn in Hgiven; congruence. }
  rewrite Hsome. unfold handleFileInput, mbind, M_bind.
  destruct (take_files_run (file :: given') 0 [] state k)
    as (new & added & -> & Hfiles & Hfresh & Hids & Herr & Hlen).
  cbn [app]. destruct new as [|doc new].
  - exists (set_alerts (AppState.alerts state ++ added) state), [], added.
    split_and!; try done.
    + unfold mret, M_ret. by rewrite Nat.add_0_r.
    + cbn. by rewrite app_nil_r.
    + cbn. by rewrite app_nil_r.
  - rewrite addAlert_run. eexists. exists (doc :: new), added.
    split; [rewrite Nat.add_1_r; reflexivity|]. split_and!; try done.
    cbn. by rewrite <- app_assoc.
Qed.

(** X27. Clearing the history never throws: the records in memory are
    emptied and one info alert is added, whatever the write does. When the
    write fails, the store is as it was, so that loading it still returns
    the history of before; when no failure is reported and there is a
    window, the item of the records holds the text of the empty array. *)
Theorem clearRecords_outcome
    (window : option Storage.t) (state : AppState.t) (k : nat) :
  exists state' window' failure,
    clearRecords room window state k = (Normal (state', window', failure), S k)
    /\ AppState.records state' = []
    /\ AppState.documents state' = AppState.documents state
    /\ AppState.alerts state'
       = AppState.alerts state
         ++ [{| Alert.id := randomUUID_at k; Alert.type := Alert.info;
                Alert.message := Alert.Cleared |}]
    /\ (is_Some failure ->
        window' = window /\ loadStoredRecords window' = loadStoredRecords window)
    /\ (failure = None -> is_Some window ->
        stored_text window' = Some (stringify_records [])).
Proof.
  unfold clearRecords, mbind, M_bind. rewrite addAlert_run.
  do 3 eexists. split; [reflexivity|].
  split_and!; try done.
  - intros [failure Hf]. cbn in Hf.
    apply guarded_write_failed in Hf. cbn. unfold persistRecords. by rewrite Hf.
  - cbn. apply persistRecords_stored.
Qed.
End App_shell_further.


(** X29. The stack shows the last three alerts, and all of them when there
    are at most three; an alert that has just been added is always the last
    one shown. *)
Theorem shown_alerts_last (alerts : list Alert.t) :
  shown_alerts alerts = skipn (length alerts - 3) alerts
  /\ (length (shown_alerts alerts) <= 3)%nat
  /\ ((length alerts <= 3)%nat -> shown_alerts alerts = alerts)
  /\ (forall alert, last (shown_alerts (alerts ++ [alert])) = Some alert).
Proof.
  assert (Hshown : forall l : list Alert.t, shown_alerts l = skipn (length l - 3) l).
  { intros l. unfold shown_alerts, slice, slice_index.
    change (-3 <? 0)%Z with true. cbn match.
    destruct (Z.ltb_spec (Z.of_nat (length l)) 0) as [Hlt|_]; [lia|].
    rewrite Z.min_id.
    replace (Z.to_nat (Z.max (Z.of_nat (length l) + -3) 0)) with (length l - 3)%nat by lia.
    apply firstn_all2. rewrite length_skipn. lia. }
  split_and!.
  - apply Hshown.
  - rewrite Hshown, length_skipn. lia.
  - intros Hle. rewrite Hshown. by replace (length alerts - 3)%nat with O by lia.
  - intros alert. rewrite Hshown, length_app. cbn [length].
    change (@skipn) with (@drop).
    rewrite drop_app_le by lia. apply last_snoc.
Qed.

Lemma filter_all {A : Type} (f : A -> bool) (l : list A) :
  Forall (fun x => f x = true) l -> List.filter f l = l.
Proof.
  induction 1 as [|x l Hx _ IH]; [done|]. cbn. by rewrite Hx, IH.
Qed.

(** X30. Dismissing the alert that was just added gives back the state of
    before, when no older alert carries the identifier that was drawn. *)
Theorem dismiss_added_alert `{Platform}
    (type : Alert.kind) (message : Alert.text) (state : AppState.t) (k : nat) :
  Forall (fun alert => Alert.id alert <> randomUUID_at k) (AppState.alerts state) ->
  exists state',
    addAlert type message state k = (Normal state', S k)
    /\ dismissAlert (randomUUID_at k) state' = state.
Proof.
  intros Hfresh. rewrite addAlert_run. eexists. split; [reflexivity|].
  unfold dismissAlert, set_alerts. destruct state as [documents records settings alerts flag].
  cbn in *. f_equal. rewrite List.filter_app. cbn.
  rewrite bool_decide_true by done. cbn. rewrite app_nil_r.
  apply filter_all. eapply Forall_impl; [exact Hfresh|].
  intros alert Hne. cbn in Hne. by rewrite bool_decide_false.
Qed.

(** * Examples *)

Local Close Scope N_scope.

(** The example response is normalized with the identifiers 3 and 4: the
    identifier of the model is dropped, the genus is trimmed, the single
    resistance becomes a list, the empty resistance is removed, and the
    taxonomy_id 0 becomes null. *)
Example normalize_example :
  @normalize example_platform example_content 3
  = (Normal
       [ {| MicrobialEntity.id := str "uuid-3";
            MicrobialEntity.genus := Val (str "Salmonella");
            MicrobialEntity.species := Val (str "enterica");
            MicrobialEntity.subspecies := Null;
            MicrobialEntity.serovar := Val (str "Typhimurium");
            MicrobialEntity.strain := Null;
            MicrobialEntity.mlst_st := Null;
            MicrobialEntity.taxonomy_id := Val (str "90371");
            MicrobialEntity.source := Null;
            MicrobialEntity.resistance := Some [str "ampicillin"];
            MicrobialEntity.pathogenicity := Null;
            MicrobialEntity.context := Val (str "S. enterica was isolated");
            MicrobialEntity.confidence := Val (num_div (num_of_Z 9) (num_of_Z 10)) |};
         {| MicrobialEntity.id := str "uuid-4";
            MicrobialEntity.genus := Val (str "Escherichia");
            MicrobialEntity.species := Val (str "coli");
            MicrobialEntity.subspecies := Null;
            MicrobialEntity.serovar := Null;
            MicrobialEntity.strain := Null;
            MicrobialEntity.mlst_st := Null;
            MicrobialEntity.taxonomy_id := Null;
            MicrobialEntity.source := Null;
            MicrobialEntity.resistance := Some [str "ampicillin"; str "tetracycline"];
            MicrobialEntity.pathogenicity := Null;
            MicrobialEntity.context := Null;
            MicrobialEntity.confidence := Null |} ],
     5%nat).
Proof. vm_compute. reflexivity. Qed.

(** A taxonomy_id that is the string of the digit 0 is truthy, and kept. *)
Example taxonomy_id_string_zero :
  @spec_taxonomy_id example_platform (Some (JStr (str "0"))) = Val (str "0").
Proof. reflexivity. Qed.

(** The pattern of the exports strips a backslash, one more character and
    [pdf]; it does not strip the extension of a PDF file. *)
Example pattern_strips_backslash :
  replace_first pdf_pattern [] (str "scan" ++ [0x5C%N] ++ str "xPDF") = str "scan".
Proof. vm_compute. reflexivity. Qed.

Example pattern_keeps_extension :
  replace_first pdf_pattern [] (str "report.pdf") = str "report.pdf".
Proof. vm_compute. reflexivity. Qed.

(** The cells of the examples of the specification. *)
Example csv_resistance_cell :
  @cell example_platform (property isolate (str "resistance"))
  = [dquote] ++ str "ampicillin; tetracycline" ++ [dquote].
Proof. vm_compute. reflexivity. Qed.

Example csv_null_source_cell :
  @cell example_platform (property unnamed (str "source")) = [].
Proof. vm_compute. reflexivity. Qed.

Example csv_comma_source_cell :
  @cell example_platform (property isolate (str "source"))
  = [dquote] ++ str "poultry, retail" ++ [dquote].
Proof. vm_compute. reflexivity. Qed.

Example csv_row :
  @row example_platform isolate
  = str "Escherichia,coli,,,K-12,,83333," ++ [dquote] ++ str "poultry, retail"
    ++ [dquote; comma; dquote] ++ str "ampicillin; tetracycline" ++ [dquote]
    ++ str ",,,1".
Proof. vm_compute. reflexivity. Qed.

(** The errors of the extraction: a content that is not JSON, and a content
    that is JSON but not an object. *)
Example extract_not_json :
  @extractEntitiesFromText example_platform
    (Normal (answer (envelope_of (JStr (str "no entities found"))))) 0
  = (Throw (Error NotJson), 0).
Proof. vm_compute. reflexivity. Qed.

Example extract_unrecognised :
  @extractEntitiesFromText example_platform
    (Normal (answer (envelope_of (JStr (str "7"))))) 0
  = (Throw (Error Unrecognised), 0).
Proof. vm_compute. reflexivity. Qed.

Example extract_content_null :
  @extractEntitiesFromText example_platform (Normal (answer (envelope_of JNull))) 0
  = (Normal [], 0).
Proof. vm_compute. reflexivity. Qed.

Example extract_no_choices :
  @extractEntitiesFromText example_platform (Normal (answer (JObj ∅))) 0
  = (Normal [], 0).
Proof. vm_compute. reflexivity. Qed.

(** The history: a stored array is returned, anything else is no history. *)
Example load_empty_array :
  @loadStoredRecords example_platform (store_holding (str "[]")) = Normal [].
Proof. vm_compute. reflexivity. Qed.

Example load_refused :
  @loadStoredRecords example_platform
    (Some {| Storage.refused := true; Storage.items := ∅ |})
  = Normal [].
Proof. vm_compute. reflexivity. Qed.

(** The columns of the table are the resistance and the scalar columns. *)
Example headers_columns :
  headers = firstn 8 scalar_headers ++ [str "resistance"] ++ skipn 8 scalar_headers.
Proof. vm_compute. reflexivity. Qed.

(** The label of the example of the specification. *)
Example salmonella_label :
  finding_label salmonella = str "Salmonella enterica".
Proof. vm_compute. reflexivity. Qed.

(** * Instances and counterexamples *)

Lemma confidence_out_of_range_rejected_witness :
  @normalize example_platform overconfident_content 0
  = (Throw (Error Unrecognised), 0%nat).
Proof.
  apply (@confidence_out_of_range_rejected example_platform overconfident_content
           overconfident_properties (num_div (num_of_Z 3) (num_of_Z 2)) 0%nat).
  - apply list_elem_of_lookup. exists 1%nat. vm_compute. reflexivity.
  - vm_compute. reflexivity.
  - vm_compute. reflexivity.
  - vm_compute. intros Hle. apply Hle. reflexivity.
Defined.

Lemma normalize_conforming_response_witness :
  exists out,
    @normalize example_platform example_content 3
    = (Normal out, (3 + length (raw_entities example_content))%nat)
    /\ length out = length (raw_entities example_content)
    /\ forall i raw,
         raw_entities example_content !! i = Some raw ->
         is_object raw
         /\ out !! i
            = Some (@spec_entity example_platform
                      (@randomUUID_at example_platform (3 + i)) (properties_of raw)).
Proof.
  apply (@normalize_conforming_response example_platform example_content 3%nat).
  vm_compute. reflexivity.
Defined.

Lemma falsy_taxonomy_id_is_null_witness :
  exists out entity,
    @normalize example_platform example_content 3
    = (Normal out, (3 + length (raw_entities example_content))%nat)
    /\ out !! 1%nat = Some entity
    /\ MicrobialEntity.taxonomy_id entity = Null
    /\ MicrobialEntity.taxonomy_id entity <> Val (str "0")
    /\ MicrobialEntity.taxonomy_id entity <> Val [].
Proof.
  apply (@falsy_taxonomy_id_is_null example_platform example_content 3%nat 1%nat
           ecoli_properties).
  - vm_compute. reflexivity.
  - vm_compute. reflexivity.
  - vm_compute. exact I.
Defined.

Lemma extract_errors_only_from_text_witness :
  @extractEntitiesFromText example_platform
    (Normal (answer (envelope_of (JStr (str "  "))))) 0
  = (Normal [], 0%nat).
Proof.
  apply (proj1 (@extract_errors_only_from_text example_platform
                  (answer (envelope_of (JStr (str "  "))))
                  (envelope_of (JStr (str "  "))) 0%nat eq_refl eq_refl)).
  vm_compute. reflexivity.
Defined.

Lemma summary_counts_witness :
  exists r,
    @buildExtractionRecord example_platform
      (example_params [salmonella; unnamed; isolate] (str "Salmonella enterica")) 0
    = (Normal r, 1%nat)
    /\ ExtractionSummary.organismCount (ExtractionRecord.summary r) = 3%nat
    /\ (ExtractionSummary.uniqueSpecies (ExtractionRecord.summary r)
        <= ExtractionSummary.organismCount (ExtractionRecord.summary r))%nat
    /\ ExtractionSummary.resistanceCount (ExtractionRecord.summary r) = 3%nat.
Proof.
  apply (@summary_counts example_platform
           (example_params [salmonella; unnamed; isolate] (str "Salmonella enterica"))
           0%nat).
  vm_compute. reflexivity.
Defined.

Lemma preview_first_code_units_witness :
  exists r,
    @buildExtractionRecord example_platform (example_params [] (microbes 600)) 0
    = (Normal r, 1%nat)
    /\ ExtractionRecord.rawTextPreview r = firstn 600 (microbes 600)
    /\ ((js_length (microbes 600) <= 600)%nat ->
        ExtractionRecord.rawTextPreview r = microbes 600).
Proof.
  apply (@preview_first_code_units example_platform
           (example_params [] (microbes 600)) 0%nat).
  vm_compute. reflexivity.
Defined.

(** C4 as it is stated fails on a text of 600 microbe emoji: the text has
    600 code points, so the statement keeps it unchanged, but the preview
    is cut to 600 code units, which are 300 emoji. *)
Lemma preview_scalar_units_counterexample :
  length (code_points (microbes 600)) = 600%nat
  /\ take_code_points 600 (microbes 600) = microbes 600
  /\ match fst (@buildExtractionRecord example_platform
                  (example_params [] (microbes 600)) 0) with
     | Normal r =>
         ExtractionRecord.rawTextPreview r <> take_code_points 600 (microbes 600)
         /\ ExtractionRecord.rawTextPreview r <> microbes 600
         /\ ExtractionRecord.rawTextPreview r = microbes 300
     | Throw _ => False
     end.
Proof.
  split; [vm_compute; reflexivity|].
  split; [vm_compute; reflexivity|].
  assert (Hpreview : fst (@buildExtractionRecord example_platform
                            (example_params [] (microbes 600)) 0)
                     = Normal
                         {| ExtractionRecord.id := str "uuid-0";
                            ExtractionRecord.fileName := str "report.pdf";
                            ExtractionRecord.fileSize := num_of_Z 2048;
                            ExtractionRecord.processedAt := str "1970-01-01T00:00:00.000Z";
                            ExtractionRecord.durationMs := num_of_Z 4380;
                            ExtractionRecord.summary :=
                              {| ExtractionSummary.organismCount := 0;
                                 ExtractionSummary.uniqueSpecies := 0;
                                 ExtractionSummary.resistanceCount := 0;
                                 ExtractionSummary.sourceCount := 0;
                                 ExtractionSummary.pathogenicityCount := 0;
                                 ExtractionSummary.keyFindings := [] |};
                            ExtractionRecord.entities := [];
                            ExtractionRecord.rawTextPreview := microbes 300 |})
    by (vm_compute; reflexivity).
  rewrite Hpreview. cbn [ExtractionRecord.rawTextPreview].
  split_and!; [| |reflexivity];
    intros Heq; apply (f_equal length) in Heq; vm_compute in Heq; discriminate.
Qed.

Lemma download_name_keeps_extension_witness :
  Download.fileName
    (@downloadRecordAsJson example_platform (example_record (str "report.pdf") []))
  = str "report.pdf" ++ str "-micr-ai.json"
  /\ Download.fileName
       (@downloadRecordAsCsv example_platform (example_record (str "report.pdf") []))
     = str "report.pdf" ++ str "-micr-ai.csv".
Proof.
  apply (@download_name_keeps_extension example_platform
           (example_record (str "report.pdf") [])).
  vm_compute. reflexivity.
Defined.

(** C6 as it is stated fails on an entity without a resistance list: its
    row is made of empty cells only, and its resistance cell is not
    quoted. *)
Lemma resistance_cell_counterexample :
  MicrobialEntity.resistance unnamed = None
  /\ @row example_platform unnamed = str ",,,,,,,,,,,"
  /\ @cell example_platform (property unnamed (str "resistance")) = []
  /\ ~ quoted (@cell example_platform (property unnamed (str "resistance"))).
Proof.
  split_and!; try (vm_compute; reflexivity).
  intros [body Hbody]. vm_compute in Hbody. discriminate.
Qed.

Lemma key_findings_labels_witness :
  exists r,
    @buildExtractionRecord example_platform
      (example_params [salmonella; unnamed; isolate] (str "Salmonella enterica")) 0
    = (Normal r, 1%nat)
    /\ ExtractionSummary.keyFindings (ExtractionRecord.summary r)
       = [str "Salmonella enterica"; placeholder; str "Escherichia coli K-12"]
    /\ length (ExtractionSummary.keyFindings (ExtractionRecord.summary r)) = 3%nat.
Proof.
  apply (@key_findings_labels example_platform
           (example_params [salmonella; unnamed; isolate] (str "Salmonella enterica"))
           0%nat).
  vm_compute. reflexivity.
Defined.

Lemma loadStoredRecords_never_throws_witness :
  @loadStoredRecords example_platform (store_holding (str "7")) = Normal [].
Proof.
  apply (proj1 (proj2 (proj2 (proj2
           (@loadStoredRecords_never_throws example_platform
              (store_holding (str "7"))))))
           (str "7") (JNum (num_of_Z 7))).
  - vm_compute. reflexivity.
  - vm_compute. reflexivity.
  - intros records. discriminate.
Defined.

Lemma csv_cells_witness :
  @cell example_platform (property isolate (str "resistance"))
  = [dquote] ++ double_quotes (join (str "; ") [str "ampicillin"; str "tetracycline"])
    ++ [dquote].
Proof.
  apply (proj1 (proj2 (@csv_cells example_platform isolate))).
  reflexivity.
Defined.

(** A run on the example state: the document that cannot be read ends in
    error, the document after it is still processed and ends complete, and
    the document that was complete is not touched; the history gains one
    record, and the alerts the error and the duration. *)
Example processDocuments_example :
  match @processDocuments example_platform example_world (num_of_Z 0) (num_of_Z 5000)
          example_state 1
  with
  | (Normal state', k') =>
      List.map UploadDocument.status (AppState.documents state')
      = [Phase.error; Phase.complete; Phase.complete]
      /\ List.map UploadDocument.error (AppState.documents state')
         = [Some (Error Unrecognised); None; None]
      /\ List.map ExtractionRecord.fileName (AppState.records state')
         = [str "report.pdf"; str "old.pdf"]
      /\ List.map Alert.type (AppState.alerts state')
         = [Alert.info; Alert.error; Alert.info]
      /\ AppState.isProcessing state' = false
      /\ k' = 4%nat
  | (Throw _, _) => False
  end.
Proof. vm_compute. split_and!; reflexivity. Qed.

(** A file of exactly 20 MiB is taken; a file that is not a PDF file is
    not. *)
Example accepted_example :
  accepted example_file = true /\ accepted text_file = false.
Proof. vm_compute. split; reflexivity. Qed.

(** * Instances of the further properties *)

Lemma normalized_resistance_no_empty_witness :
  exists r,
    MicrobialEntity.resistance normalized_ecoli = Some r
    /\ Forall (fun s => s <> []) r.
Proof.
  apply (@normalized_resistance_no_empty example_platform example_content 3%nat 5%nat
           example_out normalized_ecoli).
  - vm_compute. reflexivity.
  - apply list_elem_of_lookup. exists 1%nat. reflexivity.
Defined.

Lemma normalized_strings_trimmed_witness :
  Forall null_or_trimmed (string_fields normalized_salmonella).
Proof.
  apply (@normalized_strings_trimmed example_platform example_content 3%nat 5%nat
           example_out normalized_salmonella).
  - vm_compute. reflexivity.
  - apply list_elem_of_lookup. exists 0%nat. reflexivity.
Defined.

Lemma normalized_confidence_in_range_witness :
  null_or_unit (MicrobialEntity.confidence normalized_salmonella).
Proof.
  apply (@normalized_confidence_in_range example_platform example_content 3%nat 5%nat
           example_out normalized_salmonella).
  - vm_compute. reflexivity.
  - apply list_elem_of_lookup. exists 0%nat. reflexivity.
Defined.

Lemma normalize_ignores_unknown_properties_witness :
  @normalize example_platform
    (JObj (<[ str "entities" := JArr [salmonella_extended] ]>
             {[ str "entities" := JArr [salmonella_raw] ]})) 0
  = @normalize example_platform (JObj {[ str "entities" := JArr [salmonella_raw] ]}) 0.
Proof.
  apply (@normalize_ignores_unknown_properties example_platform
           {[ str "entities" := JArr [salmonella_raw] ]}
           [salmonella_raw] [salmonella_extended] 0%nat).
  - vm_compute. reflexivity.
  - constructor; [|constructor].
    change (forall key, key ∈ schema_keys ->
              properties_of salmonella_raw !! key
              = <[ str "plasmid" := JStr (str "pSLT") ]>
                  (<[ str "id" := JNum (num_of_Z 12) ]> (properties_of salmonella_raw))
                !! key).
    intros key Hkey. unfold schema_keys in Hkey.
    repeat (apply elem_of_cons in Hkey as [->|Hkey]; [vm_compute; reflexivity|]).
    by apply elem_of_nil in Hkey.
Defined.

Lemma normalized_ids_distinct_witness :
  MicrobialEntity.id <$> example_out
  = @randomUUID_at example_platform <$> seq 3 (length example_out)
  /\ NoDup (MicrobialEntity.id <$> example_out).
Proof.
  apply (@normalized_ids_distinct example_platform example_content 3%nat 5%nat example_out).
  - vm_compute. reflexivity.
  - apply (bool_decide_unpack _). vm_compute. exact I.
Defined.

Lemma buildExtractionRecord_outcome_witness :
  @buildExtractionRecord example_platform
    {| Params.fileName := str "report.pdf";
       Params.fileSize := num_of_Z 2048;
       Params.startedAt := num_of_Z 120;
       Params.finishedAt := S754_nan;
       Params.entities := [];
       Params.rawText := [] |} 7
  = (Throw RangeError, 8%nat).
Proof.
  apply (proj1 (@buildExtractionRecord_outcome example_platform
                  {| Params.fileName := str "report.pdf";
                     Params.fileSize := num_of_Z 2048;
                     Params.startedAt := num_of_Z 120;
                     Params.finishedAt := S754_nan;
                     Params.entities := [];
                     Params.rawText := [] |} 7%nat)).
  vm_compute. reflexivity.
Defined.

Lemma summary_source_counts_witness :
  exists r,
    @buildExtractionRecord example_platform
      (example_params [salmonella; unnamed; isolate] (str "Salmonella enterica")) 0
    = (Normal r, 1%nat)
    /\ (ExtractionSummary.sourceCount (ExtractionRecord.summary r)
        <= ExtractionSummary.organismCount (ExtractionRecord.summary r))%nat
    /\ (ExtractionSummary.pathogenicityCount (ExtractionRecord.summary r)
        <= ExtractionSummary.organismCount (ExtractionRecord.summary r))%nat
    /\ (ExtractionSummary.sourceCount (ExtractionRecord.summary r)
        + length (List.filter
                    (fun entity => negb (truthy_maybe (MicrobialEntity.source entity)))
                    [salmonella; unnamed; isolate])
        = ExtractionSummary.organismCount (ExtractionRecord.summary r))%nat.
Proof.
  apply (@summary_source_counts example_platform
           (example_params [salmonella; unnamed; isolate] (str "Salmonella enterica"))
           0%nat).
  vm_compute. reflexivity.
Defined.

Lemma unique_species_zero_witness :
  exists r,
    @buildExtractionRecord example_platform (example_params [unnamed] []) 0
    = (Normal r, 1%nat)
    /\ (ExtractionSummary.uniqueSpecies (ExtractionRecord.summary r) = 0%nat
        <-> Forall no_species [unnamed]).
Proof.
  apply (@unique_species_zero example_platform (example_params [unnamed] []) 0%nat).
  vm_compute. reflexivity.
Defined.

Lemma unique_species_of_labels_witness :
  exists r r',
    @buildExtractionRecord example_platform
      (example_params [salmonella; isolate; salmonella] []) 0
    = (Normal r, 1%nat)
    /\ @buildExtractionRecord example_platform
         (example_params [isolate; salmonella] []) 5
       = (Normal r', 6%nat)
    /\ ExtractionSummary.uniqueSpecies (ExtractionRecord.summary r)
       = ExtractionSummary.uniqueSpecies (ExtractionRecord.summary r').
Proof.
  apply (@unique_species_of_labels example_platform
           (example_params [salmonella; isolate; salmonella] [])
           (example_params [isolate; salmonella] []) 0%nat 5%nat).
  - vm_compute. reflexivity.
  - vm_compute. reflexivity.
  - intros label. cbn [example_params Params.entities List.map].
    rewrite !elem_of_cons. tauto.
Defined.

Lemma replace_first_pdf_pattern_witness :
  replace_first pdf_pattern [] scan_name = str "scan".
Proof.
  apply (proj1 (replace_first_pdf_pattern scan_name) (str "scan") ([0x5C%N] ++ str "xPDF")).
  - reflexivity.
  - exists 0x78%N, 0x50%N, 0x44%N, 0x46%N. split_and!; try reflexivity; by right.
Defined.

Lemma cell_with_separator_quoted_witness :
  quoted (@cell example_platform (property isolate (str "source"))).
Proof.
  apply (@cell_with_separator_quoted example_platform (property isolate (str "source"))).
  vm_compute. reflexivity.
Defined.


Lemma extractTextFromPdf_text_witness :
  is_trimmed example_text = true
  /\ (two_pages = Normal [] -> example_text = [])
  /\ (forall page pages,
        two_pages = Normal (page :: pages) ->
        exists rest,
          example_text
          = str "[Page " ++ @Number_toString example_platform (num_of_Z 1) ++ str "]"
            ++ rest).
Proof.
  apply (@extractTextFromPdf_text example_platform two_pages example_text).
  vm_compute. reflexivity.
Defined.

Lemma process_document_outcome_witness :
  @process_document example_platform example_world example_settings example_state
    (document_of (str "doc-2") broken_file Phase.ready) 1
  = (Normal (set_alerts
               (AppState.alerts example_state
                ++ [{| Alert.id := @randomUUID_at example_platform 1;
                       Alert.type := Alert.error;
                       Alert.message := Alert.Failure (Error Unrecognised) |}])
               (update_document (str "doc-2") (failed (Error Unrecognised)) example_state)),
     2%nat).
Proof.
  apply (proj2 (@process_document_outcome example_platform example_world example_settings
                  example_state (document_of (str "doc-2") broken_file Phase.ready) 1%nat)
           (Error Unrecognised) 1%nat).
  vm_compute. reflexivity.
Defined.

Lemma pipeline_success_witness :
  exists record,
    @pipeline example_platform example_world
      (document_of (str "doc-1") example_file Phase.ready) example_settings 1
    = (Normal record, 2%nat)
    /\ ExtractionRecord.id record = @randomUUID_at example_platform 1
    /\ ExtractionRecord.fileName record = str "report.pdf"
    /\ ExtractionRecord.fileSize record = MAX_FILE_SIZE
    /\ ExtractionRecord.entities record = []
    /\ ExtractionSummary.organismCount (ExtractionRecord.summary record) = 0%nat
    /\ ExtractionRecord.rawTextPreview record = firstn 600 example_text.
Proof.
  assert (Hconforms : conforms (JObj ∅))
    by (apply conforms_expected_shape; vm_compute; reflexivity).
  exact (@pipeline_success example_platform example_world
           (document_of (str "doc-1") example_file Phase.ready) example_settings
           example_text (answer (envelope_of (JStr (str "{}"))))
           (envelope_of (JStr (str "{}"))) (JObj ∅) 1%nat
           ltac:(vm_compute; reflexivity) eq_refl eq_refl eq_refl
           ltac:(vm_compute; reflexivity) Hconforms ltac:(vm_compute; reflexivity)).
Defined.


Lemma dismiss_added_alert_witness :
  exists state',
    @addAlert example_platform Alert.success (Alert.Added 2) example_state 1
    = (Normal state', 2%nat)
    /\ dismissAlert (@randomUUID_at example_platform 1) state' = example_state.
Proof.
  apply (@dismiss_added_alert example_platform Alert.success (Alert.Added 2)
           example_state 1%nat).
  constructor; [|constructor]. vm_compute. discriminate.
Defined.
